(** * Magewell Pro Convert control client: a shallow embedding

    The development follows [magewell_pro_convert.py]: the
    [MagewellSwitcher] session class, the table printer
    [display_ndi_sources], the command dispatcher [main] and the menu loop
    [run_interactive_mode].

    Python values that come back from the device are dynamically typed, so
    they are modelled by the inductive [pyval]; exceptions are explicit in
    the result type; the mutable session object, the requests that were
    sent, standard input and standard output are threaded through a small
    state-and-exception monad. *)

From Stdlib Require Import ZArith NArith List String Ascii Bool Lia.
From Stdlib Require Import SpecFloat.
Import ListNotations.

Set Implicit Arguments.
Set Warnings "-register-all".

(* ================================================================== *)
(** ** Python strings *)
(* ================================================================== *)

(** A Python [str] is a sequence of Unicode code points. *)
Definition pystr := list N.

Module PyStr.

(** A literal of the source text (all of them are ASCII). *)
Definition lit (s : string) : pystr :=
  map N_of_ascii (list_ascii_of_string s).

Definition eqb (s t : pystr) : bool :=
  if list_eq_dec N.eq_dec s t then true else false.

(** [len(s)] *)
Definition len (s : pystr) : nat := List.length s.

Definition space : N := 32%N.

(** [format(s, "<w")] on a [str]: left-justified in a field of minimum
    width [w]; a longer string is left as it is. *)
Definition ljust (w : nat) (s : pystr) : pystr :=
  s ++ repeat space (w - len s).

(** [format(n, "w")] on the digits of an [int]: right-justified. *)
Definition rjust (w : nat) (s : pystr) : pystr :=
  repeat space (w - len s) ++ s.

(** Decimal digits of a natural number, most significant first. *)
Fixpoint digits_fuel (fuel : nat) (n : N) (acc : pystr) : pystr :=
  match fuel with
  | O => acc
  | S fuel' =>
      let acc' := (48 + n mod 10)%N :: acc in
      if (n <? 10)%N then acc' else digits_fuel fuel' (n / 10)%N acc'
  end.

Definition of_N (n : N) : pystr :=
  digits_fuel (S (N.to_nat (N.log2 n))) n [].

(** [str(z)] for an [int]. *)
Definition of_Z (z : Z) : pystr :=
  match z with
  | Zneg p => 45%N :: of_N (Npos p)
  | _ => of_N (Z.to_N z)
  end.

(** [s.encode()]: UTF-8, strict.  [None] stands for [UnicodeEncodeError]
    (a lone surrogate); numbers above U+10FFFF are not code points and
    are rejected as well. *)
Definition utf8_char (c : N) : option (list N) :=
  if (c <? 0x80)%N then Some [c]
  else if (c <? 0x800)%N then
    Some [N.lor 0xC0 (N.shiftr c 6); N.lor 0x80 (N.land c 0x3F)]
  else if ((0xD800 <=? c) && (c <=? 0xDFFF))%N then None
  else if (c <? 0x10000)%N then
    Some [N.lor 0xE0 (N.shiftr c 12);
          N.lor 0x80 (N.land (N.shiftr c 6) 0x3F);
          N.lor 0x80 (N.land c 0x3F)]
  else if (c <=? 0x10FFFF)%N then
    Some [N.lor 0xF0 (N.shiftr c 18);
          N.lor 0x80 (N.land (N.shiftr c 12) 0x3F);
          N.lor 0x80 (N.land (N.shiftr c 6) 0x3F);
          N.lor 0x80 (N.land c 0x3F)]
  else None.

Fixpoint encode (s : pystr) : option (list N) :=
  match s with
  | [] => Some []
  | c :: s' =>
      match utf8_char c, encode s' with
      | Some bs, Some rest => Some (bs ++ rest)
      | _, _ => None
      end
  end.

End PyStr.

Notation "'$' s" := (PyStr.lit s) (at level 1, s at level 0, format "'$' s").

(* ================================================================== *)
(** ** [hashlib.md5]: the MD5 message digest (RFC 1321) *)
(* ================================================================== *)

Module MD5.
Local Open Scope Z_scope.

Definition mask32 : Z := 0xFFFFFFFF.
Definition add32 (a b : Z) : Z := Z.land (a + b) mask32.
Definition not32 (a : Z) : Z := Z.lxor a mask32.
Definition rotl32 (x c : Z) : Z :=
  Z.land (Z.lor (Z.shiftl x c) (Z.shiftr x (32 - c))) mask32.

(** Per-round shift amounts. *)
Definition S_table : list Z :=
  [7; 12; 17; 22; 7; 12; 17; 22; 7; 12; 17; 22; 7; 12; 17; 22;
   5;  9; 14; 20; 5;  9; 14; 20; 5;  9; 14; 20; 5;  9; 14; 20;
   4; 11; 16; 23; 4; 11; 16; 23; 4; 11; 16; 23; 4; 11; 16; 23;
   6; 10; 15; 21; 6; 10; 15; 21; 6; 10; 15; 21; 6; 10; 15; 21].

(** [K_table[i] = floor(2^32 * abs(sin(i + 1)))]. *)
Definition K_table : list Z :=
  [0xd76aa478; 0xe8c7b756; 0x242070db; 0xc1bdceee;
   0xf57c0faf; 0x4787c62a; 0xa8304613; 0xfd469501;
   0x698098d8; 0x8b44f7af; 0xffff5bb1; 0x895cd7be;
   0x6b901122; 0xfd987193; 0xa679438e; 0x49b40821;
   0xf61e2562; 0xc040b340; 0x265e5a51; 0xe9b6c7aa;
   0xd62f105d; 0x02441453; 0xd8a1e681; 0xe7d3fbc8;
   0x21e1cde6; 0xc33707d6; 0xf4d50d87; 0x455a14ed;
   0xa9e3e905; 0xfcefa3f8; 0x676f02d9; 0x8d2a4c8a;
   0xfffa3942; 0x8771f681; 0x6d9d6122; 0xfde5380c;
   0xa4beea44; 0x4bdecfa9; 0xf6bb4b60; 0xbebfbc70;
   0x289b7ec6; 0xeaa127fa; 0xd4ef3085; 0x04881d05;
   0xd9d4d039; 0xe6db99e5; 0x1fa27cf8; 0xc4ac5665;
   0xf4292244; 0x432aff97; 0xab9423a7; 0xfc93a039;
   0x655b59c3; 0x8f0ccc92; 0xffeff47d; 0x85845dd1;
   0x6fa87e4f; 0xfe2ce6e0; 0xa3014314; 0x4e0811a1;
   0xf7537e82; 0xbd3af235; 0x2ad7d2bb; 0xeb86d391].

(** The four chaining words A, B, C, D. *)
Record state := mk_state { sA : Z; sB : Z; sC : Z; sD : Z }.

Definition init : state :=
  mk_state 0x67452301 0xefcdab89 0x98badcfe 0x10325476.

(** The bytes of [x], least significant first. *)
Fixpoint le_bytes (n : nat) (x : Z) : list Z :=
  match n with
  | O => []
  | S n' => Z.land x 0xFF :: le_bytes n' (Z.shiftr x 8)
  end.

(** Padding: a 1 bit, zeros up to 56 modulo 64, the bit length on 64 bits. *)
Definition pad (msg : list Z) : list Z :=
  let len := Z.of_nat (List.length msg) in
  msg ++ [0x80] ++ repeat 0 (Z.to_nat ((55 - len) mod 64))
      ++ le_bytes 8 ((8 * len) mod 2 ^ 64).

(** Little-endian 32-bit words of a byte sequence. *)
Fixpoint words_le (bs : list Z) : list Z :=
  match bs with
  | a :: b :: c :: d :: rest =>
      (a + Z.shiftl b 8 + Z.shiftl c 16 + Z.shiftl d 24) :: words_le rest
  | _ => []
  end.

Definition step (M : list Z) (st : state) (i : nat) : state :=
  let '(mk_state a b c d) := st in
  let iz := Z.of_nat i in
  let '(f, g) :=
    if iz <? 16 then (Z.lor (Z.land b c) (Z.land (not32 b) d), iz)
    else if iz <? 32 then
      (Z.lor (Z.land d b) (Z.land (not32 d) c), (5 * iz + 1) mod 16)
    else if iz <? 48 then (Z.lxor (Z.lxor b c) d, (3 * iz + 5) mod 16)
    else (Z.lxor c (Z.lor b (not32 d)), (7 * iz) mod 16) in
  let f' := add32 (add32 (add32 f a) (nth i K_table 0))
                  (nth (Z.to_nat g) M 0) in
  mk_state d (add32 b (rotl32 f' (nth i S_table 0))) b c.

Definition block (M : list Z) (st : state) : state :=
  let st' := fold_left (step M) (seq 0 64) st in
  mk_state (add32 (sA st) (sA st')) (add32 (sB st) (sB st'))
           (add32 (sC st) (sC st')) (add32 (sD st) (sD st')).

Fixpoint blocks (n : nat) (ws : list Z) (st : state) : state :=
  match n with
  | O => st
  | S n' => blocks n' (skipn 16 ws) (block (firstn 16 ws) st)
  end.

(** [hashlib.md5(msg).digest()] *)
Definition digest (msg : list Z) : list Z :=
  let ws := words_le (pad msg) in
  let st := blocks (Nat.div (List.length ws) 16) ws init in
  le_bytes 4 (sA st) ++ le_bytes 4 (sB st)
    ++ le_bytes 4 (sC st) ++ le_bytes 4 (sD st).

Definition hex_digit (d : Z) : N :=
  if d <? 10 then Z.to_N (48 + d) else Z.to_N (87 + d).

(** [hashlib.md5(msg).hexdigest()]: lower-case hexadecimal. *)
Definition hexdigest (msg : list Z) : pystr :=
  flat_map (fun b => [hex_digit (Z.shiftr b 4); hex_digit (Z.land b 0xF)])
           (digest msg).

End MD5.

Definition md5_of (s : pystr) : option pystr :=
  option_map (fun bs => MD5.hexdigest (map Z.of_N bs)) (PyStr.encode s).

(* ================================================================== *)
(** ** Python values *)
(* ================================================================== *)

(** What [response.json()] can return: the Python image of a JSON text.
    A [dict] keeps its items in insertion order with distinct keys. *)
Inductive pyval : Type :=
| PyNone
| PyBool (b : bool)
| PyInt (z : Z)
| PyFloat (f : spec_float)
| PyStr (s : pystr)
| PyList (l : list pyval)
| PyDict (d : list (pystr * pyval)).

(** The exceptions that the program can meet. *)
Inductive exn : Type :=
| RequestException      (* raised by [session.get] *)
| JSONDecodeError       (* raised by [response.json()] *)
| UnicodeEncodeError
| AttributeError
| TypeError
| ValueError
| KeyError
| IndexError
| EOFError
| SystemExit (code : Z).

(** [isinstance(e, Exception)]: [SystemExit] derives from [BaseException]
    only. *)
Definition is_Exception (e : exn) : bool :=
  match e with SystemExit _ => false | _ => true end.

Definition is_ValueError (e : exn) : bool :=
  match e with
  | ValueError | JSONDecodeError | UnicodeEncodeError => true
  | _ => false
  end.

Inductive result (A : Type) : Type :=
| Val (a : A)
| Raise (e : exn).
Arguments Val {A} a.
Arguments Raise {A} e.

Module Py.

(** [bool(v)] *)
Definition truthy (v : pyval) : bool :=
  match v with
  | PyNone => false
  | PyBool b => b
  | PyInt z => negb (z =? 0)%Z
  | PyFloat (S754_zero _) => false
  | PyFloat _ => true
  | PyStr s => negb (PyStr.eqb s [])
  | PyList [] => false
  | PyList _ => true
  | PyDict [] => false
  | PyDict _ => true
  end.

(** [v == 0] *)
Definition eq_zero (v : pyval) : bool :=
  match v with
  | PyInt z => (z =? 0)%Z
  | PyBool b => negb b
  | PyFloat (S754_zero _) => true
  | _ => false
  end.

Fixpoint lookup (k : pystr) (d : list (pystr * pyval)) : option pyval :=
  match d with
  | [] => None
  | (k', v) :: d' => if PyStr.eqb k k' then Some v else lookup k d'
  end.

(** [v.get(k, default)]: only a [dict] has the method. *)
Definition get (v : pyval) (k : pystr) (default : pyval) : result pyval :=
  match v with
  | PyDict d =>
      Val (match lookup k d with Some x => x | None => default end)
  | _ => Raise AttributeError
  end.

(** [len(v)] *)
Definition len (v : pyval) : result nat :=
  match v with
  | PyStr s => Val (List.length s)
  | PyList l => Val (List.length l)
  | PyDict d => Val (List.length d)
  | _ => Raise TypeError
  end.

(** [v[i]] for an index [0 <= i]. *)
Definition index (v : pyval) (i : nat) : result pyval :=
  match v with
  | PyList l =>
      match nth_error l i with Some x => Val x | None => Raise IndexError end
  | PyStr s =>
      match nth_error s i with
      | Some c => Val (PyStr [c])
      | None => Raise IndexError
      end
  | PyDict _ => Raise KeyError       (* the keys of a JSON object are strings *)
  | _ => Raise TypeError
  end.

(** The items that [enumerate(v, 1)] walks through. *)
Definition iter (v : pyval) : result (list pyval) :=
  match v with
  | PyList l => Val l
  | PyStr s => Val (map (fun c => PyStr [c]) s)
  | PyDict d => Val (map (fun kv => PyStr (fst kv)) d)
  | _ => Raise TypeError
  end.

End Py.

(* ================================================================== *)
(** ** The surroundings of the program *)
(* ================================================================== *)

(** Built-ins of the interpreter that the program calls and that are taken
    as given: the text of a [float], a [list] or a [dict], the Unicode
    tables for the code points outside ASCII,
    [sys.get_int_max_str_digits()], and the code points outside ASCII for
    which the encoding of [sys.stdout] (with its error handler) has
    bytes. *)
Class Runtime : Type := {
  py_repr : pyval -> pystr;
  Py_UNICODE_ISSPACE : N -> bool;
  Py_UNICODE_TODECIMAL : N -> option N;
  int_max_str_digits : nat;
  stdout_encodes : N -> bool
}.

(** One call of [session.get(url, params=params)]. *)
Record Request : Type := {
  url : pystr;
  params : list (pystr * pyval)
}.

(** What comes back: the call raises, or there is a response whose body
    either parses as JSON or does not. *)
Inductive Reply : Type :=
| TransportError
| Response (body : option pyval).

(** The device and the network in front of it: the reply to the latest
    request, given all the requests sent so far (the latest one last). *)
Class Device : Type := respond : list Request -> Reply.

Inductive Level : Type := INFO | ERROR.

Inductive LogMsg : Type :=
| LoggedIn (ip : pystr)
| LoginFailed (data : pyval)
| LoginError (e : exn)
| ChannelFailed (data : pyval)
| ChannelError (e : exn)
| SourcesFailed (data : pyval)
| SourcesError (e : exn)
| Switched (source_name : pyval)
| SwitchFailed (data : pyval)
| SwitchError (e : exn).

Inductive OutEvent : Type :=
| Print (line : pystr)        (* [print(line)] *)
| Prompt (text : pystr)       (* the prompt written by [input(text)] *)
| Help.                       (* [parser.print_help()] *)

(** The fields of a [MagewellSwitcher] object.  [cached_sources] is the
    attribute that the menu loop adds; [None] when it was never set. *)
Record MagewellSwitcher : Type := {
  ip_address : pystr;
  username : pystr;
  password : pystr;
  authenticated : bool;
  cached_sources : option pyval
}.

Record Proc : Type := {
  self : MagewellSwitcher;
  sent : list Request;
  stdin : list pystr;
  stdout : list OutEvent;
  log : list (Level * LogMsg)
}.

(* ================================================================== *)
(** ** State and exceptions *)
(* ================================================================== *)

Definition M (A : Type) : Type := Proc -> result A * Proc.

Definition ret {A} (a : A) : M A := fun p => (Val a, p).

Definition raise {A} (e : exn) : M A := fun p => (Raise e, p).

Definition bind {A B} (m : M A) (k : A -> M B) : M B :=
  fun p =>
    match m p with
    | (Val a, p') => k a p'
    | (Raise e, p') => (Raise e, p')
    end.

Definition lift {A} (r : result A) : M A := fun p => (r, p).

(** [try: body  except C as e: handler(e)], where [catches] decides
    [isinstance(e, C)].  What [body] did before raising stays done. *)
Definition try_except {A} (catches : exn -> bool)
           (body : M A) (handler : exn -> M A) : M A :=
  fun p =>
    match body p with
    | (Raise e, p') => if catches e then handler e p' else (Raise e, p')
    | r => r
    end.

Declare Scope py_scope.
Delimit Scope py_scope with py.
Notation "x <- c ;; k" := (bind c (fun x => k))
  (at level 61, c at next level, right associativity) : py_scope.
Notation "c ;; k" := (bind c (fun _ => k))
  (at level 61, right associativity) : py_scope.
Local Open Scope py_scope.

Definition get_self : M MagewellSwitcher := fun p => (Val (self p), p).

Definition set_authenticated (b : bool) : M unit :=
  fun p =>
    let sw := self p in
    (Val tt,
     {| self := {| ip_address := ip_address sw; username := username sw;
                   password := password sw; authenticated := b;
                   cached_sources := cached_sources sw |};
        sent := sent p; stdin := stdin p; stdout := stdout p; log := log p |}).

Definition set_cached_sources (v : pyval) : M unit :=
  fun p =>
    let sw := self p in
    (Val tt,
     {| self := {| ip_address := ip_address sw; username := username sw;
                   password := password sw; authenticated := authenticated sw;
                   cached_sources := Some v |};
        sent := sent p; stdin := stdin p; stdout := stdout p; log := log p |}).

Definition emit (o : OutEvent) : M unit :=
  fun p =>
    (Val tt,
     {| self := self p; sent := sent p; stdin := stdin p;
        stdout := stdout p ++ [o]; log := log p |}).

(** [sys.stdout] can encode the text: every character is ASCII, which
    the encoding of the stream is taken to cover, or one of the others
    that it has bytes for. *)
Definition can_print `{Runtime} (text : pystr) : bool :=
  forallb (fun c => (c <? 128)%N || stdout_encodes c) text.

(** [print(line)]: the text is encoded as a whole before anything is
    written, so a text that [sys.stdout] cannot encode raises
    [UnicodeEncodeError] and leaves the output as it was. *)
Definition print `{Runtime} (line : pystr) : M unit :=
  if can_print line then emit (Print line) else raise UnicodeEncodeError.

(** [input(text)]: the prompt (an ASCII text wherever the program calls
    it), then the next line of standard input without its newline;
    [EOFError] when there is none. *)
Definition input (text : pystr) : M pystr :=
  emit (Prompt text) ;;
  fun p =>
    match stdin p with
    | [] => (Raise EOFError, p)
    | line :: rest =>
        (Val line,
         {| self := self p; sent := sent p; stdin := rest;
            stdout := stdout p; log := log p |})
    end.

Definition logger (lvl : Level) (m : LogMsg) : M unit :=
  fun p =>
    (Val tt,
     {| self := self p; sent := sent p; stdin := stdin p;
        stdout := stdout p; log := log p ++ [(lvl, m)] |}).

(** [self.session.get(url, params=params)]: the request goes out, and
    either the call raises or a response comes back. *)
Definition session_get `{Device} (u : pystr) (ps : list (pystr * pyval))
  : M (option pyval) :=
  fun p =>
    let history := sent p ++ [{| url := u; params := ps |}] in
    let p' := {| self := self p; sent := history; stdin := stdin p;
                 stdout := stdout p; log := log p |} in
    match respond history with
    | TransportError => (Raise RequestException, p')
    | Response body => (Val body, p')
    end.

(** [response.json()] *)
Definition response_json (response : option pyval) : M pyval :=
  match response with
  | Some data => ret data
  | None => raise JSONDecodeError
  end.

(* ================================================================== *)
(** ** class MagewellSwitcher *)
(* ================================================================== *)

(** [__init__]: a fresh session is not authenticated and has no cache. *)
Definition MagewellSwitcher_init (ip user pw : pystr) : MagewellSwitcher :=
  {| ip_address := ip; username := user; password := pw;
     authenticated := false; cached_sources := None |}.

(** [self.base_url] *)
Definition base_url (sw : MagewellSwitcher) : pystr :=
  $"http://" ++ ip_address sw ++ $"/mwapi".

(** [hashlib.md5(self.password.encode()).hexdigest()] *)
Definition _hash_password : M pystr :=
  sw <- get_self ;;
  match PyStr.encode (password sw) with
  | Some bs => ret (MD5.hexdigest (map Z.of_N bs))
  | None => raise UnicodeEncodeError
  end.

Definition login_params (user hash : pystr) : list (pystr * pyval) :=
  [($"method", PyStr $"login"); ($"id", PyStr user); ($"pass", PyStr hash)].

Definition login `{Device} : M bool :=
  try_except is_Exception
    (sw <- get_self ;;
     hash <- _hash_password ;;
     response <- session_get (base_url sw) (login_params (username sw) hash) ;;
     data <- response_json response ;;
     status <- lift (Py.get data $"status" PyNone) ;;
     if Py.eq_zero status then
       set_authenticated true ;;
       logger INFO (LoggedIn (ip_address sw)) ;;
       ret true
     else
       logger ERROR (LoginFailed data) ;;
       ret false)
    (fun e => logger ERROR (LoginError e) ;; ret false).

Definition _check_auth `{Device} : M bool :=
  sw <- get_self ;;
  if negb (authenticated sw) then login else ret true.

Definition get_channel_params : list (pystr * pyval) :=
  [($"method", PyStr $"get-channel")].

(** Returns the response dictionary, or [PyNone]. *)
Definition get_current_channel `{Device} : M pyval :=
  ok <- _check_auth ;;
  if negb ok then ret PyNone
  else
    try_except is_Exception
      (sw <- get_self ;;
       response <- session_get (base_url sw) get_channel_params ;;
       data <- response_json response ;;
       status <- lift (Py.get data $"status" PyNone) ;;
       if Py.eq_zero status then ret data
       else logger ERROR (ChannelFailed data) ;; ret PyNone)
      (fun e => logger ERROR (ChannelError e) ;; ret PyNone).

Definition get_ndi_sources_params : list (pystr * pyval) :=
  [($"method", PyStr $"get-ndi-sources")].

(** Returns the value of the [sources] field, or [PyNone]. *)
Definition get_ndi_sources `{Device} : M pyval :=
  ok <- _check_auth ;;
  if negb ok then ret PyNone
  else
    try_except is_Exception
      (sw <- get_self ;;
       response <- session_get (base_url sw) get_ndi_sources_params ;;
       data <- response_json response ;;
       status <- lift (Py.get data $"status" PyNone) ;;
       if Py.eq_zero status then lift (Py.get data $"sources" (PyList []))
       else logger ERROR (SourcesFailed data) ;; ret PyNone)
      (fun e => logger ERROR (SourcesError e) ;; ret PyNone).

Definition set_channel_params (source_name : pyval) : list (pystr * pyval) :=
  [($"method", PyStr $"set-channel"); ($"ndi-name", PyStr $"true");
   ($"name", source_name)].

Definition set_channel `{Device} (source_name : pyval) : M bool :=
  ok <- _check_auth ;;
  if negb ok then ret false
  else
    try_except is_Exception
      (sw <- get_self ;;
       response <- session_get (base_url sw) (set_channel_params source_name) ;;
       data <- response_json response ;;
       status <- lift (Py.get data $"status" PyNone) ;;
       if Py.eq_zero status then
         logger INFO (Switched source_name) ;; ret true
       else
         logger ERROR (SwitchFailed data) ;; ret false)
      (fun e => logger ERROR (SwitchError e) ;; ret false).

(* ================================================================== *)
(** ** display_ndi_sources *)
(* ================================================================== *)

(** [format(v, "<w")] as the f-string [{v:<w}] computes it: a [str] is
    padded on the right; an [int] or a [bool] goes through
    [int.__format__] and a [float] through [float.__format__], then the
    same padding; [None], a [list] and a [dict] reject a format string. *)
Definition format_left `{Runtime} (w : nat) (v : pyval) : result pystr :=
  match v with
  | PyStr s => Val (PyStr.ljust w s)
  | PyInt z => Val (PyStr.ljust w (PyStr.of_Z z))
  | PyBool b => Val (PyStr.ljust w (PyStr.of_Z (if b then 1 else 0)))
  | PyFloat f => Val (PyStr.ljust w (py_repr (PyFloat f)))
  | PyNone | PyList _ | PyDict _ => Raise TypeError
  end.

(** [f"{idx:3}"] for the [int] index. *)
Definition format_index (idx : nat) : pystr :=
  PyStr.rjust 3 (PyStr.of_N (N.of_nat idx)).

Definition sep : pystr := $" | ".

(** The text of one row:
    [f"{idx:3} | {name:<60} | {ip:<15}"]. *)
Definition row_text `{Runtime} (idx : nat) (source : pyval) : result pystr :=
  match Py.get source $"ndi-name" (PyStr $"Unknown") with
  | Raise e => Raise e
  | Val name =>
      match Py.get source $"ip-addr" (PyStr $"Unknown") with
      | Raise e => Raise e
      | Val ip =>
          match format_left 60 name with
          | Raise e => Raise e
          | Val name_col =>
              match format_left 15 ip with
              | Raise e => Raise e
              | Val ip_col =>
                  Val (format_index idx ++ sep ++ name_col ++ sep ++ ip_col)
              end
          end
      end
  end.

Definition header_text : pystr :=
  PyStr.ljust 3 $"#" ++ sep
    ++ PyStr.ljust 60 $"Source Name" ++ sep ++ PyStr.ljust 15 $"IP Address".

Definition rule : pystr := repeat 45%N 80.

Definition NL : pystr := [10%N].

(** The body of the [for] loop, from index [idx] on. *)
Fixpoint print_rows `{Runtime} (idx : nat) (sources : list pyval) : M unit :=
  match sources with
  | [] => ret tt
  | source :: rest =>
      line <- lift (row_text idx source) ;;
      print line ;;
      print_rows (S idx) rest
  end.

Definition display_ndi_sources `{Runtime} (sources : pyval) : M unit :=
  if negb (Py.truthy sources) then print $"No NDI sources available."
  else
    print (NL ++ $"Available NDI Sources:") ;;
    print rule ;;
    print header_text ;;
    print rule ;;
    items <- lift (Py.iter sources) ;;
    print_rows 1 items.

(* ================================================================== *)
(** ** Built-ins used by the command line and the menu *)
(* ================================================================== *)

(** [str(v)], as an f-string field without format specification. *)
Definition py_str `{Runtime} (v : pyval) : pystr :=
  match v with
  | PyStr s => s
  | PyNone => $"None"
  | PyBool true => $"True"
  | PyBool false => $"False"
  | PyInt z => PyStr.of_Z z
  | _ => py_repr v
  end.

(** [str.isspace] on one code point. *)
Definition str_isspace `{Runtime} (c : N) : bool :=
  if (c <? 128)%N then
    ((9 <=? c) && (c <=? 13) || (28 <=? c) && (c <=? 32))%N
  else Py_UNICODE_ISSPACE c.

Fixpoint lstrip `{Runtime} (s : pystr) : pystr :=
  match s with
  | c :: s' => if str_isspace c then lstrip s' else s
  | [] => []
  end.

(** [s.strip()] *)
Definition strip `{Runtime} (s : pystr) : pystr :=
  rev (lstrip (rev (lstrip s))).

Module PyInt.

(** How [int(s)] reads one code point: an ASCII code point stands for
    itself (white space is what C calls so, 9 to 13 and 32); the others
    are first turned into a space or an ASCII digit through the Unicode
    tables. *)
Inductive ichar : Type :=
| ISpace | IDigit (d : N) | IPlus | IMinus | IUnderscore | IOther.

Definition classify `{Runtime} (c : N) : ichar :=
  if (c <? 128)%N then
    if ((9 <=? c) && (c <=? 13) || (c =? 32))%N then ISpace
    else if ((48 <=? c) && (c <=? 57))%N then IDigit (c - 48)
    else if (c =? 43)%N then IPlus
    else if (c =? 45)%N then IMinus
    else if (c =? 95)%N then IUnderscore
    else IOther
  else if Py_UNICODE_ISSPACE c then ISpace
  else match Py_UNICODE_TODECIMAL c with
       | Some d => IDigit d
       | None => IOther
       end.

Fixpoint skip_spaces (l : list ichar) : list ichar :=
  match l with
  | ISpace :: l' => skip_spaces l'
  | _ => l
  end.

(** Digits with single underscores between them: the value, the number
    of digits, and what follows. *)
Fixpoint scan (l : list ichar) (prev_underscore : bool) (acc : N) (digits : nat)
  : option (N * nat * list ichar) :=
  match l with
  | IDigit d :: l' => scan l' false (10 * acc + d)%N (S digits)
  | IUnderscore :: l' =>
      if prev_underscore then None else scan l' true acc digits
  | _ => if prev_underscore then None else Some (acc, digits, l)
  end.

Definition magnitude `{Runtime} (l : list ichar) : option N :=
  match l with
  | IUnderscore :: _ => None
  | _ =>
      match scan l false 0%N 0 with
      | Some (n, digits, rest) =>
          if (digits =? 0)%nat then None
          else if ((640 <? digits) && (0 <? int_max_str_digits)
                   && (int_max_str_digits <? digits))%nat then None
          else match skip_spaces rest with
               | [] => Some n
               | _ => None
               end
      | None => None
      end
  end.

(** [int(s)] in base 10; [ValueError] when [s] is not a number. *)
Definition parse `{Runtime} (s : pystr) : result Z :=
  let l := skip_spaces (map classify s) in
  let '(negative, l') :=
    match l with
    | IPlus :: r => (false, r)
    | IMinus :: r => (true, r)
    | _ => (false, l)
    end in
  match magnitude l' with
  | Some n => Val (if negative then (- Z.of_N n)%Z else Z.of_N n)
  | None => Raise ValueError
  end.

End PyInt.

(* ================================================================== *)
(** ** main and run_interactive_mode *)
(* ================================================================== *)

Module Args.
(** The subcommand that [argparse] recognised. *)
Inductive Command : Type :=
| current
| list
| set (source : pystr)
| interactive.

(** The namespace that [parser.parse_args()] returns. *)
Record t : Type := {
  ip : pystr;
  username : pystr;
  password : pystr;
  command : option Command
}.
End Args.

Definition new_switcher (sw : MagewellSwitcher) : M unit :=
  fun p =>
    (Val tt,
     {| self := sw; sent := sent p; stdin := stdin p;
        stdout := stdout p; log := log p |}).

(** The branch shared by the [current] subcommand and menu option 1. *)
Definition show_current_channel `{Runtime} `{Device} : M unit :=
  channel <- get_current_channel ;;
  if Py.truthy channel then
    print (NL ++ $"Current Channel:") ;;
    name <- lift (Py.get channel $"name" (PyStr $"Unknown")) ;;
    print ($"Name: " ++ py_str name) ;;
    ndi <- lift (Py.get channel $"ndi-name" PyNone) ;;
    print ($"NDI: " ++ (if Py.truthy ndi then $"Yes" else $"No"))
  else print $"Failed to retrieve current channel.".

(** The branch of the [list] subcommand. *)
Definition list_command `{Runtime} `{Device} : M unit :=
  sources <- get_ndi_sources ;;
  if Py.truthy sources then display_ndi_sources sources
  else print $"Failed to retrieve NDI sources.".

(** The branch of the [set] subcommand. *)
Definition set_command `{Runtime} `{Device} (source : pystr) : M unit :=
  ok <- set_channel (PyStr source) ;;
  if ok then print ($"Successfully switched to: " ++ source)
  else print ($"Failed to switch to: " ++ source).

Inductive ctl : Type := Continue | Break.

(** Menu option 2. *)
Definition list_option `{Runtime} `{Device} : M ctl :=
  sources <- get_ndi_sources ;;
  (if Py.truthy sources then
     display_ndi_sources sources ;;
     set_cached_sources sources
   else print $"Failed to retrieve NDI sources.") ;;
  ret Continue.

(** [not hasattr(switcher, "cached_sources") or not switcher.cached_sources] *)
Definition cache_missing (sw : MagewellSwitcher) : bool :=
  match cached_sources sw with
  | None => true
  | Some v => negb (Py.truthy v)
  end.

(** [switcher.cached_sources] *)
Definition get_cached_sources : M pyval :=
  sw <- get_self ;;
  match cached_sources sw with
  | Some v => ret v
  | None => raise AttributeError
  end.

(** The [try] block of menu option 3. *)
Definition select_source `{Runtime} `{Device} : M ctl :=
  try_except is_ValueError
    (line <- input (NL ++ $"Enter source number to select (or 0 to cancel): ") ;;
     idx <- lift (PyInt.parse line) ;;
     if (idx =? 0)%Z then ret Continue
     else
       in_range <-
         (if (1 <=? idx)%Z then
            cached <- get_cached_sources ;;
            n <- lift (Py.len cached) ;;
            ret (idx <=? Z.of_nat n)%Z
          else ret false) ;;
       if in_range : bool then
         cached <- get_cached_sources ;;
         source <- lift (Py.index cached (Z.to_nat (idx - 1))) ;;
         source_name <- lift (Py.get source $"ndi-name" PyNone) ;;
         ok <- set_channel source_name ;;
         (if ok then print ($"Successfully switched to: " ++ py_str source_name)
          else print ($"Failed to switch to: " ++ py_str source_name)) ;;
         ret Continue
       else
         print $"Invalid source number." ;;
         ret Continue)
    (fun _ => print $"Please enter a valid number." ;; ret Continue).

(** Menu option 3. *)
Definition switch_option `{Runtime} `{Device} : M ctl :=
  sw <- get_self ;;
  ready <-
    (if cache_missing sw then
       print $"Fetching available sources first..." ;;
       sources <- get_ndi_sources ;;
       if Py.truthy sources then
         display_ndi_sources sources ;;
         set_cached_sources sources ;;
         ret true
       else
         print $"Failed to retrieve sources. Please try again." ;;
         ret false
     else ret true) ;;
  if ready : bool then select_source else ret Continue.

Definition print_menu `{Runtime} : M unit :=
  print (NL ++ $"Options:") ;;
  print $"1. Show current channel" ;;
  print $"2. List NDI sources" ;;
  print $"3. Switch to a source" ;;
  print $"4. Exit".

(** One turn of the [while True] loop. *)
Definition menu_iteration `{Runtime} `{Device} : M ctl :=
  print_menu ;;
  line <- input (NL ++ $"Enter option (1-4): ") ;;
  let choice := strip line in
  if PyStr.eqb choice $"1" then show_current_channel ;; ret Continue
  else if PyStr.eqb choice $"2" then list_option
  else if PyStr.eqb choice $"3" then switch_option
  else if PyStr.eqb choice $"4" then print $"Exiting..." ;; ret Break
  else print $"Invalid option. Please try again." ;; ret Continue.

(** The loop, unrolled at most [fuel] times; [None] when the turns are
    used up before the loop has ended. *)
Fixpoint menu_loop `{Runtime} `{Device} (fuel : nat) (p : Proc)
  : option (result unit * Proc) :=
  match fuel with
  | O => None
  | S fuel' =>
      match menu_iteration p with
      | (Val Continue, p') => menu_loop fuel' p'
      | (Val Break, p') => Some (Val tt, p')
      | (Raise e, p') => Some (Raise e, p')
      end
  end.

(** Every turn reads a line, so one turn more than there are lines is
    enough (see [menu_loop_total]). *)
Definition run_interactive_mode `{Runtime} `{Device} (p : Proc)
  : option (result unit * Proc) :=
  match (print (NL ++ $"Magewell Switcher Interactive Mode") ;;
         sw <- get_self ;;
         print ($"Connected to: " ++ ip_address sw)) p with
  | (Val _, p') => menu_loop (S (List.length (stdin p'))) p'
  | (Raise e, p') => Some (Raise e, p')
  end.

(** [main], from the parsed arguments on. *)
Definition main `{Runtime} `{Device} (args : Args.t) (p : Proc)
  : option (result unit * Proc) :=
  match (new_switcher (MagewellSwitcher_init (Args.ip args)
                         (Args.username args) (Args.password args)) ;;
         login) p with
  | (Raise e, p') => Some (Raise e, p')
  | (Val false, p') =>
      Some ((print ($"Failed to authenticate with switcher at " ++ Args.ip args) ;;
             raise (SystemExit 1)) p')
  | (Val true, p') =>
      match Args.command args with
      | Some Args.current => Some (show_current_channel p')
      | Some Args.list => Some (list_command p')
      | Some (Args.set source) => Some (set_command source p')
      | Some Args.interactive => run_interactive_mode p'
      | None => Some (emit Help p')
      end
  end.

(** The status with which the interpreter ends: 0 when [main] returns,
    the argument of [sys.exit], and 1 after an uncaught exception. *)
Definition exit_status (r : result unit) : Z :=
  match r with
  | Val _ => 0
  | Raise (SystemExit code) => code
  | Raise _ => 1
  end.

(* ================================================================== *)
(** ** Vocabulary of the specification *)
(* ================================================================== *)

(** [data.get("status") == 0] holds (and [data] has a [get] method). *)
Definition status_is_zero (data : pyval) : bool :=
  match Py.get data $"status" PyNone with
  | Val status => Py.eq_zero status
  | Raise _ => false
  end.

(** The three ways in which a call to the device fails. *)
Inductive failed_reply : Reply -> Prop :=
| transport_error : failed_reply TransportError
| malformed_json : failed_reply (Response None)
| nonzero_status data :
    status_is_zero data = false -> failed_reply (Response (Some data)).

(** The request that [login] sends, when the password can be encoded. *)
Definition login_request (sw : MagewellSwitcher) : option Request :=
  option_map
    (fun hash => {| url := base_url sw;
                    params := login_params (username sw) hash |})
    (md5_of (password sw)).

Definition request (sw : MagewellSwitcher) (ps : list (pystr * pyval)) : Request :=
  {| url := base_url sw; params := ps |}.

(** The state in which an operation finds the session once
    [_check_auth] has run. *)
Definition after_auth `{Device} (p : Proc) : Proc := snd (_check_auth p).

(** A column of exactly [w] characters: the text cut at [w] characters, or
    filled up with spaces. *)
Definition column (w : nat) (s : pystr) : pystr :=
  firstn w s ++ repeat PyStr.space (w - List.length s).

(** The process [p] after it has written [events]. *)
Definition with_output (p : Proc) (events : list OutEvent) : Proc :=
  {| self := self p; sent := sent p; stdin := stdin p;
     stdout := stdout p ++ events; log := log p |}.

(** The texts of the rows for the items [sources], numbered from [idx]. *)
Fixpoint rows_text `{Runtime} (idx : nat) (sources : list pyval)
  : result (list pystr) :=
  match sources with
  | [] => Val []
  | source :: rest =>
      match row_text idx source with
      | Raise e => Raise e
      | Val line =>
          match rows_text (S idx) rest with
          | Raise e => Raise e
          | Val lines => Val (line :: lines)
          end
      end
  end.

(** [sys.stdout] can encode every one of the texts. *)
Definition all_printable `{Runtime} (lines : list pystr) : bool :=
  forallb can_print lines.

(** The row that the loop of [display_ndi_sources] prints for [source]
    at index [idx]: its text, when the fields can be formatted and
    [sys.stdout] can encode the result. *)
Definition printed_row `{Runtime} (idx : nat) (source : pyval) : result pystr :=
  match row_text idx source with
  | Raise e => Raise e
  | Val line => if can_print line then Val line else Raise UnicodeEncodeError
  end.

(** What [display_ndi_sources] prints above the rows. *)
Definition table_head : list OutEvent :=
  [Print (NL ++ $"Available NDI Sources:"); Print rule;
   Print header_text; Print rule].

(** What one turn of the menu loop prints before it reads the choice. *)
Definition menu_text : list OutEvent :=
  [Print (NL ++ $"Options:"); Print $"1. Show current channel";
   Print $"2. List NDI sources"; Print $"3. Switch to a source";
   Print $"4. Exit"; Prompt (NL ++ $"Enter option (1-4): ")].

Definition select_prompt : OutEvent :=
  Prompt (NL ++ $"Enter source number to select (or 0 to cancel): ").

(** The process [p] once [n] lines of its input have been read. *)
Definition with_input_read (p : Proc) (n : nat) : Proc :=
  {| self := self p; sent := sent p; stdin := skipn n (stdin p);
     stdout := stdout p; log := log p |}.

(** What a choice of the menu leads to, in the order of the tests. *)
Inductive choice_kind : Type :=
| ShowChannel | ListSources | SwitchSource | Exit | Invalid.

Definition kind_of (choice : pystr) : choice_kind :=
  if PyStr.eqb choice $"1" then ShowChannel
  else if PyStr.eqb choice $"2" then ListSources
  else if PyStr.eqb choice $"3" then SwitchSource
  else if PyStr.eqb choice $"4" then Exit
  else Invalid.

(** The state in which a turn dispatches on the choice: the menu and the
    prompt are written and one line is read. *)
Definition turn_start (p : Proc) : Proc :=
  with_input_read (with_output p menu_text) 1.

(** The value that a computation returns ([None] when it raises). *)
Definition fst_val (r : result pyval * Proc) : pyval :=
  match fst r with
  | Val v => v
  | Raise _ => PyNone
  end.



(** The session that [main] creates, in the process [p]. *)
Definition fresh (args : Args.t) (p : Proc) : Proc :=
  snd (new_switcher (MagewellSwitcher_init (Args.ip args)
                       (Args.username args) (Args.password args)) p).

Definition is_dict (v : pyval) : Prop :=
  match v with PyDict _ => True | _ => False end.

(** The cache of the menu loop is either not there yet or a non-empty list
    of dictionaries. *)
Definition cache_ok (p : Proc) : Prop :=
  match cached_sources (self p) with
  | None => True
  | Some (PyList (x :: l)) => Forall is_dict (x :: l)
  | Some _ => False
  end.

(** The exceptions of a payload that cannot be shown: a malformed one,
    or a text that [sys.stdout] cannot encode. *)
Definition mild (e : exn) : Prop :=
  e = TypeError \/ e = AttributeError \/ e = UnicodeEncodeError.

(** The exceptions with which a turn of the menu loop ends, for input
    that holds decoded lines. *)
Definition escapes (e : exn) : Prop := e = EOFError \/ mild e.

(** A computation is quiet when it reads no input, leaves the cache of the
    session alone, and raises at most a mild exception. *)
Definition quiet {A} (m : M A) : Prop :=
  forall p,
    cached_sources (self (snd (m p))) = cached_sources (self p)
    /\ stdin (snd (m p)) = stdin p
    /\ forall e, fst (m p) = Raise e -> mild e.

(** What a turn that does not end the loop guarantees for the next one. *)
Definition turn_post (p : Proc) (r : result ctl) (q : Proc) : Prop :=
  cache_ok q
  /\ (exists used, stdin p = used ++ stdin q)
  /\ (forall e, r = Raise e -> escapes e)
  /\ r <> Val Break.

(* ================================================================== *)
(** ** Sample surroundings, for concrete runs *)
(* ================================================================== *)

Module Sample.

Definition rt : Runtime :=
  {| py_repr := fun _ => $"...";
     Py_UNICODE_ISSPACE := fun c => ((c =? 0x85) || (c =? 0xA0))%N;
     Py_UNICODE_TODECIMAL := fun _ => None;
     int_max_str_digits := 4300;
     stdout_encodes := fun c => negb ((0xD800 <=? c) && (c <=? 0xDFFF))%N |}.

Definition source (name ip : string) : pyval :=
  PyDict [($"ndi-name", PyStr $name); ($"ip-addr", PyStr $ip)].

Definition cam1 : pyval := source "CAM-1" "10.0.0.5".
Definition cam2 : pyval := source "CAM-2" "10.0.0.6".
Definition cam3 : pyval := source "STUDIO (Program)" "10.0.0.7".

Definition method_of (r : Request) : pyval :=
  match Py.lookup $"method" (params r) with
  | Some m => m
  | None => PyNone
  end.

Definition ok_with (fields : list (pystr * pyval)) : Reply :=
  Response (Some (PyDict (($"status", PyInt 0) :: fields))).

(** A device that accepts the login and every request. *)
Definition accepting : Device :=
  fun history =>
    match method_of (last history (Build_Request [] [])) with
    | PyStr m =>
        if PyStr.eqb m $"get-ndi-sources" then
          ok_with [($"sources", PyList [cam1; cam2; cam3])]
        else if PyStr.eqb m $"get-channel" then
          ok_with [($"name", PyStr $"CAM-1"); ($"ndi-name", PyBool true)]
        else ok_with []
    | _ => Response None
    end.

(** A device that accepts everything and knows no source. *)
Definition empty_handed : Device := fun _ => ok_with [].

(** An address where nothing answers. *)
Definition unreachable : Device := fun _ => TransportError.

(** A device that answers every request with status 37. *)
Definition rejecting : Device :=
  fun _ => Response (Some (PyDict [($"status", PyInt 37)])).

(** Something that answers with a page that is not JSON. *)
Definition garbled : Device := fun _ => Response None.

(** A device whose one source has no name. *)
Definition nameless : Device :=
  fun history =>
    match method_of (last history (Build_Request [] [])) with
    | PyStr m =>
        if PyStr.eqb m $"get-ndi-sources" then
          ok_with [($"sources",
                    PyList [PyDict [($"ndi-name", PyNone);
                                    ($"ip-addr", PyStr $"10.0.0.9")]])]
        else ok_with []
    | _ => Response None
    end.

(** A source whose name has 61 characters. *)
Definition long_name : pystr := repeat 65%N 61.

Definition long_named : pyval :=
  PyDict [($"ndi-name", PyStr long_name); ($"ip-addr", PyStr $"10.0.0.5")].

Definition switcher (auth : bool) (cache : option pyval) : MagewellSwitcher :=
  {| ip_address := $"192.168.1.50"; username := $"Admin";
     password := $"password"; authenticated := auth;
     cached_sources := cache |}.

Definition proc (auth : bool) (cache : option pyval) (lines : list pystr) : Proc :=
  {| self := switcher auth cache; sent := []; stdin := lines;
     stdout := []; log := [] |}.

Definition args (c : option Args.Command) : Args.t :=
  {| Args.ip := $"192.168.1.50"; Args.username := $"Admin";
     Args.password := $"password"; Args.command := c |}.

End Sample.

(* ================================================================== *)
(** ** Requests, records and texts: further vocabulary *)
(* ================================================================== *)

(** [params["method"]] of the request is the text [m]. *)
Definition has_method (m : string) (r : Request) : Prop :=
  Py.lookup $"method" (params r) = Some (PyStr $m).

(** A request to the device at [ip] that is not a login. *)
Definition data_request (ip : pystr) (r : Request) : Prop :=
  url r = $"http://" ++ ip ++ $"/mwapi" /\ ~ has_method "login" r.

(** A request to the device at [ip] that selects a source. *)
Definition switch_request (ip : pystr) (r : Request) : Prop :=
  url r = $"http://" ++ ip ++ $"/mwapi" /\ has_method "set-channel" r.

(** On an authenticated session the computation leaves the session
    authenticated and at the same address, keeps the requests that were
    sent and adds only requests that [allowed] accepts. *)
Definition sends_only {A} (allowed : pystr -> Request -> Prop) (m : M A)
  : Prop :=
  forall p,
    authenticated (self p) = true ->
    authenticated (self (snd (m p))) = true
    /\ ip_address (self (snd (m p))) = ip_address (self p)
    /\ exists more,
         sent (snd (m p)) = sent p ++ more
         /\ Forall (allowed (ip_address (self p))) more.

(** The computation keeps what was written and adds only what [allowed]
    accepts. *)
Definition says_only {A} (allowed : OutEvent -> Prop) (m : M A) : Prop :=
  forall p,
    exists out,
      stdout (snd (m p)) = stdout p ++ out /\ Forall allowed out.

(** The records that one call leaves in the log, by the reply: [ok data]
    after a status that equals 0, one [ERROR] record otherwise. *)
Definition call_log (ok : pyval -> list (Level * LogMsg))
           (failed : pyval -> LogMsg) (error : exn -> LogMsg)
           (reply : Reply) : list (Level * LogMsg) :=
  match reply with
  | TransportError => [(ERROR, error RequestException)]
  | Response None => [(ERROR, error JSONDecodeError)]
  | Response (Some data) =>
      match Py.get data $"status" PyNone with
      | Raise e => [(ERROR, error e)]
      | Val status =>
          if Py.eq_zero status then ok data else [(ERROR, failed data)]
      end
  end.

(** One of [0-9a-f]. *)
Definition is_lower_hex (c : N) : Prop :=
  (48 <= c <= 57)%N \/ (97 <= c <= 102)%N.

(** The item [k] of a dictionary, or [default]. *)
Definition item (k : string) (default : pyval) (items : list (pystr * pyval))
  : pyval :=
  match Py.lookup $k items with
  | Some v => v
  | None => default
  end.

(** The process [p] with the first line of its input replaced. *)
Definition with_first_line (p : Proc) (line : pystr) : Proc :=
  {| self := self p; sent := sent p; stdin := line :: skipn 1 (stdin p);
     stdout := stdout p; log := log p |}.

Definition no_sources_text : OutEvent := Print $"No NDI sources available.".

(** Any event but [o']. *)
Definition other_than (o' o : OutEvent) : Prop := o <> o'.

Module Scene.

(** Arguments whose password holds a lone surrogate, as the interpreter
    decodes a byte of the command line that is not UTF-8. *)
Definition undecodable_password : Args.t :=
  {| Args.ip := $"192.168.1.50"; Args.username := $"Admin";
     Args.password := [112; 0xDCFF]%N; Args.command := Some Args.current |}.

(** A device that accepts the login and rejects the rest. *)
Definition login_only : Device :=
  fun history =>
    match Sample.method_of (last history (Build_Request [] [])) with
    | PyStr m =>
        if PyStr.eqb m $"login" then Sample.ok_with []
        else Response (Some (PyDict [($"status", PyInt 1)]))
    | _ => Response None
    end.

(** A device whose second source is not a dictionary. *)
Definition broken_list : Device :=
  fun history =>
    match Sample.method_of (last history (Build_Request [] [])) with
    | PyStr m =>
        if PyStr.eqb m $"get-ndi-sources" then
          Sample.ok_with [($"sources", PyList [Sample.cam1; PyInt 7; Sample.cam3])]
        else Sample.ok_with []
    | _ => Response None
    end.

(** A source without the two items. *)
Definition anonymous : pyval := PyDict [($"vendor", PyStr $"Magewell")].

(** The login request of the session of [p]. *)
Definition login_of (p : Proc) : Request :=
  match login_request (self p) with
  | Some req => req
  | None => {| url := []; params := [] |}
  end.

Definition three_cameras : pyval :=
  PyList [Sample.cam1; Sample.cam2; Sample.cam3].

(** A name with a lone surrogate, as [json] decodes the escape
    [\ud800]: UTF-8 has no bytes for it. *)
Definition odd_name : pystr := [67; 0xD800]%N.

(** A device whose channel and whose one source have that name. *)
Definition oddly_named : Device :=
  fun history =>
    match Sample.method_of (last history (Build_Request [] [])) with
    | PyStr m =>
        if PyStr.eqb m $"get-ndi-sources" then
          Sample.ok_with
            [($"sources",
              PyList [PyDict [($"ndi-name", PyStr odd_name);
                              ($"ip-addr", PyStr $"10.0.0.8")]])]
        else if PyStr.eqb m $"get-channel" then
          Sample.ok_with [($"name", PyStr odd_name)]
        else Sample.ok_with []
    | _ => Response None
    end.

End Scene.

(* ================================================================== *)
(** ** The MD5 model against the test suite of RFC 1321 *)
(* ================================================================== *)

Example md5_empty : md5_of $"" = Some $"d41d8cd98f00b204e9800998ecf8427e".
Proof. vm_compute. reflexivity. Qed.

Example md5_a : md5_of $"a" = Some $"0cc175b9c0f1b6a831c399e269772661".
Proof. vm_compute. reflexivity. Qed.

Example md5_abc : md5_of $"abc" = Some $"900150983cd24fb0d6963f7d28e17f72".
Proof. vm_compute. reflexivity. Qed.

Example md5_message_digest :
  md5_of $"message digest" = Some $"f96b697d7cb7938d525a2f31aaf161d0".
Proof. vm_compute. reflexivity. Qed.

Example md5_alphabet :
  md5_of $"abcdefghijklmnopqrstuvwxyz" = Some $"c3fcd3d76192e4007dfb496cca67e13b".
Proof. vm_compute. reflexivity. Qed.

Example md5_alphanumeric :
  md5_of $"ABCDEFGHIJKLMNOPQRSTUVWXYZabcdefghijklmnopqrstuvwxyz0123456789"
  = Some $"d174ab98d277d9f5a5611c2c9f419d9f".
Proof. vm_compute. reflexivity. Qed.

Example md5_eighty_digits :
  md5_of $"12345678901234567890123456789012345678901234567890123456789012345678901234567890"
  = Some $"57edf4a22be3c955ac49da2e2107b67a".
Proof. vm_compute. reflexivity. Qed.

(** Outside ASCII the digest is taken over the UTF-8 bytes: the text made
    of U+00E9, U+20AC and U+1F600. *)
Example md5_utf8 :
  md5_of [0xE9; 0x20AC; 0x1F600]%N = Some $"3b07a39fef0ac5d7ef21575e7315a482".
Proof. vm_compute. reflexivity. Qed.

(** A lone surrogate cannot be encoded. *)
Example md5_surrogate : md5_of [97; 0xD800]%N = None.
Proof. vm_compute. reflexivity. Qed.

(* ================================================================== *)
(** ** The session operations *)
(* ================================================================== *)

Arguments PyStr.lit : simpl never.

Ltac unfold_ops :=
  unfold login, _check_auth, get_current_channel, get_ndi_sources,
    set_channel, _hash_password, after_auth, login_request, md5_of,
    request, status_is_zero, response_json in *;
  unfold try_except, bind, ret, raise, lift, get_self, set_authenticated,
    logger, session_get in *.

(** Case analysis on a scrutinee that holds no other case analysis. *)
Ltac break_match :=
  match goal with
  | |- context [match ?x with _ => _ end] =>
      lazymatch x with
      | context [match _ with _ => _ end] => fail
      | _ => destruct x eqn:?
      end
  end.

Lemma get_raises v k d e : Py.get v k d = Raise e -> e = AttributeError.
Proof. destruct v; simpl; congruence. Qed.

Ltac get_exn :=
  match goal with
  | H : Py.get _ _ _ = Raise ?e |- _ => apply get_raises in H; subst e
  end.

Ltac run_ops :=
  unfold_ops; repeat (simpl in *; try get_exn; try break_match);
  try discriminate.

Section Session.
Context {dev : Device}.

(** [login] always returns, with a boolean. *)
Lemma login_returns p : exists b, fst (login p) = Val b.
Proof. run_ops; eauto. Qed.

Lemma check_auth_returns p : exists b, fst (_check_auth p) = Val b.
Proof.
  unfold _check_auth, bind, get_self, ret.
  destruct (negb (authenticated (self p))); simpl; eauto using login_returns.
Qed.

(** [login] changes nothing of the session except the flag. *)
Lemma login_keeps_identity p :
  ip_address (self (snd (login p))) = ip_address (self p)
  /\ username (self (snd (login p))) = username (self p)
  /\ password (self (snd (login p))) = password (self p)
  /\ cached_sources (self (snd (login p))) = cached_sources (self p)
  /\ stdin (snd (login p)) = stdin p
  /\ stdout (snd (login p)) = stdout p.
Proof. run_ops; auto 10. Qed.

(** The value and the flag after [login], by the reply. *)
Lemma login_outcome p :
  match login_request (self p) with
  | None =>
      fst (login p) = Val false /\ sent (snd (login p)) = sent p
      /\ authenticated (self (snd (login p))) = authenticated (self p)
  | Some req =>
      sent (snd (login p)) = sent p ++ [req]
      /\ match respond (sent p ++ [req]) with
         | Response (Some data) =>
             if status_is_zero data
             then fst (login p) = Val true
                  /\ authenticated (self (snd (login p))) = true
             else fst (login p) = Val false
                  /\ authenticated (self (snd (login p)))
                     = authenticated (self p)
         | _ =>
             fst (login p) = Val false
             /\ authenticated (self (snd (login p))) = authenticated (self p)
         end
  end.
Proof.
  unfold_ops.
  destruct (PyStr.encode (password (self p))) as [bs|]; simpl; [|auto].
  split; [repeat break_match; reflexivity|].
  destruct (respond _) as [|[data|]]; simpl; auto.
  destruct (Py.get data $"status" PyNone) as [status|e] eqn:Hget; simpl.
  - destruct (Py.eq_zero status); simpl; auto.
  - get_exn. simpl. auto.
Qed.

(** [_check_auth] on an authenticated session does nothing. *)
Lemma check_auth_authenticated p :
  authenticated (self p) = true -> _check_auth p = (Val true, p).
Proof.
  intros Hauth. unfold _check_auth, bind, get_self, ret.
  rewrite Hauth. reflexivity.
Qed.

(** [_check_auth] on a session that is not authenticated is [login]. *)
Lemma check_auth_unauthenticated p :
  authenticated (self p) = false -> _check_auth p = login p.
Proof.
  intros Hauth. unfold _check_auth, bind, get_self.
  rewrite Hauth. reflexivity.
Qed.

(** After a successful [_check_auth] the flag is set. *)
Lemma check_auth_true p :
  fst (_check_auth p) = Val true ->
  authenticated (self (after_auth p)) = true.
Proof.
  unfold after_auth.
  destruct (authenticated (self p)) eqn:Hauth.
  - rewrite check_auth_authenticated by assumption. auto.
  - rewrite check_auth_unauthenticated by assumption.
    intros Hlogin. pose proof (login_outcome p) as H.
    destruct (login_request (self p)) as [req|].
    + destruct H as [_ H].
      destruct (respond (sent p ++ [req])) as [|[data|]];
        try (destruct (status_is_zero data));
        destruct H as [H1 H2]; congruence.
    + destruct H as [H _]. congruence.
Qed.

Lemma check_auth_keeps_identity p :
  ip_address (self (after_auth p)) = ip_address (self p)
  /\ username (self (after_auth p)) = username (self p)
  /\ password (self (after_auth p)) = password (self p)
  /\ cached_sources (self (after_auth p)) = cached_sources (self p)
  /\ stdin (after_auth p) = stdin p
  /\ stdout (after_auth p) = stdout p.
Proof.
  unfold after_auth.
  destruct (authenticated (self p)) eqn:Hauth.
  - rewrite check_auth_authenticated by assumption. simpl. auto 10.
  - rewrite check_auth_unauthenticated by assumption.
    apply login_keeps_identity.
Qed.

(** Opening an operation at the result of [_check_auth]. *)
Tactic Notation "open_op" reference(op) :=
  unfold op, after_auth, bind;
  destruct (_check_auth _) as [[[|]|e] q] eqn:Hcheck; simpl;
  try discriminate; intros.

Ltac run_call :=
  unfold try_except, bind, ret, raise, lift, get_self, logger,
    session_get, response_json, status_is_zero, request in *;
  repeat (simpl in *; try get_exn; try break_match);
  try discriminate; try congruence; auto.

(** When [_check_auth] fails, an operation stops there. *)
Lemma get_current_channel_unauthenticated p :
  fst (_check_auth p) = Val false ->
  get_current_channel p = (Val PyNone, after_auth p).
Proof. open_op get_current_channel. reflexivity. Qed.

Lemma get_ndi_sources_unauthenticated p :
  fst (_check_auth p) = Val false ->
  get_ndi_sources p = (Val PyNone, after_auth p).
Proof. open_op get_ndi_sources. reflexivity. Qed.

Lemma set_channel_unauthenticated source_name p :
  fst (_check_auth p) = Val false ->
  set_channel source_name p = (Val false, after_auth p).
Proof. open_op set_channel. reflexivity. Qed.

(** When it succeeds, the operation sends its one request and leaves the
    session as [_check_auth] left it. *)
Lemma get_current_channel_sends p :
  fst (_check_auth p) = Val true ->
  let q := after_auth p in
  sent (snd (get_current_channel p))
  = sent q ++ [request (self q) get_channel_params]
  /\ self (snd (get_current_channel p)) = self q
  /\ stdin (snd (get_current_channel p)) = stdin q
  /\ stdout (snd (get_current_channel p)) = stdout q.
Proof. open_op get_current_channel. run_call. Qed.

Lemma get_ndi_sources_sends p :
  fst (_check_auth p) = Val true ->
  let q := after_auth p in
  sent (snd (get_ndi_sources p))
  = sent q ++ [request (self q) get_ndi_sources_params]
  /\ self (snd (get_ndi_sources p)) = self q
  /\ stdin (snd (get_ndi_sources p)) = stdin q
  /\ stdout (snd (get_ndi_sources p)) = stdout q.
Proof. open_op get_ndi_sources. run_call. Qed.

Lemma set_channel_sends source_name p :
  fst (_check_auth p) = Val true ->
  let q := after_auth p in
  sent (snd (set_channel source_name p))
  = sent q ++ [request (self q) (set_channel_params source_name)]
  /\ self (snd (set_channel source_name p)) = self q
  /\ stdin (snd (set_channel source_name p)) = stdin q
  /\ stdout (snd (set_channel source_name p)) = stdout q.
Proof. open_op set_channel. run_call. Qed.

(** The value of an operation, by the reply to its request. *)
Lemma get_current_channel_value p :
  fst (_check_auth p) = Val true ->
  let q := after_auth p in
  fst (get_current_channel p)
  = match respond (sent q ++ [request (self q) get_channel_params]) with
    | Response (Some data) =>
        Val (if status_is_zero data then data else PyNone)
    | _ => Val PyNone
    end.
Proof. open_op get_current_channel. run_call. Qed.

Lemma get_ndi_sources_value p :
  fst (_check_auth p) = Val true ->
  let q := after_auth p in
  fst (get_ndi_sources p)
  = match respond (sent q ++ [request (self q) get_ndi_sources_params]) with
    | Response (Some data) =>
        if status_is_zero data then Py.get data $"sources" (PyList [])
        else Val PyNone
    | _ => Val PyNone
    end.
Proof.
  open_op get_ndi_sources.
  unfold try_except, bind, ret, raise, lift, get_self, logger,
    session_get, response_json, status_is_zero, request.
  simpl. destruct (respond _) as [|[data|]]; simpl; auto.
  destruct data; simpl; auto.
  destruct (Py.eq_zero _); reflexivity.
Qed.

Lemma set_channel_value source_name p :
  fst (_check_auth p) = Val true ->
  let q := after_auth p in
  fst (set_channel source_name p)
  = match respond (sent q ++ [request (self q)
                                (set_channel_params source_name)]) with
    | Response (Some data) => Val (status_is_zero data)
    | _ => Val false
    end.
Proof. open_op set_channel. run_call. Qed.

End Session.

(** What [v == 0] accepts: the integer 0, and the values that Python
    holds equal to it. *)
Lemma eq_zero_spec v :
  Py.eq_zero v = true <->
  v = PyInt 0 \/ v = PyBool false \/ exists s, v = PyFloat (S754_zero s).
Proof.
  split.
  - destruct v as [|[|]|z|f|s|l|d]; simpl; try discriminate.
    + auto.
    + intros H. apply Z.eqb_eq in H. subst. auto.
    + destruct f; try discriminate. eauto.
  - intros [->|[->|[s ->]]]; reflexivity.
Qed.

(** A reply passes the status test when it is a dictionary whose [status]
    item equals 0. *)
Lemma status_is_zero_spec data :
  status_is_zero data = true <->
  exists items status,
    data = PyDict items /\ Py.lookup $"status" items = Some status
    /\ Py.eq_zero status = true.
Proof.
  unfold status_is_zero. split.
  - destruct data; simpl; try discriminate.
    destruct (Py.lookup $"status" d) as [status|] eqn:Hl; simpl;
      try discriminate.
    eauto.
  - intros (items & status & -> & Hl & Hz). simpl. rewrite Hl. exact Hz.
Qed.

Section SessionProperties.
Context {dev : Device}.

Lemma get_current_channel_returns p :
  exists v, fst (get_current_channel p) = Val v.
Proof.
  destruct (check_auth_returns p) as [[|] Hb].
  - rewrite get_current_channel_value by assumption.
    destruct (respond _) as [|[data|]]; eauto.
  - rewrite get_current_channel_unauthenticated by assumption. simpl. eauto.
Qed.

Lemma get_ndi_sources_returns p :
  exists v, fst (get_ndi_sources p) = Val v.
Proof.
  destruct (check_auth_returns p) as [[|] Hb].
  - rewrite get_ndi_sources_value by assumption.
    destruct (respond _) as [|[data|]]; eauto.
    destruct (status_is_zero data) eqn:Hz; eauto.
    apply status_is_zero_spec in Hz. destruct Hz as (items & ? & -> & _).
    simpl. eauto.
  - rewrite get_ndi_sources_unauthenticated by assumption. simpl. eauto.
Qed.

Lemma set_channel_returns source_name p :
  exists b, fst (set_channel source_name p) = Val b.
Proof.
  destruct (check_auth_returns p) as [[|] Hb].
  - rewrite set_channel_value by assumption.
    destruct (respond _) as [|[data|]]; eauto.
  - rewrite set_channel_unauthenticated by assumption. simpl. eauto.
Qed.

Lemma login_failed_reply p req :
  login_request (self p) = Some req ->
  failed_reply (respond (sent p ++ [req])) ->
  fst (login p) = Val false.
Proof.
  intros Hreq Hfail. pose proof (login_outcome p) as H.
  rewrite Hreq in H. destruct H as [_ H].
  inversion Hfail as [Hr|Hr|data Hz Hr]; rewrite <- Hr in H;
    try rewrite Hz in H; tauto.
Qed.

(** C1. None of the four operations lets an exception out, whatever the
    device does; and when the reply to a request is a transport error,
    a body that is not JSON, or a body whose status is not 0, [login]
    and [set_channel] return [False] and [get_current_channel] and
    [get_ndi_sources] return [None]. *)
Theorem failures_are_returned_not_raised (p : Proc) (source_name : pyval) :
  ((exists b, fst (login p) = Val b)
   /\ (exists v, fst (get_current_channel p) = Val v)
   /\ (exists v, fst (get_ndi_sources p) = Val v)
   /\ (exists b, fst (set_channel source_name p) = Val b))
  /\ (forall req,
        login_request (self p) = Some req ->
        failed_reply (respond (sent p ++ [req])) ->
        fst (login p) = Val false)
  /\ (let q := after_auth p in
      (failed_reply (respond (sent q ++ [request (self q) get_channel_params])) ->
       fst (get_current_channel p) = Val PyNone)
      /\ (failed_reply
            (respond (sent q ++ [request (self q) get_ndi_sources_params])) ->
          fst (get_ndi_sources p) = Val PyNone)
      /\ (failed_reply
            (respond (sent q ++ [request (self q)
                                   (set_channel_params source_name)])) ->
          fst (set_channel source_name p) = Val false))
  /\ (forall req,
        authenticated (self p) = false ->
        login_request (self p) = Some req ->
        failed_reply (respond (sent p ++ [req])) ->
        fst (get_current_channel p) = Val PyNone
        /\ fst (get_ndi_sources p) = Val PyNone
        /\ fst (set_channel source_name p) = Val false).
Proof.
  split; [|split; [|split]].
  - auto using login_returns, get_current_channel_returns,
      get_ndi_sources_returns, set_channel_returns.
  - apply login_failed_reply.
  - cbv zeta. destruct (check_auth_returns p) as [[|] Hb].
    + rewrite get_current_channel_value, get_ndi_sources_value,
        set_channel_value by assumption.
      repeat split; intros Hfail;
        inversion Hfail as [Hr|Hr|data Hz Hr]; try rewrite Hz; reflexivity.
    + rewrite get_current_channel_unauthenticated,
        get_ndi_sources_unauthenticated,
        set_channel_unauthenticated by assumption.
      simpl. auto.
  - intros req Hauth Hreq Hfail.
    assert (Hb : fst (_check_auth p) = Val false).
    { rewrite check_auth_unauthenticated by assumption.
      eapply login_failed_reply; eassumption. }
    rewrite get_current_channel_unauthenticated,
      get_ndi_sources_unauthenticated,
      set_channel_unauthenticated by assumption.
    simpl. auto.
Qed.

(** C2. [login] returns [True] exactly when a request went out and the
    reply is a dictionary whose status equals 0, and then the flag
    [authenticated] is set; in every other case (another status, a
    transport error, a body that is not JSON, a password that cannot be
    encoded) it returns [False] and leaves the flag as it was. *)
Theorem login_succeeds_iff_status_zero (p : Proc) :
  (fst (login p) = Val true <->
   exists req items status,
     login_request (self p) = Some req
     /\ respond (sent p ++ [req]) = Response (Some (PyDict items))
     /\ Py.lookup $"status" items = Some status
     /\ Py.eq_zero status = true)
  /\ (fst (login p) = Val true ->
      authenticated (self (snd (login p))) = true)
  /\ (fst (login p) <> Val true ->
      fst (login p) = Val false
      /\ authenticated (self (snd (login p))) = authenticated (self p)).
Proof.
  pose proof (login_outcome p) as H.
  destruct (login_request (self p)) as [req|].
  - destruct H as [_ H].
    destruct (respond (sent p ++ [req])) as [|[data|]] eqn:Hr.
    + destruct H as [H1 H2]. rewrite H1. repeat split; try congruence.
      intros (r & items & status & [= <-] & Hresp & _). congruence.
    + destruct (status_is_zero data) eqn:Hz; destruct H as [H1 H2];
        rewrite H1.
      * apply status_is_zero_spec in Hz.
        destruct Hz as (items & status & -> & Hl & Hz).
        repeat split; try congruence. intros _. eauto 10.
      * repeat split; try congruence.
        intros (r & items & status & [= <-] & Hresp & Hl & Hs).
        assert (status_is_zero (PyDict items) = true)
          by (apply status_is_zero_spec; eauto).
        congruence.
    + destruct H as [H1 H2]. rewrite H1. repeat split; try congruence.
      intros (r & items & status & [= <-] & Hresp & _). congruence.
  - destruct H as (H1 & _ & H2). rewrite H1.
    repeat split; try congruence.
    intros (? & ? & ? & ? & _). discriminate.
Qed.

(** One call of [login] sends at most one request. *)
Lemma login_sends p :
  sent (snd (login p)) = sent p
  \/ exists req,
       login_request (self p) = Some req
       /\ sent (snd (login p)) = sent p ++ [req].
Proof.
  pose proof (login_outcome p) as H.
  destruct (login_request (self p)) as [req|].
  - right. exists req. tauto.
  - left. tauto.
Qed.

(** C3. On an authenticated session [_check_auth] returns [True] and
    leaves everything as it is (no request goes out); on a session that
    is not authenticated it is one call of [login], which sends at most
    the one login request.  Each of the three data operations starts
    with it: when it returns [False] the operation returns [None] or
    [False] in the state that [_check_auth] left, so without a request
    of its own; when it returns [True] the operation adds exactly its own
    request and the flag is set from then on; and on an authenticated
    session the requests sent are the old ones and that one, with the
    flag still set. *)
Theorem check_auth_guards_every_operation (p : Proc) (source_name : pyval) :
  (authenticated (self p) = true -> _check_auth p = (Val true, p))
  /\ (authenticated (self p) = false ->
      _check_auth p = login p
      /\ (sent (after_auth p) = sent p
          \/ exists req,
               login_request (self p) = Some req
               /\ sent (after_auth p) = sent p ++ [req]))
  /\ (fst (_check_auth p) = Val false ->
      get_current_channel p = (Val PyNone, after_auth p)
      /\ get_ndi_sources p = (Val PyNone, after_auth p)
      /\ set_channel source_name p = (Val false, after_auth p))
  /\ (fst (_check_auth p) = Val true ->
      let q := after_auth p in
      sent (snd (get_current_channel p))
      = sent q ++ [request (self q) get_channel_params]
      /\ sent (snd (get_ndi_sources p))
         = sent q ++ [request (self q) get_ndi_sources_params]
      /\ sent (snd (set_channel source_name p))
         = sent q ++ [request (self q) (set_channel_params source_name)])
  /\ (fst (_check_auth p) = Val true ->
      authenticated (self (after_auth p)) = true
      /\ authenticated (self (snd (get_current_channel p))) = true
      /\ authenticated (self (snd (get_ndi_sources p))) = true
      /\ authenticated (self (snd (set_channel source_name p))) = true)
  /\ (authenticated (self p) = true ->
      (sent (snd (get_current_channel p))
       = sent p ++ [request (self p) get_channel_params]
       /\ authenticated (self (snd (get_current_channel p))) = true)
      /\ (sent (snd (get_ndi_sources p))
          = sent p ++ [request (self p) get_ndi_sources_params]
          /\ authenticated (self (snd (get_ndi_sources p))) = true)
      /\ (sent (snd (set_channel source_name p))
          = sent p ++ [request (self p) (set_channel_params source_name)]
          /\ authenticated (self (snd (set_channel source_name p))) = true)).
Proof.
  split; [|split; [|split; [|split; [|split]]]].
  - apply check_auth_authenticated.
  - intros Hauth. split.
    + apply check_auth_unauthenticated, Hauth.
    + unfold after_auth. rewrite check_auth_unauthenticated by assumption.
      apply login_sends.
  - intros Hb.
    auto using get_current_channel_unauthenticated,
      get_ndi_sources_unauthenticated, set_channel_unauthenticated.
  - intros Hb. cbv zeta.
    pose proof (get_current_channel_sends p Hb) as H1.
    pose proof (get_ndi_sources_sends p Hb) as H2.
    pose proof (set_channel_sends source_name p Hb) as H3.
    cbv zeta in H1, H2, H3. tauto.
  - intros Hb. pose proof (check_auth_true p Hb) as Hflag.
    pose proof (get_current_channel_sends p Hb) as (_ & H1 & _).
    pose proof (get_ndi_sources_sends p Hb) as (_ & H2 & _).
    pose proof (set_channel_sends source_name p Hb) as (_ & H3 & _).
    rewrite H1, H2, H3. auto.
  - intros Hauth.
    assert (Hb : fst (_check_auth p) = Val true)
      by (rewrite check_auth_authenticated by assumption; reflexivity).
    assert (Hq : after_auth p = p)
      by (unfold after_auth; rewrite check_auth_authenticated by assumption;
          reflexivity).
    pose proof (get_current_channel_sends p Hb) as (H1 & H1' & _).
    pose proof (get_ndi_sources_sends p Hb) as (H2 & H2' & _).
    pose proof (set_channel_sends source_name p Hb) as (H3 & H3' & _).
    rewrite Hq in *. rewrite H1', H2', H3'. auto 10.
Qed.

(** C4. When the reply to the request of [get_ndi_sources] passes the
    status test, the operation returns the value of the [sources] item
    as it is (a list comes back in the order of the reply), and the
    empty list, not [None], when there is no such item; when the status
    is not 0 it returns [None]. *)
Theorem get_ndi_sources_follows_status (p : Proc) (data : pyval) :
  fst (_check_auth p) = Val true ->
  respond (sent (after_auth p)
           ++ [request (self (after_auth p)) get_ndi_sources_params])
  = Response (Some data) ->
  (status_is_zero data = true ->
   exists items,
     data = PyDict items
     /\ (forall v, Py.lookup $"sources" items = Some v ->
                   fst (get_ndi_sources p) = Val v)
     /\ (Py.lookup $"sources" items = None ->
         fst (get_ndi_sources p) = Val (PyList [])))
  /\ (status_is_zero data = false -> fst (get_ndi_sources p) = Val PyNone).
Proof.
  intros Hb Hr. rewrite get_ndi_sources_value by assumption.
  cbv zeta. rewrite Hr. split; intros Hz; rewrite Hz; [|reflexivity].
  apply status_is_zero_spec in Hz. destruct Hz as (items & ? & -> & _).
  exists items. simpl. split; [reflexivity|].
  split; [intros v Hl|intros Hl]; rewrite Hl; reflexivity.
Qed.

(** C5. The hash depends on the password alone: it is the MD5 digest, in
    lower-case hexadecimal, of the UTF-8 bytes of the password; for the
    password [password] it is 5f4dcc3b5aa765d61d8327deb882cf99; and it is
    the value of the [pass] parameter of the request that [login]
    sends. *)
Theorem password_hash_is_md5_hexdigest :
  (forall p bs,
      PyStr.encode (password (self p)) = Some bs ->
      _hash_password p = (Val (MD5.hexdigest (map Z.of_N bs)), p))
  /\ (forall p q,
        password (self p) = password (self q) ->
        fst (_hash_password p) = fst (_hash_password q))
  /\ (forall p,
        password (self p) = $"password" ->
        fst (_hash_password p) = Val $"5f4dcc3b5aa765d61d8327deb882cf99")
  /\ (forall p hash,
        fst (_hash_password p) = Val hash ->
        sent (snd (login p))
        = sent p ++ [request (self p) (login_params (username (self p)) hash)]
        /\ Py.lookup $"pass" (login_params (username (self p)) hash)
           = Some (PyStr hash)).
Proof.
  split; [|split; [|split]].
  - intros p bs Hbs. unfold _hash_password, bind, get_self, ret.
    rewrite Hbs. reflexivity.
  - intros p q Hpw. unfold _hash_password, bind, get_self, ret, raise.
    rewrite Hpw. destruct (PyStr.encode (password (self q))); reflexivity.
  - intros p Hpw. unfold _hash_password, bind, get_self, ret.
    rewrite Hpw. vm_compute. reflexivity.
  - intros p hash Hh. split; [|reflexivity].
    pose proof (login_outcome p) as H.
    unfold login_request, md5_of in H.
    unfold _hash_password, bind, get_self, ret, raise in Hh.
    destruct (PyStr.encode (password (self p))) as [bs|]; simpl in *;
      [|discriminate].
    injection Hh as <-. tauto.
Qed.

End SessionProperties.

(* ================================================================== *)
(** ** Output *)
(* ================================================================== *)

Lemma with_output_nil p : with_output p [] = p.
Proof. destruct p. unfold with_output. simpl. rewrite app_nil_r. reflexivity. Qed.

Lemma with_output_app p a b :
  with_output (with_output p a) b = with_output p (a ++ b).
Proof. unfold with_output. simpl. rewrite app_assoc. reflexivity. Qed.

Lemma can_print_app `{Runtime} a b :
  can_print (a ++ b) = can_print a && can_print b.
Proof. apply forallb_app. Qed.

Lemma can_print_ascii `{Runtime} text :
  forallb (fun c => (c <? 128)%N) text = true -> can_print text = true.
Proof.
  unfold can_print. rewrite !forallb_forall. intros Hall c Hc.
  rewrite (Hall c Hc). reflexivity.
Qed.

Lemma can_print_repeat_space `{Runtime} n :
  can_print (repeat PyStr.space n) = true.
Proof. induction n; simpl; auto. Qed.

Lemma can_print_ljust `{Runtime} w s :
  can_print (PyStr.ljust w s) = can_print s.
Proof.
  unfold PyStr.ljust. rewrite can_print_app, can_print_repeat_space.
  apply andb_true_r.
Qed.

Lemma digits_fuel_ascii fuel : forall n acc,
  forallb (fun c => (c <? 128)%N) acc = true ->
  forallb (fun c => (c <? 128)%N) (PyStr.digits_fuel fuel n acc) = true.
Proof.
  induction fuel as [|fuel IH]; intros n acc Hacc;
    cbn [PyStr.digits_fuel]; [exact Hacc|].
  assert (Hd : (48 + n mod 10 <? 128)%N = true).
  { apply N.ltb_lt. pose proof (N.mod_lt n 10). lia. }
  destruct (n <? 10)%N; [|apply IH]; cbn [forallb andb];
    rewrite Hd; exact Hacc.
Qed.

Lemma can_print_format_index `{Runtime} idx :
  can_print (format_index idx) = true.
Proof.
  unfold format_index, PyStr.rjust.
  rewrite can_print_app, can_print_repeat_space. simpl.
  apply can_print_ascii, digits_fuel_ascii. reflexivity.
Qed.

(** A text that [sys.stdout] can encode is written, ... *)
Lemma print_output `{Runtime} line p :
  can_print line = true -> print line p = (Val tt, with_output p [Print line]).
Proof. intros Hline. unfold print. rewrite Hline. reflexivity. Qed.

(** ... any other is refused and nothing is written. *)
Lemma print_refused `{Runtime} line p :
  can_print line = false -> print line p = (Raise UnicodeEncodeError, p).
Proof. intros Hline. unfold print. rewrite Hline. reflexivity. Qed.

Lemma print_cases `{Runtime} line p :
  (can_print line = true /\ print line p = (Val tt, with_output p [Print line]))
  \/ (can_print line = false /\ print line p = (Raise UnicodeEncodeError, p)).
Proof.
  destruct (can_print line) eqn:Hline;
    [left; auto using print_output | right; auto using print_refused].
Qed.

Lemma print_fixed `{Runtime} line :
  can_print line = true -> print line = emit (Print line).
Proof. intros Hline. unfold print. rewrite Hline. reflexivity. Qed.

(** The texts that the program prints as they are in its source are
    ASCII. *)
Ltac fixed_text := reflexivity.

Ltac fixed_prints :=
  repeat match goal with
         | |- context [print ?line] =>
             rewrite (@print_fixed _ line) by fixed_text
         end.

Section Display.
Context {rt : Runtime}.

Lemma print_rows_output sources : forall idx lines p,
  rows_text idx sources = Val lines ->
  all_printable lines = true ->
  print_rows idx sources p = (Val tt, with_output p (map Print lines)).
Proof.
  induction sources as [|source rest IH]; intros idx lines p; simpl.
  - intros [= <-] _. simpl. rewrite with_output_nil. reflexivity.
  - unfold bind, lift.
    destruct (row_text idx source) as [line|e]; [|discriminate].
    destruct (rows_text (S idx) rest) as [lines'|e] eqn:Hrest;
      [|discriminate].
    intros [= <-]. simpl. intros [Hline Hlines]%andb_prop.
    rewrite print_output by exact Hline. rewrite (IH _ _ _ Hrest Hlines).
    rewrite with_output_app. reflexivity.
Qed.

(** The item at position [i] is printed with the number [idx + i]. *)
Lemma rows_text_nth sources : forall idx lines i source,
  rows_text idx sources = Val lines ->
  nth_error sources i = Some source ->
  exists line,
    nth_error lines i = Some line /\ row_text (idx + i) source = Val line.
Proof.
  induction sources as [|x rest IH]; intros idx lines i source; simpl.
  - destruct i; discriminate.
  - destruct (row_text idx x) as [line|e] eqn:Hrow; [|discriminate].
    destruct (rows_text (S idx) rest) as [lines'|e] eqn:Hrest;
      [|discriminate].
    intros [= <-]. destruct i as [|i]; simpl.
    + intros [= <-]. exists line. rewrite Nat.add_0_r. auto.
    + intros Hn. destruct (IH _ _ _ _ Hrest Hn) as (l & Hl & Hr).
      exists l. rewrite Nat.add_succ_r. auto.
Qed.

Lemma display_output x sources lines p :
  rows_text 1 (x :: sources) = Val lines ->
  all_printable lines = true ->
  display_ndi_sources (PyList (x :: sources)) p
  = (Val tt, with_output p (table_head ++ map Print lines)).
Proof.
  intros Hrows Hlines. unfold display_ndi_sources. cbn [Py.truthy negb].
  unfold bind, lift. cbn [Py.iter]. rewrite !print_output by fixed_text.
  rewrite (print_rows_output _ _ _ Hrows Hlines), !with_output_app.
  reflexivity.
Qed.

Lemma ljust_length w s :
  List.length (PyStr.ljust w s) = Nat.max w (List.length s).
Proof.
  unfold PyStr.ljust, PyStr.len. rewrite length_app, repeat_length. lia.
Qed.

Lemma ljust_prefix w s :
  firstn (List.length s) (PyStr.ljust w s) = s.
Proof.
  unfold PyStr.ljust. rewrite firstn_app, Nat.sub_diag, firstn_all. simpl.
  apply app_nil_r.
Qed.

Lemma ljust_column w s :
  List.length s <= w -> PyStr.ljust w s = column w s.
Proof.
  intros Hle. unfold PyStr.ljust, column, PyStr.len.
  rewrite firstn_all2 by assumption. reflexivity.
Qed.

Lemma row_text_strings idx items name ip :
  Py.lookup $"ndi-name" items = Some (PyStr name) ->
  Py.lookup $"ip-addr" items = Some (PyStr ip) ->
  row_text idx (PyDict items)
  = Val (format_index idx ++ sep ++ PyStr.ljust 60 name
           ++ sep ++ PyStr.ljust 15 ip).
Proof.
  intros Hname Hip. unfold row_text. cbn [Py.get].
  rewrite Hname, Hip. reflexivity.
Qed.

Lemma can_print_row idx name ip :
  can_print (format_index idx ++ sep ++ PyStr.ljust 60 name
               ++ sep ++ PyStr.ljust 15 ip)
  = can_print name && can_print ip.
Proof.
  rewrite !can_print_app, !can_print_ljust, can_print_format_index.
  reflexivity.
Qed.

(** A row that [sys.stdout] cannot encode ends the loop. *)
Lemma print_rows_unprintable sources : forall idx lines p,
  rows_text idx sources = Val lines ->
  all_printable lines = false ->
  fst (print_rows idx sources p) = Raise UnicodeEncodeError.
Proof.
  induction sources as [|source rest IH]; intros idx lines p; simpl.
  - intros [= <-]. discriminate.
  - unfold bind, lift.
    destruct (row_text idx source) as [line|e]; [|discriminate].
    destruct (rows_text (S idx) rest) as [lines'|e] eqn:Hrest;
      [|discriminate].
    intros [= <-]. simpl. destruct (print_cases line p) as [[H1 ->]|[H1 ->]].
    + rewrite H1. simpl. apply (IH _ _ _ Hrest).
    + reflexivity.
Qed.

(** C9, as the code has it.  [display_ndi_sources] prints, under the
    head of the table, one row for each item of a list of sources, the
    item at position [i] with the number [i + 1]: it does so when every
    row can be formatted and [sys.stdout] can encode every row, and with
    a row that [sys.stdout] cannot encode it ends in
    [UnicodeEncodeError].  For a source whose name and address are
    strings the row is the number right-justified in 3 characters, the
    name, and the address, separated by [" | "]; the name is filled up
    with spaces to 60 characters and the address to 15, and a longer text
    is printed whole, never cut; [sys.stdout] can encode the row exactly
    when it can encode the name and the address.  The row of the source
    CAM-1 at 10.0.0.5 with number 1 is the one given. *)
Theorem display_pads_and_never_truncates :
  (forall p x sources lines,
      rows_text 1 (x :: sources) = Val lines ->
      (all_printable lines = true ->
       display_ndi_sources (PyList (x :: sources)) p
       = (Val tt, with_output p (table_head ++ map Print lines)))
      /\ (all_printable lines = false ->
          fst (display_ndi_sources (PyList (x :: sources)) p)
          = Raise UnicodeEncodeError)
      /\ forall i source,
           nth_error (x :: sources) i = Some source ->
           exists line,
             nth_error lines i = Some line
             /\ row_text (S i) source = Val line)
  /\ (forall idx items name ip,
        Py.lookup $"ndi-name" items = Some (PyStr name) ->
        Py.lookup $"ip-addr" items = Some (PyStr ip) ->
        row_text idx (PyDict items)
        = Val (format_index idx ++ sep ++ PyStr.ljust 60 name
                 ++ sep ++ PyStr.ljust 15 ip)
        /\ can_print (format_index idx ++ sep ++ PyStr.ljust 60 name
                        ++ sep ++ PyStr.ljust 15 ip)
           = can_print name && can_print ip
        /\ List.length (PyStr.ljust 60 name) = Nat.max 60 (List.length name)
        /\ firstn (List.length name) (PyStr.ljust 60 name) = name
        /\ (List.length name <= 60 -> PyStr.ljust 60 name = column 60 name)
        /\ List.length (PyStr.ljust 15 ip) = Nat.max 15 (List.length ip)
        /\ firstn (List.length ip) (PyStr.ljust 15 ip) = ip
        /\ (List.length ip <= 15 -> PyStr.ljust 15 ip = column 15 ip))
  /\ row_text 1 (PyDict [($"ndi-name", PyStr $"CAM-1");
                         ($"ip-addr", PyStr $"10.0.0.5")])
     = Val $"  1 | CAM-1                                                        | 10.0.0.5       ".
Proof.
  split; [|split].
  - intros p x sources lines Hrows. split; [|split].
    + apply display_output, Hrows.
    + intros Hlines. unfold display_ndi_sources. cbn [Py.truthy negb].
      unfold bind, lift. cbn [Py.iter]. rewrite !print_output by fixed_text.
      apply (print_rows_unprintable _ _ _ Hrows Hlines).
    + intros i source Hn.
      apply (rows_text_nth _ _ _ Hrows Hn).
  - intros idx items name ip Hname Hip.
    rewrite (row_text_strings idx _ Hname Hip).
    auto 10 using ljust_length, ljust_prefix, ljust_column, can_print_row.
  - vm_compute. reflexivity.
Qed.

End Display.

(* ================================================================== *)
(** ** What an operation leaves alone *)
(* ================================================================== *)

Create HintDb quiet.

Lemma quiet_ret {A} (a : A) : quiet (ret a).
Proof. intros p. simpl. repeat split. discriminate. Qed.

Lemma quiet_lift {A} (r : result A) :
  (forall e, r = Raise e -> mild e) -> quiet (lift r).
Proof. intros Hr p. simpl. auto. Qed.

Lemma quiet_bind {A B} (m : M A) (k : A -> M B) :
  quiet m -> (forall a, quiet (k a)) -> quiet (bind m k).
Proof.
  intros Hm Hk p. unfold bind. specialize (Hm p).
  destruct (m p) as [[a|e] q]; simpl in *.
  - destruct (Hk a q) as (Hc & Hi & He).
    destruct Hm as (Hc' & Hi' & _).
    split; [congruence|]. split; [congruence|]. exact He.
  - destruct Hm as (Hc' & Hi' & He). repeat split; auto.
    intros e' [= <-]. apply He. reflexivity.
Qed.

Lemma quiet_emit o : quiet (emit o).
Proof. intros p. simpl. repeat split. discriminate. Qed.

Lemma quiet_print `{Runtime} line : quiet (print line).
Proof.
  intros p. destruct (print_cases line p) as [[_ ->]|[_ ->]]; simpl;
    repeat split; try discriminate.
  intros e [= <-]. right. right. reflexivity.
Qed.

Lemma quiet_if {A} (b : bool) (m1 m2 : M A) :
  quiet m1 -> quiet m2 -> quiet (if b then m1 else m2).
Proof. destruct b; auto. Qed.

Lemma get_mild v k d e : Py.get v k d = Raise e -> mild e.
Proof. intros H. apply get_raises in H. right. left. exact H. Qed.

Lemma iter_mild v e : Py.iter v = Raise e -> mild e.
Proof. destruct v; simpl; try discriminate; intros [= <-]; left; reflexivity. Qed.

Lemma format_left_mild `{Runtime} w v e : format_left w v = Raise e -> mild e.
Proof. destruct v; simpl; try discriminate; intros [= <-]; left; reflexivity. Qed.

Lemma row_text_mild `{Runtime} idx source e :
  row_text idx source = Raise e -> mild e.
Proof.
  unfold row_text.
  destruct (Py.get source $"ndi-name" _) as [name|e1] eqn:H1;
    [|intros [= <-]; eauto using get_mild].
  destruct (Py.get source $"ip-addr" _) as [ip|e2] eqn:H2;
    [|intros [= <-]; eauto using get_mild].
  destruct (format_left 60 name) as [c1|e3] eqn:H3;
    [|intros [= <-]; eauto using format_left_mild].
  destruct (format_left 15 ip) as [c2|e4] eqn:H4;
    [|intros [= <-]; eauto using format_left_mild].
  discriminate.
Qed.

#[export] Hint Resolve quiet_ret quiet_lift quiet_bind quiet_emit quiet_print
  quiet_if get_mild iter_mild row_text_mild : quiet.

Section Quiet.
Context {rt : Runtime} {dev : Device}.

Lemma quiet_of_returns {A} (m : M A) :
  (forall p, exists a, fst (m p) = Val a) ->
  (forall p, cached_sources (self (snd (m p))) = cached_sources (self p)
             /\ stdin (snd (m p)) = stdin p) ->
  quiet m.
Proof.
  intros Hret Hframe p. destruct (Hframe p) as [Hc Hi].
  repeat split; auto. intros e He.
  destruct (Hret p) as [a Ha]. congruence.
Qed.

(** The three data operations leave the cache and the input alone. *)
Lemma get_current_channel_frame p :
  cached_sources (self (snd (get_current_channel p)))
  = cached_sources (self p)
  /\ stdin (snd (get_current_channel p)) = stdin p
  /\ stdout (snd (get_current_channel p)) = stdout p.
Proof.
  pose proof (check_auth_keeps_identity p) as (_ & _ & _ & Hc & Hi & Ho).
  destruct (check_auth_returns p) as [[|] Hb].
  - pose proof (get_current_channel_sends p Hb) as (_ & Hs & Hi' & Ho').
    rewrite Hs. split; [|split]; congruence.
  - rewrite get_current_channel_unauthenticated by assumption. auto.
Qed.

Lemma get_ndi_sources_frame p :
  cached_sources (self (snd (get_ndi_sources p))) = cached_sources (self p)
  /\ stdin (snd (get_ndi_sources p)) = stdin p
  /\ stdout (snd (get_ndi_sources p)) = stdout p.
Proof.
  pose proof (check_auth_keeps_identity p) as (_ & _ & _ & Hc & Hi & Ho).
  destruct (check_auth_returns p) as [[|] Hb].
  - pose proof (get_ndi_sources_sends p Hb) as (_ & Hs & Hi' & Ho').
    rewrite Hs. split; [|split]; congruence.
  - rewrite get_ndi_sources_unauthenticated by assumption. auto.
Qed.

Lemma set_channel_frame source_name p :
  cached_sources (self (snd (set_channel source_name p)))
  = cached_sources (self p)
  /\ stdin (snd (set_channel source_name p)) = stdin p
  /\ stdout (snd (set_channel source_name p)) = stdout p.
Proof.
  pose proof (check_auth_keeps_identity p) as (_ & _ & _ & Hc & Hi & Ho).
  destruct (check_auth_returns p) as [[|] Hb].
  - pose proof (set_channel_sends source_name p Hb) as (_ & Hs & Hi' & Ho').
    rewrite Hs. split; [|split]; congruence.
  - rewrite set_channel_unauthenticated by assumption. auto.
Qed.

Lemma quiet_get_current_channel : quiet get_current_channel.
Proof.
  apply quiet_of_returns; [apply get_current_channel_returns|].
  intros p. pose proof (get_current_channel_frame p). tauto.
Qed.

Lemma quiet_get_ndi_sources : quiet get_ndi_sources.
Proof.
  apply quiet_of_returns; [apply get_ndi_sources_returns|].
  intros p. pose proof (get_ndi_sources_frame p). tauto.
Qed.

Lemma quiet_set_channel source_name : quiet (set_channel source_name).
Proof.
  apply quiet_of_returns; [apply set_channel_returns|].
  intros p. pose proof (set_channel_frame source_name p). tauto.
Qed.

Lemma quiet_print_rows sources : forall idx, quiet (print_rows idx sources).
Proof.
  induction sources as [|source rest IH]; intros idx; simpl;
    eauto 10 with quiet.
Qed.

Lemma quiet_display sources : quiet (display_ndi_sources sources).
Proof.
  unfold display_ndi_sources.
  eauto 20 using quiet_print_rows with quiet.
Qed.

Lemma quiet_show_current_channel : quiet show_current_channel.
Proof.
  unfold show_current_channel.
  apply quiet_bind; [apply quiet_get_current_channel|].
  intros channel. eauto 20 with quiet.
Qed.

End Quiet.

(* ================================================================== *)
(** ** The menu loop, one turn at a time *)
(* ================================================================== *)

Arguments login : simpl never.
Arguments _check_auth : simpl never.
Arguments get_current_channel : simpl never.
Arguments get_ndi_sources : simpl never.
Arguments set_channel : simpl never.
Arguments display_ndi_sources : simpl never.
Arguments show_current_channel : simpl never.
Arguments strip : simpl never.
Arguments PyInt.parse : simpl never.

Lemma mild_escapes e : mild e -> escapes e.
Proof. intros He. right. exact He. Qed.

Lemma parse_raises `{Runtime} line e :
  PyInt.parse line = Raise e -> e = ValueError.
Proof.
  unfold PyInt.parse.
  destruct (match PyInt.skip_spaces (map PyInt.classify line) with
            | PyInt.IPlus :: r => (false, r)
            | PyInt.IMinus :: r => (true, r)
            | _ => (false, PyInt.skip_spaces (map PyInt.classify line))
            end) as [negative l].
  destruct (PyInt.magnitude l); [discriminate|]. congruence.
Qed.

Lemma cache_ok_frame p q :
  cached_sources (self q) = cached_sources (self p) -> cache_ok p -> cache_ok q.
Proof. unfold cache_ok. intros ->. auto. Qed.

Lemma turn_post_intro p r q used :
  cache_ok q -> stdin p = used ++ stdin q ->
  (forall e, r = Raise e -> escapes e) -> r <> Val Break ->
  turn_post p r q.
Proof. unfold turn_post. eauto 10. Qed.

Section Turns.
Context {rt : Runtime} {dev : Device}.

Lemma print_rows_success sources : forall idx p,
  fst (print_rows idx sources p) = Val tt -> Forall is_dict sources.
Proof.
  induction sources as [|source rest IH]; intros idx p; simpl; [auto|].
  unfold bind, lift.
  destruct (row_text idx source) as [line|e] eqn:Hrow; simpl;
    [|discriminate].
  destruct (print_cases line p) as [[_ ->]|[_ ->]]; simpl; [|discriminate].
  intros Hrest. constructor.
  - unfold row_text in Hrow. destruct source; simpl in Hrow;
      try discriminate. exact I.
  - eapply IH. exact Hrest.
Qed.

(** What [display_ndi_sources] prints without an exception is a list of
    dictionaries. *)
Lemma display_success sources p :
  Py.truthy sources = true ->
  fst (display_ndi_sources sources p) = Val tt ->
  exists x l, sources = PyList (x :: l) /\ Forall is_dict (x :: l).
Proof.
  unfold display_ndi_sources. intros Ht. rewrite Ht. cbn [negb].
  unfold bind, lift. rewrite !print_output by fixed_text.
  destruct sources as [| | | |s|l|d]; simpl; try discriminate.
  - destruct s as [|c s]; simpl; [discriminate|].
    unfold bind, lift. simpl. discriminate.
  - destruct l as [|x l]; [discriminate|].
    intros H. apply print_rows_success in H. eauto.
  - destruct d as [|[k v] d]; simpl; [discriminate|].
    unfold bind, lift. simpl. discriminate.
Qed.

(** Menu option 2. *)
Lemma list_option_turn p :
  cache_ok p ->
  turn_post p (fst (list_option p)) (snd (list_option p))
  /\ stdin (snd (list_option p)) = stdin p.
Proof.
  intros Hok. unfold list_option, bind.
  destruct (quiet_get_ndi_sources p) as (Hc1 & Hi1 & He1).
  destruct (get_ndi_sources p) as [[sources|e] q1]; simpl in *.
  2:{ split; [|assumption].
      apply turn_post_intro with (used := []).
      - eapply cache_ok_frame; eauto.
      - simpl. congruence.
      - intros e' [= <-]. apply mild_escapes, He1. reflexivity.
      - discriminate. }
  destruct (Py.truthy sources) eqn:Htruthy.
  - destruct (quiet_display sources q1) as (Hc2 & Hi2 & He2).
    pose proof (display_success sources q1 Htruthy) as Hlist.
    destruct (display_ndi_sources sources q1) as [[[]|e] q2]; simpl in *.
    + destruct (Hlist eq_refl) as (x & l & -> & Hdicts).
      split; [|congruence].
      apply turn_post_intro with (used := []).
      * exact Hdicts.
      * simpl. congruence.
      * discriminate.
      * discriminate.
    + split; [|congruence].
      apply turn_post_intro with (used := []).
      * eapply cache_ok_frame; [|exact Hok]. congruence.
      * simpl. congruence.
      * intros e' [= <-]. apply mild_escapes, He2. reflexivity.
      * discriminate.
  - rewrite print_output by fixed_text. simpl. split; [|assumption].
    apply turn_post_intro with (used := []).
    + eapply cache_ok_frame; [|exact Hok]. simpl. congruence.
    + simpl. congruence.
    + discriminate.
    + discriminate.
Qed.

(** Menu option 1. *)
Lemma show_option_turn p :
  cache_ok p ->
  let m := bind show_current_channel (fun _ => ret Continue) in
  turn_post p (fst (m p)) (snd (m p)) /\ stdin (snd (m p)) = stdin p.
Proof.
  intros Hok m. subst m. unfold bind.
  destruct (quiet_show_current_channel p) as (Hc & Hi & He).
  destruct (show_current_channel p) as [[[]|e] q]; simpl in *;
    (split; [|assumption]); apply turn_post_intro with (used := []);
    try (eapply cache_ok_frame; eassumption);
    try (simpl; congruence).
  intros e' [= <-]. apply mild_escapes, He. reflexivity.
Qed.

(** *** Menu option 3: the choice of a source *)

Ltac open_select Hin :=
  unfold select_source, input, get_cached_sources; fixed_prints;
  unfold try_except, bind, emit, lift, ret, get_self;
  simpl; rewrite Hin; simpl.

Lemma select_source_eof p :
  stdin p = [] ->
  select_source p = (Raise EOFError, with_output p [select_prompt]).
Proof.
  intros Hin. open_select Hin. unfold with_output. rewrite Hin. reflexivity.
Qed.

Lemma select_source_not_a_number p line rest :
  stdin p = line :: rest ->
  PyInt.parse line = Raise ValueError ->
  select_source p
  = (Val Continue,
     with_output (with_input_read (with_output p [select_prompt]) 1)
                 [Print $"Please enter a valid number."]).
Proof.
  intros Hin Hparse. open_select Hin. rewrite Hparse. simpl.
  unfold with_output, with_input_read. simpl. rewrite Hin. reflexivity.
Qed.

Lemma select_source_cancel p line rest :
  stdin p = line :: rest ->
  PyInt.parse line = Val 0%Z ->
  select_source p
  = (Val Continue, with_input_read (with_output p [select_prompt]) 1).
Proof.
  intros Hin Hparse. open_select Hin. rewrite Hparse. simpl.
  unfold with_output, with_input_read. simpl. rewrite Hin. reflexivity.
Qed.

Lemma select_source_out_of_range p line rest idx cached n :
  stdin p = line :: rest ->
  PyInt.parse line = Val idx ->
  cached_sources (self p) = Some cached ->
  Py.len cached = Val n ->
  (idx < 0 \/ Z.of_nat n < idx)%Z ->
  select_source p
  = (Val Continue,
     with_output (with_input_read (with_output p [select_prompt]) 1)
                 [Print $"Invalid source number."]).
Proof.
  intros Hin Hparse Hcache Hlen Hidx. open_select Hin.
  rewrite Hparse. simpl.
  destruct (idx =? 0)%Z eqn:H0; [apply Z.eqb_eq in H0; lia|].
  destruct (1 <=? idx)%Z eqn:H1; simpl.
  - rewrite Hcache. simpl. rewrite Hlen. simpl.
    destruct (idx <=? Z.of_nat n)%Z eqn:H2; [apply Z.leb_le in H2; lia|].
    simpl. unfold with_output, with_input_read. simpl. rewrite Hin.
    reflexivity.
  - unfold with_output, with_input_read. simpl. rewrite Hin. reflexivity.
Qed.

(** With a number in range, [set_channel] is called with the [ndi-name]
    item of the source at that place, and its outcome is printed, still
    inside the [try] block. *)
Lemma select_source_in_range p line rest idx l items :
  stdin p = line :: rest ->
  PyInt.parse line = Val idx ->
  cached_sources (self p) = Some (PyList l) ->
  (1 <= idx)%Z ->
  nth_error l (Z.to_nat (idx - 1)) = Some (PyDict items) ->
  let source_name :=
    match Py.lookup $"ndi-name" items with Some v => v | None => PyNone end in
  select_source p
  = try_except is_ValueError
      (bind (set_channel source_name)
         (fun ok =>
            bind (if ok
                  then print ($"Successfully switched to: "
                                ++ py_str source_name)
                  else print ($"Failed to switch to: " ++ py_str source_name))
                 (fun _ => ret Continue)))
      (fun _ => bind (print $"Please enter a valid number.")
                  (fun _ => ret Continue))
      (with_input_read (with_output p [select_prompt]) 1).
Proof.
  intros Hin Hparse Hcache Hidx Hnth source_name. open_select Hin.
  rewrite Hparse. simpl.
  destruct (idx =? 0)%Z eqn:H0; [apply Z.eqb_eq in H0; lia|].
  destruct (1 <=? idx)%Z eqn:H1; [|apply Z.leb_gt in H1; lia].
  simpl. rewrite Hcache. simpl.
  assert (Hlt : Z.to_nat (idx - 1) < List.length l)
    by (apply nth_error_Some; congruence).
  destruct (idx <=? Z.of_nat (List.length l))%Z eqn:H2;
    [|apply Z.leb_gt in H2; lia].
  simpl. rewrite Hcache. simpl. rewrite Hnth. simpl.
  fold source_name.
  replace (with_input_read (with_output p [select_prompt]) 1)
    with {| self := self p; sent := sent p; stdin := rest;
            stdout := stdout p ++ [select_prompt]; log := log p |}
    by (unfold with_output, with_input_read; simpl; rewrite Hin;
        reflexivity).
  pose (q := {| self := self p; sent := sent p; stdin := rest;
                stdout := stdout p ++ [select_prompt]; log := log p |}).
  repeat match goal with
         | |- context [set_channel source_name ?s] =>
             lazymatch s with
             | q => fail
             | _ => change s with q
             end
         end.
  destruct (set_channel_returns source_name q) as [ok Hok].
  destruct (set_channel source_name q) as [[ok'|e] q']; simpl in Hok;
    [|discriminate].
  destruct ok'; reflexivity.
Qed.

Lemma cache_ok_list p :
  cache_ok p -> cache_missing (self p) = false ->
  exists x l,
    cached_sources (self p) = Some (PyList (x :: l))
    /\ Forall is_dict (x :: l).
Proof.
  unfold cache_ok, cache_missing.
  destruct (cached_sources (self p)) as [[| | | | |[|x l]|]|];
    try contradiction; try discriminate.
  eauto.
Qed.

(** With a cache in place, the choice of a source reads one line and
    goes back to the menu, or meets the end of the input. *)
Lemma select_source_turn p :
  cache_ok p -> cache_missing (self p) = false ->
  cache_ok (snd (select_source p))
  /\ (stdin p = [] ->
      fst (select_source p) = Raise EOFError
      /\ stdin (snd (select_source p)) = [])
  /\ (forall line rest,
        stdin p = line :: rest ->
        fst (select_source p) = Val Continue
        /\ stdin (snd (select_source p)) = rest).
Proof.
  intros Hok Hcache.
  destruct (cache_ok_list p Hok Hcache) as (x & l & Hc & Hdicts).
  destruct (stdin p) as [|line rest] eqn:Hin.
  { rewrite select_source_eof by assumption. simpl.
    split; [eapply cache_ok_frame; [|exact Hok]; reflexivity|].
    split; [auto|discriminate]. }
  assert (Hskip : skipn 1 (stdin p) = rest) by (rewrite Hin; reflexivity).
  assert (Hsame : forall out1 out2,
             cache_ok (with_output
                         (with_input_read (with_output p out1) 1) out2))
    by (intros; eapply cache_ok_frame; [|exact Hok]; reflexivity).
  cut (cache_ok (snd (select_source p))
       /\ fst (select_source p) = Val Continue
       /\ stdin (snd (select_source p)) = rest).
  { intros (H1 & H2 & H3). split; [exact H1|]. split; [discriminate|].
    intros line' rest' [= <- <-]. auto. }
  destruct (PyInt.parse line) as [idx|e] eqn:Hparse.
  2:{ apply parse_raises in Hparse as He. subst e.
      rewrite (select_source_not_a_number p Hin Hparse). simpl. auto. }
  destruct (Z.eq_dec idx 0) as [->|Hnz].
  { rewrite (select_source_cancel p Hin Hparse). simpl.
    split; [|auto].
    specialize (Hsame [select_prompt] []).
    rewrite with_output_nil in Hsame. exact Hsame. }
  destruct (Z_lt_le_dec idx 0) as [Hneg|Hpos];
    [|destruct (Z_lt_le_dec (Z.of_nat (List.length (x :: l))) idx)
       as [Hbig|Hsmall]].
  - rewrite (select_source_out_of_range p (n := List.length (x :: l))
               Hin Hparse Hc eq_refl) by lia.
    simpl. auto.
  - rewrite (select_source_out_of_range p (n := List.length (x :: l))
               Hin Hparse Hc eq_refl) by lia.
    simpl. auto.
  - assert (Hlt : Z.to_nat (idx - 1) < List.length (x :: l)) by lia.
    destruct (nth_error (x :: l) (Z.to_nat (idx - 1))) as [source|] eqn:Hn;
      [|apply nth_error_None in Hn; lia].
    assert (Hd : is_dict source).
    { eapply Forall_forall; [exact Hdicts|].
      eapply nth_error_In. exact Hn. }
    destruct source as [| | | | | |items]; try contradiction.
    assert (Hone : (1 <= idx)%Z) by lia.
    rewrite (select_source_in_range p Hin Hparse Hc Hone Hn).
    set (q := with_input_read (with_output p [select_prompt]) 1).
    set (name := match Py.lookup $"ndi-name" items with
                 | Some v => v
                 | None => PyNone
                 end).
    unfold try_except, bind.
    destruct (set_channel_returns name q) as [ok Hret].
    destruct (set_channel_frame name q) as (Hc' & Hi' & _).
    destruct (set_channel name q) as [[ok'|e] q'] eqn:Hset;
      simpl in Hret; [|discriminate].
    simpl in Hc', Hi'.
    assert (Hq' : cache_ok q').
    { eapply cache_ok_frame; [|exact Hok]. rewrite Hc'. reflexivity. }
    destruct ok';
      match goal with
      | |- context [print ?text q'] =>
          destruct (print_cases text q') as [[_ ->]|[_ ->]]
      end;
      unfold ret; cbn [fst snd is_ValueError];
      rewrite ?print_output by fixed_text; cbn [fst snd];
      (split; [eapply cache_ok_frame; [|exact Hq']; reflexivity|]);
      (split; [reflexivity|]); simpl; rewrite Hi'; exact Hskip.
Qed.

(** Menu option 3. *)
Lemma switch_option_turn p :
  cache_ok p ->
  turn_post p (fst (switch_option p)) (snd (switch_option p)).
Proof.
  intros Hok. unfold switch_option, print, set_cached_sources.
  unfold bind, get_self, emit, ret.
  destruct (cache_missing (self p)) eqn:Hmiss; simpl.
  - (* the sources are fetched first *)
    match goal with
    | |- context [get_ndi_sources ?s] => set (p1 := s)
    end.
    assert (Hok1 : cache_ok p1)
      by (eapply cache_ok_frame; [|exact Hok]; reflexivity).
    destruct (quiet_get_ndi_sources p1) as (Hc1 & Hi1 & He1).
    destruct (get_ndi_sources p1) as [[sources|e] q1]; simpl in Hc1, Hi1, He1.
    2:{ simpl. apply turn_post_intro with (used := []).
        - eapply cache_ok_frame; [|exact Hok]. congruence.
        - simpl. rewrite Hi1. reflexivity.
        - intros e' [= <-]. apply mild_escapes, He1. reflexivity.
        - discriminate. }
    destruct (Py.truthy sources) eqn:Htruthy.
    + destruct (quiet_display sources q1) as (Hc2 & Hi2 & He2).
      pose proof (display_success sources q1 Htruthy) as Hlist.
      destruct (display_ndi_sources sources q1) as [[[]|e] q2];
        simpl in Hc2, Hi2, He2, Hlist.
      2:{ simpl. apply turn_post_intro with (used := []).
          - eapply cache_ok_frame; [|exact Hok]. congruence.
          - simpl. congruence.
          - intros e' [= <-]. apply mild_escapes, He2. reflexivity.
          - discriminate. }
      destruct (Hlist eq_refl) as (x & l & -> & Hdicts).
      match goal with
      | |- turn_post _ (fst (select_source ?s)) _ => set (q3 := s)
      end.
      assert (Hok3 : cache_ok q3) by exact Hdicts.
      assert (Hmiss3 : cache_missing (self q3) = false) by reflexivity.
      assert (Hin3 : stdin q3 = stdin p) by (simpl; congruence).
      destruct (select_source_turn q3 Hok3 Hmiss3) as (Hc & Heof & Hread).
      destruct (stdin q3) as [|line rest] eqn:Hq3.
      * destruct (Heof eq_refl) as [Hr Hi].
        apply turn_post_intro with (used := []); auto.
        -- simpl. congruence.
        -- rewrite Hr. intros e' [= <-]. left. reflexivity.
        -- rewrite Hr. discriminate.
      * destruct (Hread _ _ eq_refl) as [Hr Hi].
        apply turn_post_intro with (used := [line]); auto.
        -- simpl. congruence.
        -- rewrite Hr. discriminate.
        -- rewrite Hr. discriminate.
    + simpl. apply turn_post_intro with (used := []).
      * eapply cache_ok_frame; [|exact Hok]. simpl. congruence.
      * simpl. rewrite Hi1. reflexivity.
      * discriminate.
      * discriminate.
  - (* the cache is used *)
    destruct (select_source_turn p Hok Hmiss) as (Hc & Heof & Hread).
    destruct (stdin p) as [|line rest] eqn:Hin.
    + destruct (Heof eq_refl) as [Hr Hi].
      apply turn_post_intro with (used := []); auto.
      * simpl. congruence.
      * rewrite Hr. intros e' [= <-]. left. reflexivity.
      * rewrite Hr. discriminate.
    + destruct (Hread _ _ eq_refl) as [Hr Hi].
      apply turn_post_intro with (used := [line]); auto.
      * simpl. congruence.
      * rewrite Hr. discriminate.
      * rewrite Hr. discriminate.
Qed.

End Turns.

Arguments list_option : simpl never.
Arguments switch_option : simpl never.
Arguments select_source : simpl never.

Lemma eqb_eq s t : PyStr.eqb s t = true <-> s = t.
Proof.
  unfold PyStr.eqb. destruct (list_eq_dec N.eq_dec s t); split;
    auto; discriminate.
Qed.

Lemma eqb_neq s t : PyStr.eqb s t = false <-> s <> t.
Proof.
  unfold PyStr.eqb. destruct (list_eq_dec N.eq_dec s t); split;
    auto; try discriminate; contradiction.
Qed.

Section Loop.
Context {rt : Runtime} {dev : Device}.

Lemma menu_iteration_eof p :
  stdin p = [] ->
  menu_iteration p = (Raise EOFError, with_output p menu_text).
Proof.
  intros Hin. unfold menu_iteration, print_menu, input, print.
  unfold bind, emit. simpl. rewrite Hin. unfold with_output. simpl.
  rewrite Hin. repeat rewrite <- app_assoc. reflexivity.
Qed.

Lemma menu_iteration_read p line rest :
  stdin p = line :: rest ->
  menu_iteration p
  = match kind_of (strip line) with
    | ShowChannel => bind show_current_channel (fun _ => ret Continue)
    | ListSources => list_option
    | SwitchSource => switch_option
    | Exit => bind (print $"Exiting...") (fun _ => ret Break)
    | Invalid =>
        bind (print $"Invalid option. Please try again.")
             (fun _ => ret Continue)
    end (turn_start p).
Proof.
  intros Hin. unfold menu_iteration, print_menu, input, print.
  unfold bind at 1 2 3 4 5 6 7. unfold emit. simpl. rewrite Hin.
  unfold turn_start, with_output, with_input_read, kind_of. simpl.
  rewrite Hin. repeat rewrite <- app_assoc. simpl.
  destruct (PyStr.eqb (strip line) $"1"); [reflexivity|].
  destruct (PyStr.eqb (strip line) $"2"); [reflexivity|].
  destruct (PyStr.eqb (strip line) $"3"); [reflexivity|].
  destruct (PyStr.eqb (strip line) $"4"); reflexivity.
Qed.

Lemma kind_of_exit choice : kind_of choice = Exit <-> choice = $"4".
Proof.
  unfold kind_of. split.
  - destruct (PyStr.eqb choice $"1"); [discriminate|].
    destruct (PyStr.eqb choice $"2"); [discriminate|].
    destruct (PyStr.eqb choice $"3"); [discriminate|].
    destruct (PyStr.eqb choice $"4") eqn:H4; [|discriminate].
    intros _. apply eqb_eq, H4.
  - intros ->. reflexivity.
Qed.


(** One turn: the cache stays well formed, the input only gets shorter,
    the exceptions that leave are among [escapes], and the loop is left
    exactly on the choice 4. *)
Lemma menu_iteration_turn p line rest :
  cache_ok p ->
  stdin p = line :: rest ->
  cache_ok (snd (menu_iteration p))
  /\ (exists used, rest = used ++ stdin (snd (menu_iteration p)))
  /\ (forall e, fst (menu_iteration p) = Raise e -> escapes e)
  /\ (fst (menu_iteration p) = Val Break <-> strip line = $"4").
Proof.
  intros Hok Hin. rewrite (menu_iteration_read p Hin).
  assert (Hok0 : cache_ok (turn_start p))
    by (eapply cache_ok_frame; [|exact Hok]; reflexivity).
  assert (Hin0 : stdin (turn_start p) = rest)
    by (unfold turn_start; simpl; rewrite Hin; reflexivity).
  rewrite <- kind_of_exit.
  assert (Hturn : forall m : M ctl,
             turn_post (turn_start p) (fst (m (turn_start p)))
                       (snd (m (turn_start p))) ->
             kind_of (strip line) <> Exit ->
             cache_ok (snd (m (turn_start p)))
             /\ (exists used, rest = used ++ stdin (snd (m (turn_start p))))
             /\ (forall e, fst (m (turn_start p)) = Raise e -> escapes e)
             /\ (fst (m (turn_start p)) = Val Break
                 <-> kind_of (strip line) = Exit)).
  { intros m (H1 & H2 & H3 & H4) Hk. rewrite Hin0 in H2. tauto. }
  destruct (kind_of (strip line)) eqn:Hkind.
  - apply Hturn; [|discriminate]. apply (show_option_turn (turn_start p) Hok0).
  - apply Hturn; [|discriminate]. apply (list_option_turn (turn_start p) Hok0).
  - apply Hturn; [|discriminate].
    apply (switch_option_turn (turn_start p) Hok0).
  - unfold bind. rewrite print_output by fixed_text. cbn [fst snd ret].
    split; [eapply cache_ok_frame; [|exact Hok0]; reflexivity|].
    split; [exists []; symmetry; exact Hin0|].
    split; [discriminate|tauto].
  - unfold bind. rewrite print_output by fixed_text. cbn [fst snd ret].
    split; [eapply cache_ok_frame; [|exact Hok0]; reflexivity|].
    split; [exists []; symmetry; exact Hin0|].
    split; [discriminate|]. split; discriminate.
Qed.

(** However the loop ends, it has returned after the choice 4 or an
    exception has left it. *)
Lemma menu_loop_ends fuel : forall p r q,
  cache_ok p ->
  menu_loop fuel p = Some (r, q) ->
  (r = Val tt /\ exists line, In line (stdin p) /\ strip line = $"4")
  \/ (exists e, r = Raise e /\ escapes e).
Proof.
  induction fuel as [|fuel IH]; intros p r q Hok; simpl; [discriminate|].
  destruct (stdin p) as [|line rest] eqn:Hin.
  - rewrite menu_iteration_eof by assumption.
    intros [= <- <-]. right. exists EOFError. split; [reflexivity|].
    left. reflexivity.
  - destruct (menu_iteration_turn p Hok Hin) as (Hc & [used Hu] & He & Hb).
    destruct (menu_iteration p) as [[[|]|e] q1]; simpl in *.
    + intros Hloop. destruct (IH _ _ _ Hc Hloop) as [[Hr (l & Hl & Hs)]|H].
      * left. split; [assumption|]. exists l. split; [|assumption].
        right. rewrite Hu. apply in_or_app. right. assumption.
      * right. assumption.
    + intros [= <- <-]. left. split; [reflexivity|].
      exists line. split; [left; reflexivity|]. apply Hb. reflexivity.
    + intros [= <- <-]. right. exists e. auto.
Qed.

(** One turn more than there are lines of input is enough. *)
Lemma menu_loop_total fuel : forall p,
  cache_ok p ->
  List.length (stdin p) < fuel ->
  exists r q, menu_loop fuel p = Some (r, q).
Proof.
  induction fuel as [|fuel IH]; intros p Hok Hlen; [lia|]. simpl.
  destruct (stdin p) as [|line rest] eqn:Hin.
  - rewrite menu_iteration_eof by assumption. eauto.
  - destruct (menu_iteration_turn p Hok Hin) as (Hc & [used Hu] & _).
    destruct (menu_iteration p) as [[[|]|e] q1]; simpl in *; eauto.
    apply IH; [assumption|].
    assert (List.length rest = List.length used + List.length (stdin q1))
      by (rewrite Hu, length_app; reflexivity).
    lia.
Qed.






End Loop.

(* ================================================================== *)
(** ** The menu and the command line *)
(* ================================================================== *)

Section Shell.
Context {rt : Runtime} {dev : Device}.

Lemma switch_option_cached p :
  cache_missing (self p) = false -> switch_option p = select_source p.
Proof.
  intros Hmiss. unfold switch_option, bind, get_self, ret.
  rewrite Hmiss. destruct (select_source p) as [[c|e] q]; reflexivity.
Qed.

Lemma falsy_sources_not_listed p sources q :
  get_ndi_sources p = (Val sources, q) ->
  Py.truthy sources = false ->
  list_command p
  = (Val tt, with_output q [Print $"Failed to retrieve NDI sources."])
  /\ list_option p
     = (Val Continue, with_output q [Print $"Failed to retrieve NDI sources."]).
Proof.
  intros Hget Hfalsy. unfold list_command, list_option, bind.
  rewrite Hget, Hfalsy. rewrite print_output by fixed_text.
  split; reflexivity.
Qed.

(** C10. When the device answers the request for the sources with
    status 0 and no [sources] item, or an empty one, [get_ndi_sources]
    returns the empty list, and both the [list] subcommand and menu
    option 2 print "Failed to retrieve NDI sources." and nothing else;
    menu option 2 leaves the cache as it was.  They print the same when
    [get_ndi_sources] returns [None]. *)
Theorem empty_source_list_is_reported_as_failure
        (p : Proc) (items : list (pystr * pyval)) :
  fst (_check_auth p) = Val true ->
  respond (sent (after_auth p)
           ++ [request (self (after_auth p)) get_ndi_sources_params])
  = Response (Some (PyDict items)) ->
  status_is_zero (PyDict items) = true ->
  Py.lookup $"sources" items = None
  \/ Py.lookup $"sources" items = Some (PyList []) ->
  let failure := Print $"Failed to retrieve NDI sources." in
  fst (get_ndi_sources p) = Val (PyList [])
  /\ list_command p = (Val tt, with_output (snd (get_ndi_sources p)) [failure])
  /\ stdout (snd (list_command p)) = stdout p ++ [failure]
  /\ list_option p
     = (Val Continue, with_output (snd (get_ndi_sources p)) [failure])
  /\ stdout (snd (list_option p)) = stdout p ++ [failure]
  /\ cached_sources (self (snd (list_option p))) = cached_sources (self p)
  /\ (forall p',
        fst (get_ndi_sources p') = Val PyNone ->
        stdout (snd (list_command p')) = stdout p' ++ [failure]
        /\ stdout (snd (list_option p')) = stdout p' ++ [failure])
  /\ (forall p0 line rest,
        stdin p0 = line :: rest -> strip line = $"2" ->
        menu_iteration p0 = list_option (turn_start p0)).
Proof.
  intros Hauth Hreply Hstatus Hsources failure.
  assert (Hval : fst (get_ndi_sources p) = Val (PyList [])).
  { rewrite get_ndi_sources_value by assumption. cbv zeta.
    rewrite Hreply, Hstatus. simpl.
    destruct Hsources as [-> | ->]; reflexivity. }
  destruct (get_ndi_sources_frame p) as (Hc & _ & Ho).
  destruct (get_ndi_sources p) as [r q] eqn:Hget. simpl in Hval, Hc, Ho.
  subst r.
  destruct (falsy_sources_not_listed p Hget eq_refl) as [Hcmd Hopt].
  split; [reflexivity|]. rewrite Hcmd, Hopt. subst failure. simpl.
  rewrite Ho.
  split; [reflexivity|]. split; [reflexivity|]. split; [reflexivity|].
  split; [reflexivity|]. split; [exact Hc|].
  split.
  - intros p' Hnone.
    destruct (get_ndi_sources_frame p') as (_ & _ & Ho').
    destruct (get_ndi_sources p') as [r' q'] eqn:Hget'. simpl in Hnone, Ho'.
    subst r'.
    destruct (falsy_sources_not_listed p' Hget' eq_refl) as [Hcmd' Hopt'].
    rewrite Hcmd', Hopt'. simpl. split; congruence.
  - intros p0 line rest Hin Hchoice.
    rewrite (menu_iteration_read p0 Hin), Hchoice.
    replace (kind_of $"2") with ListSources by (vm_compute; reflexivity).
    reflexivity.
Qed.

(** C6. The menu option 3 with three sources in the cache.  The line
    [0] sends nothing and the turn ends (the menu comes next); the line
    [4], like every number below 0 or above 3, prints "Invalid source
    number." and sends nothing; the line [2] calls [set_channel] with
    the [ndi-name] item of the second source of the cache and, when
    [sys.stdout] can encode that name, prints its outcome; on an
    authenticated session exactly that request goes out. *)
Theorem switch_option_with_three_cached_sources
        (p : Proc) (line : pystr) (rest : list pystr) (s0 s1 s2 : pyval) :
  cached_sources (self p) = Some (PyList [s0; s1; s2]) ->
  strip line = $"3" ->
  let q := with_input_read (with_output (turn_start p) [select_prompt]) 1 in
  (stdin p = line :: $"0" :: rest ->
   menu_iteration p = (Val Continue, q)
   /\ sent q = sent p /\ stdin q = rest)
  /\ (stdin p = line :: $"4" :: rest ->
      menu_iteration p
      = (Val Continue, with_output q [Print $"Invalid source number."])
      /\ sent (with_output q [Print $"Invalid source number."]) = sent p)
  /\ (forall number idx,
        stdin p = line :: number :: rest ->
        PyInt.parse number = Val idx ->
        (idx < 0 \/ 3 < idx)%Z ->
        menu_iteration p
        = (Val Continue, with_output q [Print $"Invalid source number."]))
  /\ (forall items,
        s1 = PyDict items ->
        stdin p = line :: $"2" :: rest ->
        let source_name :=
          match Py.lookup $"ndi-name" items with
          | Some v => v
          | None => PyNone
          end in
        (can_print (py_str source_name) = true ->
         menu_iteration p
         = bind (set_channel source_name)
             (fun ok =>
                bind (if ok
                      then print ($"Successfully switched to: "
                                    ++ py_str source_name)
                      else print ($"Failed to switch to: "
                                    ++ py_str source_name))
                     (fun _ => ret Continue)) q)
        /\ (authenticated (self p) = true ->
            sent (snd (menu_iteration p))
            = sent p ++ [request (self p) (set_channel_params source_name)])).
Proof.
  intros Hcache Hchoice q.
  assert (Hmiss : cache_missing (self (turn_start p)) = false)
    by (unfold cache_missing; simpl; rewrite Hcache; reflexivity).
  assert (Hturn : forall second,
             stdin p = line :: second :: rest ->
             menu_iteration p = select_source (turn_start p)
             /\ stdin (turn_start p) = second :: rest).
  { intros second Hin. rewrite (menu_iteration_read p Hin), Hchoice.
    replace (kind_of $"3") with SwitchSource by (vm_compute; reflexivity).
    rewrite (switch_option_cached _ Hmiss). split; [reflexivity|].
    unfold turn_start. simpl. rewrite Hin. reflexivity. }
  assert (Hq : forall second,
             stdin p = line :: second :: rest ->
             sent q = sent p /\ stdin q = rest).
  { intros second Hin. subst q. unfold turn_start. simpl.
    rewrite Hin. auto. }
  assert (Hc : cached_sources (self (turn_start p))
               = Some (PyList [s0; s1; s2])) by exact Hcache.
  split; [|split; [|split]].
  - intros Hin. destruct (Hturn _ Hin) as [-> Hin'].
    rewrite (select_source_cancel (turn_start p) Hin')
      by (vm_compute; reflexivity).
    split; [reflexivity|]. exact (Hq _ Hin).
  - intros Hin. destruct (Hturn _ Hin) as [-> Hin'].
    rewrite (select_source_out_of_range (turn_start p) (idx := 4) (n := 3)
               Hin' ltac:(vm_compute; reflexivity) Hc eq_refl) by lia.
    split; [reflexivity|]. exact (proj1 (Hq _ Hin)).
  - intros number idx Hin Hparse Hidx. destruct (Hturn _ Hin) as [-> Hin'].
    rewrite (select_source_out_of_range (turn_start p) (n := 3)
               Hin' Hparse Hc eq_refl) by (simpl; lia).
    reflexivity.
  - intros items -> Hin source_name. destruct (Hturn _ Hin) as [-> Hin'].
    assert (Hparse : PyInt.parse $"2" = Val 2%Z) by (vm_compute; reflexivity).
    rewrite (select_source_in_range (turn_start p) (idx := 2) (items := items)
               Hin' Hparse Hc) by (reflexivity || lia).
    fold source_name. fold q.
    destruct (set_channel_returns source_name q) as [ok Hret].
    split.
    + intros Hname. unfold try_except, bind.
      destruct (set_channel source_name q) as [[ok'|e] q'];
        simpl in Hret; [|discriminate].
      destruct ok';
        rewrite print_output by (rewrite can_print_app, Hname; reflexivity);
        reflexivity.
    + intros Hauth.
      assert (Hauthq : authenticated (self q) = true) by exact Hauth.
      assert (Hb : fst (_check_auth q) = Val true)
        by (rewrite check_auth_authenticated by assumption; reflexivity).
      pose proof (set_channel_sends source_name q Hb) as (Hs & _).
      unfold after_auth in Hs. cbv zeta in Hs.
      rewrite check_auth_authenticated in Hs by assumption. simpl in Hs.
      unfold try_except, bind.
      destruct (set_channel source_name q) as [[ok'|e] q'];
        simpl in Hret; [|discriminate].
      destruct ok';
        match goal with
        | |- context [print ?text q'] =>
            destruct (print_cases text q') as [[_ ->]|[_ ->]]
        end;
        cbn [is_ValueError]; rewrite ?print_output by fixed_text;
        simpl in *; exact Hs.
Qed.


(** *** main *)

Lemma get_current_channel_dict_or_none p :
  fst (get_current_channel p) = Val PyNone
  \/ exists items, fst (get_current_channel p) = Val (PyDict items).
Proof.
  destruct (check_auth_returns p) as [[|] Hb].
  - rewrite get_current_channel_value by assumption. cbv zeta.
    destruct (respond _) as [|[data|]]; auto.
    destruct (status_is_zero data) eqn:Hz; auto.
    apply status_is_zero_spec in Hz. destruct Hz as (items & _ & -> & _).
    eauto.
  - rewrite get_current_channel_unauthenticated by assumption. auto.
Qed.

(** What [show_current_channel] does with a channel: the name is the
    one text that [sys.stdout] may be unable to encode. *)
Lemma show_current_channel_shown p items :
  fst (get_current_channel p) = Val (PyDict items) ->
  Py.truthy (PyDict items) = true ->
  let q := snd (get_current_channel p) in
  let name := py_str (item "name" (PyStr $"Unknown") items) in
  show_current_channel p
  = if can_print name then
      (Val tt,
       with_output q
         [Print (NL ++ $"Current Channel:"); Print ($"Name: " ++ name);
          Print ($"NDI: " ++ (if Py.truthy (item "ndi-name" PyNone items)
                              then $"Yes" else $"No"))])
    else (Raise UnicodeEncodeError,
          with_output q [Print (NL ++ $"Current Channel:")]).
Proof.
  intros Hget Ht q name. subst q name.
  unfold show_current_channel, bind.
  destruct (get_current_channel p) as [r q]. simpl in Hget. subst r.
  simpl snd. rewrite Ht. unfold lift. cbn [Py.get]. unfold item.
  rewrite print_output by fixed_text.
  destruct (can_print (py_str _)) eqn:Hname.
  - rewrite print_output by (rewrite can_print_app, Hname; reflexivity).
    match goal with
    | |- context [if Py.truthy ?v then $"Yes" else _] =>
        destruct (Py.truthy v)
    end; rewrite print_output by fixed_text;
      rewrite !with_output_app; reflexivity.
  - rewrite print_refused by (rewrite can_print_app, Hname; reflexivity).
    reflexivity.
Qed.

Lemma show_current_channel_failed p :
  Py.truthy (fst_val (get_current_channel p)) = false ->
  show_current_channel p
  = (Val tt, with_output (snd (get_current_channel p))
               [Print $"Failed to retrieve current channel."]).
Proof.
  unfold fst_val, show_current_channel, bind.
  destruct (get_current_channel_returns p) as [v Hv].
  destruct (get_current_channel p) as [r q]. simpl in Hv. subst r.
  simpl. intros ->. rewrite print_output by fixed_text. reflexivity.
Qed.

Lemma show_current_channel_result p :
  fst (show_current_channel p) = Val tt
  \/ fst (show_current_channel p) = Raise UnicodeEncodeError.
Proof.
  destruct (get_current_channel_dict_or_none p) as [H|[items H]].
  - rewrite show_current_channel_failed; [auto|].
    unfold fst_val. rewrite H. reflexivity.
  - destruct (Py.truthy (PyDict items)) eqn:Ht.
    + rewrite (show_current_channel_shown p H Ht).
      destruct (can_print _); auto.
    + rewrite show_current_channel_failed; [auto|].
      unfold fst_val. rewrite H. exact Ht.
Qed.

(** What [set_command] does: the name is printed as it was typed. *)
Lemma set_command_shown source p :
  exists ok,
    fst (set_channel (PyStr source) p) = Val ok
    /\ set_command source p
       = if can_print source then
           (Val tt,
            with_output (snd (set_channel (PyStr source) p))
              [Print ((if ok then $"Successfully switched to: "
                       else $"Failed to switch to: ") ++ source)])
         else (Raise UnicodeEncodeError, snd (set_channel (PyStr source) p)).
Proof.
  unfold set_command, bind.
  destruct (set_channel_returns (PyStr source) p) as [ok Hok].
  destruct (set_channel (PyStr source) p) as [r q]. simpl in Hok. subst r.
  exists ok. split; [reflexivity|]. simpl snd.
  destruct (can_print source) eqn:Hsource.
  - destruct ok;
      rewrite print_output by (rewrite can_print_app, Hsource; reflexivity);
      reflexivity.
  - destruct ok;
      rewrite print_refused by (rewrite can_print_app, Hsource; reflexivity);
      reflexivity.
Qed.

Lemma list_command_result p :
  fst (list_command p) = Val tt
  \/ exists e, fst (list_command p) = Raise e /\ mild e.
Proof.
  assert (Hq : quiet list_command).
  { unfold list_command. apply quiet_bind; [apply quiet_get_ndi_sources|].
    intros sources. apply quiet_if; auto using quiet_display, quiet_print. }
  destruct (Hq p) as (_ & _ & He).
  destruct (fst (list_command p)) as [[]|e]; eauto.
Qed.

Lemma run_interactive_mode_result p :
  cache_ok p ->
  exists r q,
    run_interactive_mode p = Some (r, q)
    /\ (r = Val tt -> exists line, In line (stdin p) /\ strip line = $"4")
    /\ (forall e, r = Raise e -> escapes e).
Proof.
  intros Hok. unfold run_interactive_mode, bind, get_self.
  rewrite print_output by fixed_text.
  match goal with
  | |- context [print ?text ?s] =>
      destruct (print_cases text s) as [[_ ->]|[_ ->]]
  end.
  2:{ do 2 eexists. split; [reflexivity|]. split; [discriminate|].
      intros e [= <-]. right. right. right. reflexivity. }
  match goal with
  | |- context [menu_loop _ ?s] => set (p1 := s)
  end.
  assert (Hok1 : cache_ok p1)
    by (eapply cache_ok_frame; [|exact Hok]; reflexivity).
  destruct (menu_loop_total (fuel := S (List.length (stdin p1))) p1 Hok1)
    as (r & q & Hloop); [lia|].
  exists r, q. split; [exact Hloop|].
  destruct (menu_loop_ends _ _ Hok1 Hloop) as [[-> Hline]|(e & -> & He)].
  - split; [intros _; exact Hline|discriminate].
  - split; [discriminate|]. intros e' [= <-]. exact He.
Qed.

Lemma main_after_login args p :
  main args p
  = match login (fresh args p) with
    | (Raise e, q) => Some (Raise e, q)
    | (Val false, q) =>
        Some (bind (print ($"Failed to authenticate with switcher at "
                             ++ Args.ip args))
                (fun _ => raise (SystemExit 1)) q)
    | (Val true, q) =>
        match Args.command args with
        | Some Args.current => Some (show_current_channel q)
        | Some Args.list => Some (list_command q)
        | Some (Args.set source) => Some (set_command source q)
        | Some Args.interactive => run_interactive_mode q
        | None => Some (emit Help q)
        end
    end.
Proof.
  unfold main, fresh, bind at 1. simpl.
  destruct (login _) as [[[|]|e] q]; reflexivity.
Qed.

(** After a failed login the address is printed, when [sys.stdout] can
    encode it, and [sys.exit(1)] is called. *)
Lemma failed_login_exit ip q :
  @bind unit unit (print ($"Failed to authenticate with switcher at " ++ ip))
    (fun _ => raise (SystemExit 1)) q
  = if can_print ip then
      (Raise (SystemExit 1),
       with_output q [Print ($"Failed to authenticate with switcher at " ++ ip)])
    else (Raise UnicodeEncodeError, q).
Proof.
  unfold bind. destruct (can_print ip) eqn:Hip.
  - rewrite print_output by (rewrite can_print_app, Hip; reflexivity).
    reflexivity.
  - rewrite print_refused by (rewrite can_print_app, Hip; reflexivity).
    reflexivity.
Qed.

Lemma escapes_exit_status e : escapes e -> exit_status (Raise e) = 1%Z.
Proof. intros [->|[->|[->| ->]]]; reflexivity. Qed.

(** C8, as the code has it.  [main] logs in before anything else.  When
    that login fails the process exits with status 1, without another
    request: with [sys.exit(1)] after the failure was printed, when
    [sys.stdout] can encode the address, and with [UnicodeEncodeError]
    otherwise.  When the login succeeds, the subcommand runs on the
    session that [login] left, and the status is 0 when it returns and 1
    when an exception leaves it.  The case without subcommand always
    returns; [current] returns when the operation failed, and when
    [sys.stdout] can encode the name of the channel; [set] returns,
    whether the operation succeeded or not, exactly when [sys.stdout] can
    encode the name that was typed, and ends in [UnicodeEncodeError]
    otherwise; [list] returns when no source came back, and with sources
    it returns or ends in [TypeError], [AttributeError] or
    [UnicodeEncodeError]; when [interactive] returns, a line of the
    input was the choice 4. *)
Theorem main_exit_status (args : Args.t) (p : Proc) :
  let p0 := fresh args p in
  (fst (login p0) = Val false ->
   exists r q,
     main args p = Some (r, q)
     /\ exit_status r = 1%Z
     /\ sent q = sent (snd (login p0))
     /\ (can_print (Args.ip args) = true ->
         r = Raise (SystemExit 1)
         /\ q = with_output (snd (login p0))
                  [Print ($"Failed to authenticate with switcher at "
                            ++ Args.ip args)])
     /\ (can_print (Args.ip args) = false ->
         r = Raise UnicodeEncodeError /\ q = snd (login p0)))
  /\ (fst (login p0) = Val true ->
      exists r q,
        main args p = Some (r, q)
        /\ match Args.command args with
           | Some Args.current =>
               (r, q) = show_current_channel (snd (login p0))
               /\ (fst (get_current_channel (snd (login p0))) = Val PyNone ->
                   r = Val tt)
               /\ (forall items,
                     fst (get_current_channel (snd (login p0)))
                     = Val (PyDict items) ->
                     can_print (py_str (item "name" (PyStr $"Unknown") items))
                     = true ->
                     r = Val tt)
               /\ (r = Val tt \/ r = Raise UnicodeEncodeError)
           | Some (Args.set source) =>
               (r, q) = set_command source (snd (login p0))
               /\ (can_print source = true -> r = Val tt)
               /\ (can_print source = false -> r = Raise UnicodeEncodeError)
           | None => (r, q) = emit Help (snd (login p0)) /\ r = Val tt
           | Some Args.list =>
               (r, q) = list_command (snd (login p0))
               /\ (forall sources,
                     fst (get_ndi_sources (snd (login p0))) = Val sources ->
                     Py.truthy sources = false -> r = Val tt)
               /\ (r = Val tt \/ exists e, r = Raise e /\ mild e)
           | Some Args.interactive =>
               Some (r, q) = run_interactive_mode (snd (login p0))
               /\ (r = Val tt ->
                   exists line, In line (stdin p) /\ strip line = $"4")
           end
        /\ ((r = Val tt /\ exit_status r = 0%Z)
            \/ (exists e, r = Raise e /\ exit_status r = 1%Z))).
Proof.
  intros p0. rewrite main_after_login. fold p0.
  pose proof (login_keeps_identity p0) as (_ & _ & _ & Hc & Hi & _).
  destruct (login p0) as [[[|]|e] q0] eqn:Hlogin; simpl fst; simpl snd;
    split; try discriminate; intros _.
  - assert (Hexit : forall r : result unit,
               r = Val tt \/ (exists e, r = Raise e /\ escapes e) ->
               (r = Val tt /\ exit_status r = 0%Z)
               \/ (exists e, r = Raise e /\ exit_status r = 1%Z)).
    { intros r [->|(e & -> & He)]; [left; auto|right].
      exists e. auto using escapes_exit_status. }
    simpl in Hc, Hi.
    destruct (Args.command args) as [[| |source|]|].
    + destruct (show_current_channel q0) as [r q] eqn:Hshow.
      exists r, q. split; [reflexivity|].
      pose proof (show_current_channel_result q0) as Hr.
      rewrite Hshow in Hr. simpl in Hr.
      split; [split; [reflexivity|split; [|split; [|exact Hr]]]|].
      * intros Hnone.
        rewrite show_current_channel_failed in Hshow
          by (unfold fst_val; rewrite Hnone; reflexivity).
        congruence.
      * intros items Hget Hname.
        destruct (Py.truthy (PyDict items)) eqn:Ht.
        -- rewrite (show_current_channel_shown q0 Hget Ht), Hname in Hshow.
           congruence.
        -- rewrite show_current_channel_failed in Hshow
             by (unfold fst_val; rewrite Hget; exact Ht).
           congruence.
      * apply Hexit. destruct Hr as [->| ->]; [auto|right].
        eexists. split; [reflexivity|]. right. right. right. reflexivity.
    + destruct (list_command q0) as [r' q'] eqn:Hlist.
      exists r', q'. split; [reflexivity|].
      pose proof (list_command_result q0) as H. rewrite Hlist in H.
      simpl in H. split.
      * split; [reflexivity|]. split; [|exact H].
        intros sources Hget Hf. unfold list_command, bind in Hlist.
        destruct (get_ndi_sources q0) as [r1 q1]. simpl in Hget. subst r1.
        rewrite Hf in Hlist. rewrite print_output in Hlist by fixed_text.
        congruence.
      * apply Hexit. destruct H as [->|(e & -> & He)]; [auto|right].
        exists e. auto using mild_escapes.
    + destruct (set_command_shown source q0) as (ok & _ & Hset).
      destruct (set_command source q0) as [r q] eqn:Hcmd.
      exists r, q. split; [reflexivity|].
      destruct (can_print source) eqn:Hsource; injection Hset as -> ->.
      * split; [split; [reflexivity|split; [reflexivity|discriminate]]|].
        left. auto.
      * split; [split; [reflexivity|split; [discriminate|reflexivity]]|].
        right. eexists. split; reflexivity.
    + assert (Hok : cache_ok q0).
      { unfold cache_ok. rewrite Hc. reflexivity. }
      destruct (run_interactive_mode_result q0 Hok)
        as (r & q & Hrun & Hret & Hexn).
      exists r, q. rewrite Hrun. split; [reflexivity|].
      split; [split; [reflexivity|]|].
      * rewrite Hi in Hret. exact Hret.
      * apply Hexit. destruct r as [[]|e]; [auto|right].
        exists e. auto.
    + exists (Val tt), (with_output q0 [Help]).
      split; [reflexivity|]. split; [split; reflexivity|]. left. auto.
  - rewrite failed_login_exit.
    destruct (can_print (Args.ip args)); do 2 eexists;
      (split; [reflexivity|]); (split; [reflexivity|]);
      (split; [reflexivity|]); split; intros H;
      try discriminate H; split; reflexivity.
Qed.

End Shell.

(* ================================================================== *)
(** ** Concrete runs *)
(* ================================================================== *)

(** Nothing answers, the answer is not JSON, or the device says 37. *)
Lemma failures_are_returned_not_raised_witness :
  fst (@login Sample.unreachable (Sample.proc false None [])) = Val false
  /\ fst (@get_current_channel Sample.garbled (Sample.proc true None []))
     = Val PyNone
  /\ fst (@get_ndi_sources Sample.rejecting (Sample.proc true None []))
     = Val PyNone
  /\ fst (@set_channel Sample.unreachable (PyStr $"CAM-1")
            (Sample.proc true None []))
     = Val false.
Proof.
  split; [|split; [|split]].
  - destruct (@failures_are_returned_not_raised Sample.unreachable
                (Sample.proc false None []) PyNone) as (_ & H & _).
    eapply H; [vm_compute; reflexivity|].
    vm_compute. apply transport_error.
  - destruct (@failures_are_returned_not_raised Sample.garbled
                (Sample.proc true None []) PyNone) as (_ & _ & (H & _) & _).
    apply H. vm_compute. apply malformed_json.
  - destruct (@failures_are_returned_not_raised Sample.rejecting
                (Sample.proc true None []) PyNone)
      as (_ & _ & (_ & H & _) & _).
    apply H. vm_compute. apply nonzero_status. reflexivity.
  - destruct (@failures_are_returned_not_raised Sample.unreachable
                (Sample.proc true None []) (PyStr $"CAM-1"))
      as (_ & _ & (_ & _ & H) & _).
    apply H. vm_compute. apply transport_error.
Defined.

Lemma login_succeeds_iff_status_zero_witness :
  fst (@login Sample.accepting (Sample.proc false None [])) = Val true
  /\ authenticated
       (self (snd (@login Sample.accepting (Sample.proc false None []))))
     = true.
Proof.
  destruct (@login_succeeds_iff_status_zero Sample.accepting
              (Sample.proc false None [])) as (Hiff & Hflag & _).
  assert (H : fst (@login Sample.accepting (Sample.proc false None []))
              = Val true).
  { apply Hiff. eexists. exists [($"status", PyInt 0)], (PyInt 0).
    split; [vm_compute; reflexivity|].
    split; [vm_compute; reflexivity|].
    split; reflexivity. }
  split; [exact H|exact (Hflag H)].
Defined.

Lemma check_auth_guards_every_operation_witness :
  @_check_auth Sample.accepting (Sample.proc true None [])
  = (Val true, Sample.proc true None [])
  /\ @get_ndi_sources Sample.unreachable (Sample.proc false None [])
     = (Val PyNone, @after_auth Sample.unreachable (Sample.proc false None [])).
Proof.
  split.
  - destruct (@check_auth_guards_every_operation Sample.accepting
                (Sample.proc true None []) PyNone) as (H & _).
    apply H. reflexivity.
  - destruct (@check_auth_guards_every_operation Sample.unreachable
                (Sample.proc false None []) PyNone) as (_ & _ & H & _).
    apply H. vm_compute. reflexivity.
Defined.

Lemma get_ndi_sources_follows_status_witness :
  fst (@get_ndi_sources Sample.accepting (Sample.proc true None []))
  = Val (PyList [Sample.cam1; Sample.cam2; Sample.cam3]).
Proof.
  assert (Hauth : fst (@_check_auth Sample.accepting (Sample.proc true None []))
                  = Val true) by (vm_compute; reflexivity).
  destruct (@get_ndi_sources_follows_status Sample.accepting
              (Sample.proc true None [])
              (PyDict [($"status", PyInt 0);
                       ($"sources",
                        PyList [Sample.cam1; Sample.cam2; Sample.cam3])])
              Hauth ltac:(vm_compute; reflexivity)) as [H _].
  destruct (H eq_refl) as (items & Hitems & Hsome & _).
  injection Hitems as <-. apply Hsome. reflexivity.
Defined.

Lemma password_hash_is_md5_hexdigest_witness :
  fst (_hash_password (Sample.proc false None []))
  = Val $"5f4dcc3b5aa765d61d8327deb882cf99".
Proof.
  destruct (@password_hash_is_md5_hexdigest Sample.accepting)
    as (_ & _ & H & _).
  apply H. reflexivity.
Defined.

Lemma switch_option_with_three_cached_sources_witness :
  sent (snd (@menu_iteration Sample.rt Sample.accepting
               (Sample.proc true
                  (Some (PyList [Sample.cam1; Sample.cam2; Sample.cam3]))
                  [$"3"; $"2"])))
  = [request (Sample.switcher true
                (Some (PyList [Sample.cam1; Sample.cam2; Sample.cam3])))
             (set_channel_params (PyStr $"CAM-2"))]
  /\ stdout (snd (@menu_iteration Sample.rt Sample.accepting
                    (Sample.proc true
                       (Some (PyList [Sample.cam1; Sample.cam2; Sample.cam3]))
                       [$"3"; $"2"])))
     = menu_text ++ [select_prompt; Print $"Successfully switched to: CAM-2"].
Proof.
  destruct (@switch_option_with_three_cached_sources Sample.rt Sample.accepting
              (Sample.proc true
                 (Some (PyList [Sample.cam1; Sample.cam2; Sample.cam3]))
                 [$"3"; $"2"])
              $"3" [] Sample.cam1 Sample.cam2 Sample.cam3
              eq_refl ltac:(vm_compute; reflexivity)) as (_ & _ & _ & H).
  destruct (H _ eq_refl eq_refl) as [Hturn Hsent].
  split.
  - apply Hsent. reflexivity.
  - rewrite (Hturn ltac:(vm_compute; reflexivity)). vm_compute. reflexivity.
Defined.


Lemma main_exit_status_witness :
  @main Sample.rt Sample.unreachable (Sample.args (Some Args.current))
    (Sample.proc false None [])
  = Some (Raise (SystemExit 1),
          with_output
            (snd (@login Sample.unreachable
                    (fresh (Sample.args (Some Args.current))
                       (Sample.proc false None []))))
            [Print ($"Failed to authenticate with switcher at "
                      ++ $"192.168.1.50")])
  /\ exit_status (Raise (SystemExit 1)) = 1%Z.
Proof.
  destruct (@main_exit_status Sample.rt Sample.unreachable
              (Sample.args (Some Args.current)) (Sample.proc false None []))
    as (H & _).
  destruct (H ltac:(vm_compute; reflexivity))
    as (r & q & Hmain & _ & _ & Hprint & _).
  destruct (Hprint ltac:(vm_compute; reflexivity)) as [Hr Hq].
  subst r q. split; [exact Hmain|reflexivity].
Defined.

Lemma display_pads_and_never_truncates_witness :
  @row_text Sample.rt 1 Sample.cam1
  = Val (format_index 1 ++ sep ++ PyStr.ljust 60 $"CAM-1"
           ++ sep ++ PyStr.ljust 15 $"10.0.0.5")
  /\ List.length (PyStr.ljust 60 $"CAM-1") = 60.
Proof.
  destruct (@display_pads_and_never_truncates Sample.rt) as (_ & H & _).
  destruct (H 1 [($"ndi-name", PyStr $"CAM-1"); ($"ip-addr", PyStr $"10.0.0.5")]
              $"CAM-1" $"10.0.0.5" eq_refl eq_refl) as (Hrow & _ & Hlen & _).
  split; [exact Hrow|exact Hlen].
Defined.

Lemma empty_source_list_is_reported_as_failure_witness :
  stdout (snd (@list_command Sample.rt Sample.empty_handed
                 (Sample.proc true None [])))
  = [] ++ [Print $"Failed to retrieve NDI sources."]
  /\ cached_sources
       (self (snd (@list_option Sample.rt Sample.empty_handed
                     (Sample.proc true None []))))
     = None.
Proof.
  destruct (@empty_source_list_is_reported_as_failure Sample.rt
              Sample.empty_handed (Sample.proc true None [])
              [($"status", PyInt 0)]
              ltac:(vm_compute; reflexivity) ltac:(vm_compute; reflexivity)
              eq_refl (or_introl eq_refl))
    as (_ & _ & Hout & _ & _ & Hcache & _).
  split; [exact Hout|exact Hcache].
Defined.


(** The login succeeds and the status is 1 all the same: [interactive]
    with no input, and [list] when a source has no name. *)
Lemma exit_status_one_after_login :
  fst (@login Sample.accepting
         (fresh (Sample.args (Some Args.interactive))
            (Sample.proc false None [])))
  = Val true
  /\ (exists q,
         @main Sample.rt Sample.accepting (Sample.args (Some Args.interactive))
           (Sample.proc false None [])
         = Some (Raise EOFError, q))
  /\ exit_status (Raise EOFError) = 1%Z
  /\ fst (@login Sample.nameless
            (fresh (Sample.args (Some Args.list)) (Sample.proc false None [])))
     = Val true
  /\ (exists q,
         @main Sample.rt Sample.nameless (Sample.args (Some Args.list))
           (Sample.proc false None [])
         = Some (Raise TypeError, q))
  /\ exit_status (Raise TypeError) = 1%Z.
Proof.
  split; [vm_compute; reflexivity|].
  split; [eexists; vm_compute; reflexivity|].
  split; [reflexivity|].
  split; [vm_compute; reflexivity|].
  split; [eexists; vm_compute; reflexivity|].
  reflexivity.
Qed.

(** A name of 61 characters is printed whole: the row is not the one with
    a column of 60 characters. *)
Lemma long_name_is_not_truncated :
  @row_text Sample.rt 1 Sample.long_named
  = Val (format_index 1 ++ sep ++ Sample.long_name
           ++ sep ++ PyStr.ljust 15 $"10.0.0.5")
  /\ @row_text Sample.rt 1 Sample.long_named
     <> Val (format_index 1 ++ sep ++ column 60 Sample.long_name
               ++ sep ++ column 15 $"10.0.0.5").
Proof.
  split.
  - vm_compute. reflexivity.
  - vm_compute. discriminate.
Qed.

(* ================================================================== *)
(** ** Further properties of the session *)
(* ================================================================== *)

Lemma same_address_same_request sw sw' ps :
  ip_address sw' = ip_address sw -> request sw' ps = request sw ps.
Proof. unfold request, base_url. intros ->. reflexivity. Qed.

Lemma le_bytes_length n : forall x, List.length (MD5.le_bytes n x) = n.
Proof. induction n as [|n IH]; intros x; simpl; [|rewrite IH]; reflexivity. Qed.

Lemma le_bytes_range n : forall x,
  Forall (fun b => (0 <= b < 256)%Z) (MD5.le_bytes n x).
Proof.
  induction n as [|n IH]; intros x; simpl; constructor; [|apply IH].
  change 255%Z with (Z.ones 8). rewrite Z.land_ones by lia.
  apply Z.mod_pos_bound. reflexivity.
Qed.

Lemma digest_length msg : List.length (MD5.digest msg) = 16.
Proof.
  unfold MD5.digest. cbv zeta. rewrite !length_app, !le_bytes_length.
  reflexivity.
Qed.

Lemma digest_range msg : Forall (fun b => (0 <= b < 256)%Z) (MD5.digest msg).
Proof.
  unfold MD5.digest. cbv zeta.
  repeat (apply Forall_app; split); apply le_bytes_range.
Qed.

Lemma hex_digit_lower d : (0 <= d < 16)%Z -> is_lower_hex (MD5.hex_digit d).
Proof.
  intros Hd. unfold is_lower_hex, MD5.hex_digit.
  destruct (d <? 10)%Z eqn:Hlt; [apply Z.ltb_lt in Hlt|apply Z.ltb_ge in Hlt];
    lia.
Qed.

Lemma hexdigest_shape bytes :
  Forall (fun b => (0 <= b < 256)%Z) bytes ->
  List.length (flat_map (fun b => [MD5.hex_digit (Z.shiftr b 4);
                                   MD5.hex_digit (Z.land b 0xF)]) bytes)
  = 2 * List.length bytes
  /\ Forall is_lower_hex
       (flat_map (fun b => [MD5.hex_digit (Z.shiftr b 4);
                            MD5.hex_digit (Z.land b 0xF)]) bytes).
Proof.
  induction 1 as [|b bytes Hb _ [IHlen IHhex]]; simpl; [auto|].
  split; [rewrite IHlen; lia|].
  constructor; [|constructor; [|exact IHhex]]; apply hex_digit_lower.
  - rewrite Z.shiftr_div_pow2 by lia. change (2 ^ 4)%Z with 16%Z.
    split; [apply Z.div_pos; lia|apply Z.div_lt_upper_bound; lia].
  - change 15%Z with (Z.ones 4). rewrite Z.land_ones by lia.
    apply Z.mod_pos_bound. reflexivity.
Qed.

Section SessionMore.
Context {dev : Device}.

Lemma authenticated_passes p :
  authenticated (self p) = true ->
  fst (_check_auth p) = Val true /\ after_auth p = p.
Proof.
  intros Hauth. unfold after_auth.
  rewrite check_auth_authenticated by assumption. auto.
Qed.

(** X1. On an authenticated session [set_channel] sends one request, to
    the address of the session, with the method [set-channel], the text
    [true] as [ndi-name] and the source name as [name]; it returns [True]
    exactly when the reply to that request is a dictionary whose status
    equals 0, and [False] otherwise. *)
Theorem set_channel_true_iff_status_zero (p : Proc) (source_name : pyval) :
  authenticated (self p) = true ->
  let req := {| url := $"http://" ++ ip_address (self p) ++ $"/mwapi";
                params := [($"method", PyStr $"set-channel");
                           ($"ndi-name", PyStr $"true");
                           ($"name", source_name)] |} in
  sent (snd (set_channel source_name p)) = sent p ++ [req]
  /\ (fst (set_channel source_name p) = Val true <->
      exists items status,
        respond (sent p ++ [req]) = Response (Some (PyDict items))
        /\ Py.lookup $"status" items = Some status
        /\ Py.eq_zero status = true)
  /\ (fst (set_channel source_name p) = Val true
      \/ fst (set_channel source_name p) = Val false).
Proof.
  intros Hauth req.
  destruct (authenticated_passes p Hauth) as [Hb Hq].
  pose proof (set_channel_sends source_name p Hb) as (Hs & _).
  pose proof (set_channel_value source_name p Hb) as Hv.
  cbv zeta in Hs, Hv. rewrite Hq in Hs, Hv.
  change (request (self p) (set_channel_params source_name)) with req in Hs, Hv.
  split; [exact Hs|]. rewrite Hv.
  destruct (respond (sent p ++ [req])) as [|[data|]] eqn:Hr.
  - split; [|auto]. split; [discriminate|].
    intros (items & status & Heq & _). discriminate.
  - destruct (status_is_zero data) eqn:Hz.
    + split; [|auto]. split; [intros _|reflexivity].
      apply status_is_zero_spec in Hz.
      destruct Hz as (items & status & -> & Hl & Hs0). eauto.
    + split; [|auto]. split; [discriminate|].
      intros (items & status & [= ->] & Hl & Hs0).
      assert (status_is_zero (PyDict items) = true)
        by (apply status_is_zero_spec; eauto).
      congruence.
  - split; [|auto]. split; [discriminate|].
    intros (items & status & Heq & _). discriminate.
Qed.

(** X2. What [get_current_channel] returns is [None] or the reply
    itself: a dictionary that holds a [status] item equal to 0, hence a
    true value, so that a success is never taken for a failure by a test
    [if channel:]. *)
Theorem get_current_channel_returns_the_reply (p : Proc) (v : pyval) :
  fst (get_current_channel p) = Val v ->
  v <> PyNone ->
  respond (sent (after_auth p)
           ++ [request (self (after_auth p)) get_channel_params])
  = Response (Some v)
  /\ (exists items status,
        v = PyDict items /\ Py.lookup $"status" items = Some status
        /\ Py.eq_zero status = true)
  /\ Py.truthy v = true.
Proof.
  intros Hv Hnone.
  destruct (check_auth_returns p) as [[|] Hb].
  - rewrite get_current_channel_value in Hv by assumption. cbv zeta in Hv.
    destruct (respond _) as [|[data|]]; try congruence.
    destruct (status_is_zero data) eqn:Hz; [|congruence].
    injection Hv as <-. split; [reflexivity|].
    apply status_is_zero_spec in Hz.
    destruct Hz as (items & status & -> & Hl & Hs).
    split; [eauto|]. destruct items; [discriminate|reflexivity].
  - rewrite get_current_channel_unauthenticated in Hv by assumption.
    simpl in Hv. congruence.
Qed.

Lemma login_accepted p req :
  login_request (self p) = Some req ->
  (exists data,
      respond (sent p ++ [req]) = Response (Some data)
      /\ status_is_zero data = true) ->
  fst (login p) = Val true
  /\ sent (snd (login p)) = sent p ++ [req]
  /\ authenticated (self (snd (login p))) = true.
Proof.
  intros Hreq (data & Hr & Hz). pose proof (login_outcome p) as H.
  rewrite Hreq in H. destruct H as [Hs H]. rewrite Hr, Hz in H. tauto.
Qed.

Lemma login_rejected p req :
  login_request (self p) = Some req ->
  failed_reply (respond (sent p ++ [req])) ->
  fst (login p) = Val false
  /\ sent (snd (login p)) = sent p ++ [req]
  /\ authenticated (self (snd (login p))) = authenticated (self p).
Proof.
  intros Hreq Hfail. pose proof (login_outcome p) as H.
  rewrite Hreq in H. destruct H as [Hs H].
  inversion Hfail as [Hr|Hr|data Hz Hr]; rewrite <- Hr in H;
    try rewrite Hz in H; tauto.
Qed.

Lemma login_request_same sw sw' :
  ip_address sw' = ip_address sw -> username sw' = username sw ->
  password sw' = password sw -> login_request sw' = login_request sw.
Proof.
  unfold login_request, base_url. intros -> -> ->. reflexivity.
Qed.

(** X3. The first operation on a session that is not authenticated logs
    in on the way: when the device accepts the login, [get_ndi_sources]
    sends the login request and then its own, and leaves the session
    authenticated; an operation that follows sends its own request and
    nothing else. *)
Theorem first_operation_logs_in_on_the_way
        (p : Proc) (req : Request) (source_name : pyval) :
  authenticated (self p) = false ->
  login_request (self p) = Some req ->
  (exists data,
      respond (sent p ++ [req]) = Response (Some data)
      /\ status_is_zero data = true) ->
  let q := snd (get_ndi_sources p) in
  sent q = sent p ++ [req; request (self p) get_ndi_sources_params]
  /\ authenticated (self q) = true
  /\ sent (snd (set_channel source_name q))
     = sent q ++ [request (self p) (set_channel_params source_name)].
Proof.
  intros Hauth Hreq Hok q.
  destruct (login_accepted p Hreq Hok) as (Hv & Hs & Hflag).
  assert (Hb : fst (_check_auth p) = Val true)
    by (rewrite check_auth_unauthenticated by assumption; exact Hv).
  assert (Hq : after_auth p = snd (login p))
    by (unfold after_auth; rewrite check_auth_unauthenticated by assumption;
        reflexivity).
  pose proof (login_keeps_identity p) as (Hip & _).
  pose proof (get_ndi_sources_sends p Hb) as (Hs1 & Hself & _).
  cbv zeta in Hs1, Hself. rewrite Hq in Hs1, Hself.
  assert (Hflagq : authenticated (self q) = true)
    by (subst q; rewrite Hself; exact Hflag).
  assert (Hipq : ip_address (self q) = ip_address (self p))
    by (subst q; rewrite Hself; exact Hip).
  split; [|split; [exact Hflagq|]].
  - subst q. rewrite Hs1, Hs, <- app_assoc.
    rewrite (same_address_same_request _ _ _ Hip). reflexivity.
  - destruct (authenticated_passes q Hflagq) as [Hbq Hqq].
    pose proof (set_channel_sends source_name q Hbq) as (Hs2 & _).
    cbv zeta in Hs2. rewrite Hqq in Hs2. rewrite Hs2.
    rewrite (same_address_same_request _ _ _ Hipq). reflexivity.
Qed.

(** X4. A login that fails is tried again by the next operation: when the
    reply to the login request is a failure, [get_ndi_sources] has sent
    that request alone, the session is still not authenticated, and the
    operation that follows starts with the same login request. *)
Theorem failed_login_is_tried_again (p : Proc) (req : Request) :
  authenticated (self p) = false ->
  login_request (self p) = Some req ->
  failed_reply (respond (sent p ++ [req])) ->
  let q := snd (get_ndi_sources p) in
  fst (get_ndi_sources p) = Val PyNone
  /\ sent q = sent p ++ [req]
  /\ authenticated (self q) = false
  /\ _check_auth q = login q
  /\ login_request (self q) = Some req
  /\ exists more,
       sent (snd (get_current_channel q)) = sent p ++ [req; req] ++ more.
Proof.
  intros Hauth Hreq Hfail q.
  destruct (login_rejected p Hreq Hfail) as (Hv & Hs & Hflag).
  assert (Hb : fst (_check_auth p) = Val false)
    by (rewrite check_auth_unauthenticated by assumption; exact Hv).
  assert (Hq : q = snd (login p)).
  { subst q. rewrite get_ndi_sources_unauthenticated by assumption.
    unfold after_auth. rewrite check_auth_unauthenticated by assumption.
    reflexivity. }
  pose proof (login_keeps_identity p) as (Hip & Hu & Hpw & _).
  assert (Hflagq : authenticated (self q) = false) by congruence.
  assert (Hreqq : login_request (self q) = Some req).
  { rewrite <- Hreq. rewrite Hq. apply login_request_same; assumption. }
  split; [rewrite get_ndi_sources_unauthenticated by assumption; reflexivity|].
  split; [congruence|]. split; [exact Hflagq|].
  split; [apply check_auth_unauthenticated, Hflagq|].
  split; [exact Hreqq|].
  assert (Hlogin : sent (after_auth q) = sent q ++ [req]).
  { unfold after_auth. rewrite check_auth_unauthenticated by assumption.
    pose proof (login_outcome q) as H. rewrite Hreqq in H. tauto. }
  destruct (check_auth_returns q) as [[|] Hbq].
  - pose proof (get_current_channel_sends q Hbq) as (Hs2 & _).
    cbv zeta in Hs2. eexists. rewrite Hs2, Hlogin, Hq, Hs.
    rewrite <- !app_assoc. reflexivity.
  - rewrite get_current_channel_unauthenticated by assumption.
    exists []. simpl snd. rewrite Hlogin, Hq, Hs, <- !app_assoc. reflexivity.
Qed.

End SessionMore.

Section SessionRecords.
Context {dev : Device}.

Ltac open_call :=
  unfold bind; rewrite check_auth_authenticated by assumption;
  cbv iota beta; cbn [negb];
  unfold try_except, bind, ret, raise, lift, get_self, logger, session_get,
    response_json, call_log, request;
  cbn [self sent stdin stdout log fst snd].

Ltac close_call :=
  match goal with
  | |- context [respond ?h] => destruct (respond h) as [|[[| | | | | |?]|]]
  end;
  cbn; rewrite ?app_nil_r; try reflexivity;
  repeat (break_match; cbn; rewrite ?app_nil_r); reflexivity.

Lemma login_log p :
  log (snd (login p))
  = log p
    ++ match login_request (self p) with
       | None => [(ERROR, LoginError UnicodeEncodeError)]
       | Some req =>
           call_log (fun _ => [(INFO, LoggedIn (ip_address (self p)))])
                    LoginFailed LoginError (respond (sent p ++ [req]))
       end.
Proof.
  unfold login, login_request, md5_of, _hash_password.
  unfold try_except, bind, ret, raise, lift, get_self, logger, session_get,
    response_json, call_log, set_authenticated.
  destruct (PyStr.encode (password (self p))) as [bs|]; cbn; [|reflexivity].
  close_call.
Qed.

Lemma get_current_channel_log p :
  authenticated (self p) = true ->
  log (snd (get_current_channel p))
  = log p ++ call_log (fun _ => []) ChannelFailed ChannelError
               (respond (sent p ++ [request (self p) get_channel_params])).
Proof. intros Hauth. unfold get_current_channel. open_call. close_call. Qed.

Lemma get_ndi_sources_log p :
  authenticated (self p) = true ->
  log (snd (get_ndi_sources p))
  = log p ++ call_log (fun _ => []) SourcesFailed SourcesError
               (respond (sent p ++ [request (self p) get_ndi_sources_params])).
Proof. intros Hauth. unfold get_ndi_sources. open_call. close_call. Qed.

Lemma set_channel_log source_name p :
  authenticated (self p) = true ->
  log (snd (set_channel source_name p))
  = log p ++ call_log (fun _ => [(INFO, Switched source_name)])
               SwitchFailed SwitchError
               (respond (sent p ++ [request (self p)
                                      (set_channel_params source_name)])).
Proof. intros Hauth. unfold set_channel. open_call. close_call. Qed.

(** On a session that is not authenticated, an operation whose login
    succeeds goes on as on the session that [login] left. *)
Lemma check_auth_bind {B} (k : bool -> M B) p :
  authenticated (self p) = false ->
  fst (login p) = Val true ->
  authenticated (self (snd (login p))) = true
  /\ bind _check_auth k p = bind _check_auth k (snd (login p)).
Proof.
  intros Hauth Hlogin.
  assert (Hq : authenticated (self (snd (login p))) = true).
  { pose proof (check_auth_true p) as H. unfold after_auth in H.
    rewrite check_auth_unauthenticated in H by assumption. auto. }
  split; [exact Hq|]. unfold bind.
  rewrite (check_auth_unauthenticated p Hauth).
  rewrite (check_auth_authenticated _ Hq).
  destruct (login p) as [r q]. simpl in Hlogin. subst r. reflexivity.
Qed.

(** X5. Every call leaves its trace in the log and none on standard
    output.  [login] adds one record: [INFO] after a status that equals 0,
    [ERROR] after any other reply and when the password cannot be encoded.
    On an authenticated session [get_current_channel] and
    [get_ndi_sources] add nothing after a success and one [ERROR] record
    after a failure; [set_channel] adds one [INFO] record after a success
    and one [ERROR] record after a failure.  On a session that is not
    authenticated the three operations log in first, so the record of
    [login] comes first: nothing follows it when that login failed, and
    the operation's own records, as on an authenticated session, when it
    succeeded.  One call so adds two records at most.  A reply that is
    JSON and no dictionary is logged as the [AttributeError] that it
    raises. *)
Theorem every_failure_is_logged_once (p : Proc) (source_name : pyval) :
  (log (snd (login p))
   = log p
     ++ match login_request (self p) with
        | None => [(ERROR, LoginError UnicodeEncodeError)]
        | Some req =>
            call_log (fun _ => [(INFO, LoggedIn (ip_address (self p)))])
                     LoginFailed LoginError (respond (sent p ++ [req]))
        end
   /\ stdout (snd (login p)) = stdout p)
  /\ (stdout (snd (get_current_channel p)) = stdout p
      /\ stdout (snd (get_ndi_sources p)) = stdout p
      /\ stdout (snd (set_channel source_name p)) = stdout p)
  /\ (forall q : Proc,
        authenticated (self p) = true /\ q = p
        \/ authenticated (self p) = false
           /\ fst (login p) = Val true /\ q = snd (login p) ->
        log (snd (get_current_channel p))
        = log q ++ call_log (fun _ => []) ChannelFailed ChannelError
                     (respond (sent q ++ [request (self q) get_channel_params]))
        /\ log (snd (get_ndi_sources p))
           = log q ++ call_log (fun _ => []) SourcesFailed SourcesError
                        (respond (sent q ++ [request (self q)
                                               get_ndi_sources_params]))
        /\ log (snd (set_channel source_name p))
           = log q ++ call_log (fun _ => [(INFO, Switched source_name)])
                        SwitchFailed SwitchError
                        (respond (sent q ++ [request (self q)
                                               (set_channel_params
                                                  source_name)])))
  /\ (authenticated (self p) = false ->
      fst (login p) = Val false ->
      log (snd (get_current_channel p)) = log (snd (login p))
      /\ log (snd (get_ndi_sources p)) = log (snd (login p))
      /\ log (snd (set_channel source_name p)) = log (snd (login p)))
  /\ (forall ok failed error reply,
        (forall data, List.length (ok data) <= 1) ->
        List.length (call_log ok failed error reply) <= 1)
  /\ (forall ok failed error data,
        ~ is_dict data ->
        call_log ok failed error (Response (Some data))
        = [(ERROR, error AttributeError)]).
Proof.
  split; [|split; [|split; [|split; [|split]]]].
  - split; [apply login_log|].
    pose proof (login_keeps_identity p). tauto.
  - pose proof (get_current_channel_frame p) as (_ & _ & H1).
    pose proof (get_ndi_sources_frame p) as (_ & _ & H2).
    pose proof (set_channel_frame source_name p) as (_ & _ & H3).
    auto.
  - intros q [[Hauth ->]|(Hauth & Hlogin & ->)].
    + auto using get_current_channel_log, get_ndi_sources_log,
        set_channel_log.
    + assert (Hq : authenticated (self (snd (login p))) = true)
        by apply (check_auth_bind (fun b => ret b) p Hauth Hlogin).
      assert (H1 : get_current_channel p = get_current_channel (snd (login p)))
        by apply (check_auth_bind _ p Hauth Hlogin).
      assert (H2 : get_ndi_sources p = get_ndi_sources (snd (login p)))
        by apply (check_auth_bind _ p Hauth Hlogin).
      assert (H3 : set_channel source_name p
                   = set_channel source_name (snd (login p)))
        by apply (check_auth_bind _ p Hauth Hlogin).
      rewrite H1, H2, H3.
      auto using get_current_channel_log, get_ndi_sources_log,
        set_channel_log.
  - intros Hauth Hlogin.
    assert (Hb : fst (_check_auth p) = Val false)
      by (rewrite check_auth_unauthenticated by assumption; exact Hlogin).
    rewrite get_current_channel_unauthenticated,
      get_ndi_sources_unauthenticated, set_channel_unauthenticated
      by assumption.
    unfold after_auth. rewrite check_auth_unauthenticated by assumption.
    auto.
  - intros ok failed error reply Hok. unfold call_log.
    destruct reply as [|[data|]]; simpl; auto.
    destruct (Py.get data $"status" PyNone) as [status|e]; simpl; auto.
    destruct (Py.eq_zero status); simpl; auto.
  - intros ok failed error data Hdata. unfold call_log.
    destruct data; simpl in *; try reflexivity. contradiction.
Qed.

Lemma login_unencodable p :
  PyStr.encode (password (self p)) = None ->
  fst (login p) = Val false
  /\ self (snd (login p)) = self p
  /\ sent (snd (login p)) = sent p
  /\ stdout (snd (login p)) = stdout p
  /\ log (snd (login p)) = log p ++ [(ERROR, LoginError UnicodeEncodeError)].
Proof.
  intros Henc. unfold login, _hash_password.
  unfold try_except, bind, ret, raise, lift, get_self, logger.
  rewrite Henc. cbn. auto.
Qed.

(** X6. A password that cannot be encoded as UTF-8 (a lone surrogate, as
    the interpreter decodes a stray byte of the command line) fails the
    login before anything is sent: [login] logs one [ERROR] record, and
    [main] ends with status 1 without a single request to the device.
    When [sys.stdout] can encode the address, [main] prints the
    authentication failure and calls [sys.exit(1)]; when it cannot,
    nothing is printed and [UnicodeEncodeError] ends the run. *)
Theorem unencodable_password_fails_without_a_request
        {rt : Runtime} (args : Args.t) (p : Proc) :
  PyStr.encode (Args.password args) = None ->
  exists r q,
    main args p = Some (r, q)
    /\ exit_status r = 1%Z
    /\ sent q = sent p
    /\ log q = log p ++ [(ERROR, LoginError UnicodeEncodeError)]
    /\ (can_print (Args.ip args) = true ->
        r = Raise (SystemExit 1)
        /\ stdout q
           = stdout p ++ [Print ($"Failed to authenticate with switcher at "
                                   ++ Args.ip args)])
    /\ (can_print (Args.ip args) = false ->
        r = Raise UnicodeEncodeError /\ stdout q = stdout p).
Proof.
  intros Henc. rewrite main_after_login.
  destruct (login_unencodable (fresh args p) Henc)
    as (Hv & _ & Hs & Ho & Hl).
  destruct (login (fresh args p)) as [r q0]. simpl in Hv, Hs, Ho, Hl.
  subst r. rewrite failed_login_exit.
  destruct (can_print (Args.ip args)); do 2 eexists;
    (split; [reflexivity|]); (split; [reflexivity|]);
    (split; [exact Hs|]); (split; [exact Hl|]);
    split; intros H; try discriminate H;
    (split; [reflexivity|]); simpl; rewrite Ho; reflexivity.
Qed.

(** X7. Whenever [_hash_password] returns, the hash has 32 characters,
    each one of [0-9a-f], and the session is as it was. *)
Theorem password_hash_has_32_hex_characters (p : Proc) (hash : pystr) (q : Proc) :
  _hash_password p = (Val hash, q) ->
  List.length hash = 32 /\ Forall is_lower_hex hash /\ q = p.
Proof.
  unfold _hash_password, bind, get_self, ret, raise.
  destruct (PyStr.encode (password (self p))) as [bs|]; [|discriminate].
  intros [= <- <-]. unfold MD5.hexdigest.
  destruct (hexdigest_shape (digest_range (map Z.of_N bs))) as [Hlen Hhex].
  rewrite Hlen, digest_length. auto.
Qed.

End SessionRecords.

(* ================================================================== *)
(** ** Further properties of the table and of the subcommands *)
(* ================================================================== *)

Lemma format_index_width idx :
  idx < 1000 -> List.length (format_index idx) = 3.
Proof.
  intros Hlt.
  assert (Hall : forallb (fun i => List.length (format_index i) =? 3)
                         (seq 0 1000) = true) by (vm_compute; reflexivity).
  rewrite forallb_forall in Hall.
  apply Nat.eqb_eq, Hall, in_seq. lia.
Qed.

Lemma ljust_width w s : List.length s <= w -> List.length (PyStr.ljust w s) = w.
Proof. intros Hle. rewrite ljust_length. lia. Qed.

Section Table.
Context {rt : Runtime}.

Lemma print_rows_stops good : forall idx lines bad rest e p,
  rows_text idx good = Val lines ->
  all_printable lines = true ->
  printed_row (idx + List.length good) bad = Raise e ->
  print_rows idx (good ++ bad :: rest) p
  = (Raise e, with_output p (map Print lines)).
Proof.
  induction good as [|x good IH]; intros idx lines bad rest e p;
    cbn [app print_rows rows_text List.length].
  - intros [= <-] _. rewrite Nat.add_0_r. unfold printed_row. intros Hbad.
    unfold bind, lift. cbn [map]. rewrite with_output_nil.
    destruct (row_text idx bad) as [line|e']; [|congruence].
    destruct (can_print line) eqn:Hline; [discriminate|].
    injection Hbad as <-. rewrite print_refused by assumption. reflexivity.
  - destruct (row_text idx x) as [line|e'] eqn:Hrow; [|discriminate].
    destruct (rows_text (S idx) good) as [lines'|e'] eqn:Hrest; [|discriminate].
    intros [= <-]. unfold all_printable. cbn [forallb].
    intros [Hline Hlines]%andb_prop Hbad. unfold bind, lift.
    rewrite print_output by assumption.
    rewrite (IH (S idx) lines' bad rest e); [|assumption|assumption|].
    + rewrite with_output_app. reflexivity.
    + rewrite <- Hbad. f_equal. lia.
Qed.

Lemma row_text_not_a_dict idx v :
  ~ is_dict v -> row_text idx v = Raise AttributeError.
Proof.
  intros Hv. unfold row_text.
  destruct v; simpl in *; try reflexivity. contradiction.
Qed.

(** X8. The table is printed row by row, and the first source that cannot
    be printed ends it, be it that its row cannot be formatted or that
    [sys.stdout] cannot encode the row: the head and the rows before it
    are on standard output, and the exception leaves
    [display_ndi_sources].  A row that [sys.stdout] cannot encode raises
    [UnicodeEncodeError]; a source that is not a dictionary raises
    [AttributeError]; a name that is [None], a list or a dictionary raises
    [TypeError].  A [sources] value that is a text or a dictionary gets as
    far as the head. *)
Theorem display_stops_at_the_first_bad_source :
  (forall p good bad rest lines e,
      rows_text 1 good = Val lines ->
      all_printable lines = true ->
      printed_row (S (List.length good)) bad = Raise e ->
      display_ndi_sources (PyList (good ++ bad :: rest)) p
      = (Raise e, with_output p (table_head ++ map Print lines)))
  /\ (forall idx source,
        (forall e, row_text idx source = Raise e ->
                   printed_row idx source = Raise e)
        /\ (forall line,
              row_text idx source = Val line ->
              can_print line = false ->
              printed_row idx source = Raise UnicodeEncodeError))
  /\ (forall idx v, ~ is_dict v -> row_text idx v = Raise AttributeError)
  /\ (forall idx items v,
        Py.lookup $"ndi-name" items = Some v ->
        v = PyNone \/ (exists l, v = PyList l) \/ (exists d, v = PyDict d) ->
        row_text idx (PyDict items) = Raise TypeError)
  /\ (forall p c s,
        display_ndi_sources (PyStr (c :: s)) p
        = (Raise AttributeError, with_output p table_head))
  /\ (forall p k v d,
        display_ndi_sources (PyDict ((k, v) :: d)) p
        = (Raise AttributeError, with_output p table_head)).
Proof.
  split; [|split; [|split; [|split; [|split]]]].
  - intros p good bad rest lines e Hrows Hlines Hbad.
    unfold display_ndi_sources.
    assert (Ht : Py.truthy (PyList (good ++ bad :: rest)) = true)
      by (destruct good; reflexivity).
    rewrite Ht. cbn [negb]. unfold bind, lift. cbn [Py.iter].
    rewrite !print_output by fixed_text.
    rewrite (print_rows_stops good 1 bad rest _ Hrows Hlines Hbad).
    rewrite !with_output_app. reflexivity.
  - intros idx source. unfold printed_row. split.
    + intros e ->. reflexivity.
    + intros line -> ->. reflexivity.
  - apply row_text_not_a_dict.
  - intros idx items v Hl Hv. unfold row_text. cbn [Py.get]. rewrite Hl.
    destruct Hv as [->|[[l ->]|[d ->]]]; reflexivity.
  - intros p c s. unfold display_ndi_sources. cbn [Py.truthy negb].
    replace (PyStr.eqb (c :: s) []) with false
      by (symmetry; apply eqb_neq; discriminate).
    cbn [negb]. unfold bind, lift. cbn [Py.iter map print_rows].
    rewrite !print_output by fixed_text. unfold bind, lift.
    rewrite row_text_not_a_dict by (simpl; tauto).
    rewrite !with_output_app. reflexivity.
  - intros p k v d. unfold display_ndi_sources. cbn [Py.truthy negb].
    unfold bind, lift. cbn [Py.iter map print_rows fst].
    rewrite !print_output by fixed_text. unfold bind, lift.
    rewrite row_text_not_a_dict by (simpl; tauto).
    rewrite !with_output_app. reflexivity.
Qed.

(** X9. The columns of the table.  A source is printed from its two items
    alone, [Unknown] standing for a missing one.  With a name of at most
    60 characters, an address of at most 15 and a number below 1000 the
    row is a column of 3, one of 60 and one of 15 characters with [" | "]
    between them, 84 characters in all, and so is the line of headings;
    the two rules are 80 characters long. *)
Theorem rows_and_headings_share_their_columns
        (idx : nat) (items : list (pystr * pyval)) (name ip : pystr) :
  item "ndi-name" (PyStr $"Unknown") items = PyStr name ->
  item "ip-addr" (PyStr $"Unknown") items = PyStr ip ->
  List.length name <= 60 ->
  List.length ip <= 15 ->
  idx < 1000 ->
  (exists a b c,
      row_text idx (PyDict items) = Val (a ++ sep ++ b ++ sep ++ c)
      /\ a = format_index idx /\ b = PyStr.ljust 60 name
      /\ c = PyStr.ljust 15 ip
      /\ List.length a = 3 /\ List.length b = 60 /\ List.length c = 15
      /\ List.length (a ++ sep ++ b ++ sep ++ c) = 84)
  /\ (exists a b c,
        header_text = a ++ sep ++ b ++ sep ++ c
        /\ List.length a = 3 /\ List.length b = 60 /\ List.length c = 15)
  /\ List.length rule = 80.
Proof.
  intros Hname Hip Hn Hi Hidx. split; [|split].
  - exists (format_index idx), (PyStr.ljust 60 name), (PyStr.ljust 15 ip).
    assert (Ha := format_index_width Hidx).
    assert (Hb := @ljust_width 60 name Hn).
    assert (Hc := @ljust_width 15 ip Hi).
    split.
    + unfold row_text, item in *. cbn [Py.get]. rewrite Hname, Hip.
      reflexivity.
    + repeat (split; [reflexivity || assumption|]).
      rewrite !length_app, Ha, Hb, Hc. reflexivity.
  - exists (PyStr.ljust 3 $"#"), (PyStr.ljust 60 $"Source Name"),
      (PyStr.ljust 15 $"IP Address").
    repeat split; reflexivity.
  - reflexivity.
Qed.

End Table.

Section Subcommands.
Context {rt : Runtime} {dev : Device}.

(** X10. What the [current] subcommand and menu option 1 print on an
    authenticated session.  After a reply with a status that equals 0:
    the heading, the [name] item ([Unknown] when there is none), and
    [NDI: Yes] exactly when the [ndi-name] item holds a true value ([No]
    also when it is missing, empty or false); the subcommand returns.
    That is so when [sys.stdout] can encode the name; when it cannot,
    the heading alone is printed and [UnicodeEncodeError] leaves the
    subcommand.  After a failed reply: the one line "Failed to retrieve
    current channel.", and the subcommand returns. *)
Theorem current_channel_report (p : Proc) :
  authenticated (self p) = true ->
  let reply := respond (sent p ++ [request (self p) get_channel_params]) in
  (forall items,
      reply = Response (Some (PyDict items)) ->
      status_is_zero (PyDict items) = true ->
      let name := py_str (item "name" (PyStr $"Unknown") items) in
      (can_print name = true ->
       fst (show_current_channel p) = Val tt
       /\ stdout (snd (show_current_channel p))
          = stdout p
            ++ [Print (NL ++ $"Current Channel:");
                Print ($"Name: " ++ name);
                Print ($"NDI: " ++ (if Py.truthy (item "ndi-name" PyNone items)
                                    then $"Yes" else $"No"))])
      /\ (can_print name = false ->
          fst (show_current_channel p) = Raise UnicodeEncodeError
          /\ stdout (snd (show_current_channel p))
             = stdout p ++ [Print (NL ++ $"Current Channel:")]))
  /\ (failed_reply reply ->
      fst (show_current_channel p) = Val tt
      /\ stdout (snd (show_current_channel p))
         = stdout p ++ [Print $"Failed to retrieve current channel."]).
Proof.
  intros Hauth reply.
  destruct (authenticated_passes p Hauth) as [Hb Hq].
  pose proof (get_current_channel_value p Hb) as Hv.
  pose proof (get_current_channel_frame p) as (_ & _ & Ho).
  cbv zeta in Hv. rewrite Hq in Hv. fold reply in Hv.
  split.
  - intros items Hr Hz name. rewrite Hr, Hz in Hv.
    assert (Ht : Py.truthy (PyDict items) = true).
    { apply status_is_zero_spec in Hz.
      destruct Hz as (items' & status & [= <-] & Hl & _).
      destruct items; [discriminate|reflexivity]. }
    rewrite (show_current_channel_shown p Hv Ht). fold name.
    split; intros ->; simpl; rewrite Ho; auto.
  - intros Hfail.
    assert (Hnone : fst (get_current_channel p) = Val PyNone).
    { rewrite Hv. inversion Hfail as [Hr|Hr|data Hz Hr]; try rewrite Hz;
        reflexivity. }
    rewrite show_current_channel_failed
      by (unfold fst_val; rewrite Hnone; reflexivity).
    simpl. rewrite Ho. auto.
Qed.

(** X11. What the [set] subcommand does on an authenticated session: it
    sends one [set-channel] request that carries the source name as it
    was typed.  When [sys.stdout] can encode that name, it prints
    "Successfully switched to: " and the name when the reply has a status
    that equals 0, "Failed to switch to: " and the name after any other
    reply, and returns; when it cannot, nothing is printed and
    [UnicodeEncodeError] leaves the subcommand, after the request. *)
Theorem set_command_report (p : Proc) (source : pystr) :
  authenticated (self p) = true ->
  let req := request (self p) (set_channel_params (PyStr source)) in
  let accepted :=
    match respond (sent p ++ [req]) with
    | Response (Some data) => status_is_zero data
    | _ => false
    end in
  sent (snd (set_command source p)) = sent p ++ [req]
  /\ (can_print source = true ->
      fst (set_command source p) = Val tt
      /\ stdout (snd (set_command source p))
         = stdout p
           ++ [Print ((if accepted then $"Successfully switched to: "
                       else $"Failed to switch to: ") ++ source)])
  /\ (can_print source = false ->
      fst (set_command source p) = Raise UnicodeEncodeError
      /\ stdout (snd (set_command source p)) = stdout p).
Proof.
  intros Hauth req accepted.
  destruct (authenticated_passes p Hauth) as [Hb Hq].
  pose proof (set_channel_value (PyStr source) p Hb) as Hv.
  pose proof (set_channel_sends (PyStr source) p Hb) as (Hs & _).
  pose proof (set_channel_frame (PyStr source) p) as (_ & _ & Ho).
  cbv zeta in Hv, Hs. rewrite Hq in Hv, Hs. fold req in Hv, Hs.
  assert (Hacc : fst (set_channel (PyStr source) p) = Val accepted).
  { rewrite Hv. subst accepted.
    destruct (respond (sent p ++ [req])) as [|[data|]]; reflexivity. }
  destruct (set_command_shown source p) as (ok & Hok & ->).
  assert (ok = accepted) as -> by congruence.
  destruct (can_print source); simpl; rewrite Hs, Ho;
    (split; [reflexivity|]); split; intros H; try discriminate H; auto.
Qed.

End Subcommands.

(* ================================================================== *)
(** ** Further properties of the menu *)
(* ================================================================== *)

Lemma lstrip_blanks `{Runtime} before s :
  Forall (fun c => str_isspace c = true) before ->
  lstrip (before ++ s) = lstrip s.
Proof.
  induction 1 as [|c before Hc _ IH]; [reflexivity|].
  cbn [app lstrip]. rewrite Hc. exact IH.
Qed.

Lemma lstrip_all_blanks `{Runtime} s :
  Forall (fun c => str_isspace c = true) s -> lstrip s = [].
Proof.
  intros Hs. rewrite <- (app_nil_r s). rewrite lstrip_blanks by assumption.
  reflexivity.
Qed.

Lemma strip_around `{Runtime} before c after :
  Forall (fun x => str_isspace x = true) before ->
  Forall (fun x => str_isspace x = true) after ->
  str_isspace c = false ->
  strip (before ++ c :: after) = [c].
Proof.
  intros Hb Ha Hc. unfold strip. rewrite lstrip_blanks by assumption.
  cbn [lstrip]. rewrite Hc. change (c :: after) with ([c] ++ after).
  rewrite rev_app_distr. rewrite lstrip_blanks by (apply Forall_rev, Ha).
  cbn [rev app lstrip]. rewrite Hc. reflexivity.
Qed.

Section Menu.
Context {rt : Runtime} {dev : Device}.

Lemma print_rows_raises sources : forall idx e p,
  rows_text idx sources = Raise e ->
  exists e',
    fst (print_rows idx sources p) = Raise e'
    /\ (e' = e \/ e' = UnicodeEncodeError).
Proof.
  induction sources as [|x sources IH]; intros idx e p;
    cbn [print_rows rows_text]; [discriminate|].
  unfold bind, lift.
  destruct (row_text idx x) as [line|e'] eqn:Hrow;
    [|intros [= <-]; exists e'; split; [reflexivity|left; reflexivity]].
  destruct (rows_text (S idx) sources) as [lines|e'] eqn:Hrest; [discriminate|].
  intros [= <-]. destruct (print_cases line p) as [[_ ->]|[_ ->]].
  - apply (IH _ _ _ Hrest).
  - exists UnicodeEncodeError. split; [reflexivity|right; reflexivity].
Qed.

Lemma bind_raises {A B} (m : M A) (k : A -> M B) p e :
  fst (m p) = Raise e -> bind m k p = (Raise e, snd (m p)).
Proof.
  unfold bind. destruct (m p) as [[a|e'] q]; simpl; [discriminate|].
  intros [= ->]. reflexivity.
Qed.

(** X12. Menu option 2 on a list of sources that came back.  When every
    row can be formatted and [sys.stdout] can encode every row, the table
    is printed, the turn ends, and the cache is that list, whatever it
    held before.  When a row cannot be printed, because it cannot be
    formatted or because [sys.stdout] cannot encode it, the exception
    leaves the turn and the cache is as it was: a list is kept only
    after it was displayed whole. *)
Theorem list_option_caches_what_it_displayed
        (p : Proc) (x : pyval) (l : list pyval) :
  fst (get_ndi_sources p) = Val (PyList (x :: l)) ->
  (forall lines,
      rows_text 1 (x :: l) = Val lines ->
      (all_printable lines = true ->
       fst (list_option p) = Val Continue
       /\ cached_sources (self (snd (list_option p))) = Some (PyList (x :: l))
       /\ stdout (snd (list_option p))
          = stdout p ++ table_head ++ map Print lines)
      /\ (all_printable lines = false ->
          fst (list_option p) = Raise UnicodeEncodeError
          /\ cached_sources (self (snd (list_option p)))
             = cached_sources (self p)))
  /\ (forall e,
        rows_text 1 (x :: l) = Raise e ->
        (fst (list_option p) = Raise e
         \/ fst (list_option p) = Raise UnicodeEncodeError)
        /\ cached_sources (self (snd (list_option p)))
           = cached_sources (self p)).
Proof.
  intros Hget.
  pose proof (get_ndi_sources_frame p) as (Hc & _ & Ho).
  assert (Hopt : list_option p
                 = bind (bind (display_ndi_sources (PyList (x :: l)))
                           (fun _ => set_cached_sources (PyList (x :: l))))
                        (fun _ => ret Continue) (snd (get_ndi_sources p))).
  { unfold list_option. unfold bind at 1.
    destruct (get_ndi_sources p) as [r q]. simpl in Hget. subst r.
    reflexivity. }
  rewrite Hopt. clear Hopt Hget.
  set (q := snd (get_ndi_sources p)) in *.
  assert (Hraise : forall e,
             fst (display_ndi_sources (PyList (x :: l)) q) = Raise e ->
             fst (bind (bind (display_ndi_sources (PyList (x :: l)))
                          (fun _ => set_cached_sources (PyList (x :: l))))
                       (fun _ => ret Continue) q) = Raise e
             /\ cached_sources
                  (self (snd (bind (bind (display_ndi_sources (PyList (x :: l)))
                                      (fun _ => set_cached_sources
                                                  (PyList (x :: l))))
                                   (fun _ => ret Continue) q)))
                = cached_sources (self p)).
  { intros e Hr.
    destruct (quiet_display (PyList (x :: l)) q) as (Hc' & _).
    rewrite (bind_raises _ _ q (e := e));
      rewrite (bind_raises _ _ q Hr); [|reflexivity].
    simpl. split; [reflexivity|congruence]. }
  split.
  - intros lines Hrows. split.
    + intros Hlines. unfold bind.
      rewrite (display_output _ _ q Hrows Hlines).
      cbn. rewrite Ho. auto.
    + intros Hlines. apply Hraise.
      unfold display_ndi_sources. cbn [Py.truthy negb].
      unfold bind, lift. rewrite !print_output by fixed_text. cbn [Py.iter].
      apply (print_rows_unprintable _ _ _ Hrows Hlines).
  - intros e Hrows.
    assert (Hr : exists e',
               fst (display_ndi_sources (PyList (x :: l)) q) = Raise e'
               /\ (e' = e \/ e' = UnicodeEncodeError)).
    { unfold display_ndi_sources. cbn [Py.truthy negb].
      unfold bind, lift. rewrite !print_output by fixed_text. cbn [Py.iter].
      apply print_rows_raises, Hrows. }
    destruct Hr as (e' & Hr & He').
    destruct (Hraise e' Hr) as [H1 H2]. split; [|exact H2].
    rewrite H1. destruct He' as [->| ->]; auto.
Qed.

(** X13. Menu option 3 without a cache fetches the sources first.  When
    nothing usable comes back (a failure or an empty list) it prints
    "Fetching available sources first..." and "Failed to retrieve
    sources. Please try again.", asks for no number and reads no second
    line: the line that follows is the next choice of the menu.  The
    cache is as it was. *)
Theorem switch_without_sources_asks_for_no_number
        (p : Proc) (line : pystr) (rest : list pystr) (v : pyval) :
  stdin p = line :: rest ->
  strip line = $"3" ->
  cache_missing (self p) = true ->
  fst (get_ndi_sources
         (with_output (turn_start p)
            [Print $"Fetching available sources first..."])) = Val v ->
  Py.truthy v = false ->
  fst (menu_iteration p) = Val Continue
  /\ stdin (snd (menu_iteration p)) = rest
  /\ cached_sources (self (snd (menu_iteration p))) = cached_sources (self p)
  /\ stdout (snd (menu_iteration p))
     = stdout p ++ menu_text
       ++ [Print $"Fetching available sources first...";
           Print $"Failed to retrieve sources. Please try again."].
Proof.
  intros Hin Hchoice Hmiss Hget Hfalsy.
  rewrite (menu_iteration_read p Hin), Hchoice.
  replace (kind_of $"3") with SwitchSource by (vm_compute; reflexivity).
  unfold switch_option, bind, get_self, ret.
  change (cache_missing (self (turn_start p))) with (cache_missing (self p)).
  rewrite Hmiss. rewrite print_output by fixed_text.
  set (p1 := with_output (turn_start p)
               [Print $"Fetching available sources first..."]) in *.
  pose proof (get_ndi_sources_frame p1) as (Hc & Hi & Ho).
  destruct (get_ndi_sources p1) as [r q]. simpl in Hget, Hc, Hi, Ho. subst r.
  rewrite Hfalsy. rewrite print_output by fixed_text. cbn.
  rewrite Hc, Hi, Ho. cbn. rewrite Hin, <- !app_assoc. auto.
Qed.

(** X14. The choice of the menu is taken without the blanks around it: a
    line made of blanks, one character that is not a blank, and blanks
    again does what that character alone does; and a line made of blanks
    alone (the empty line too) is an invalid option. *)
Theorem menu_choice_ignores_blanks_around_it
        (p : Proc) (before after : pystr) (rest : list pystr) :
  Forall (fun x => str_isspace x = true) before ->
  Forall (fun x => str_isspace x = true) after ->
  (forall c,
      str_isspace c = false ->
      stdin p = (before ++ c :: after) :: rest ->
      strip (before ++ c :: after) = [c]
      /\ menu_iteration p = menu_iteration (with_first_line p [c]))
  /\ (stdin p = before :: rest ->
      menu_iteration p
      = (Val Continue,
         with_output (turn_start p)
                     [Print $"Invalid option. Please try again."])).
Proof.
  intros Hb Ha. split.
  - intros c Hc Hin.
    assert (Hs : strip (before ++ c :: after) = [c])
      by (apply strip_around; assumption).
    split; [exact Hs|].
    rewrite (menu_iteration_read p Hin), Hs.
    assert (Hin' : stdin (with_first_line p [c]) = [c] :: rest)
      by (unfold with_first_line; simpl; rewrite Hin; reflexivity).
    rewrite (menu_iteration_read _ Hin').
    assert (Hsc : strip [c] = [c])
      by (apply (@strip_around _ [] c []); auto).
    rewrite Hsc. reflexivity.
  - intros Hin. rewrite (menu_iteration_read p Hin).
    assert (Hs : strip before = []).
    { unfold strip. rewrite (@lstrip_all_blanks _ before Hb). reflexivity. }
    rewrite Hs. reflexivity.
Qed.

(** X15. The cache of the menu is well formed all along: a session that
    [main] has just created has none, and every turn of the menu leaves
    it absent or a non-empty list of dictionaries, whatever the device
    sends and whatever is typed.  With such a cache in place, option 3
    cannot fail on the number: whatever the second line is, the turn ends
    normally with both lines read. *)
Theorem cached_sources_are_always_selectable :
  (forall args p, cache_ok (fresh args p))
  /\ (forall p, cache_ok p -> cache_ok (snd (login p)))
  /\ (forall p line rest,
        cache_ok p -> stdin p = line :: rest ->
        cache_ok (snd (menu_iteration p)))
  /\ (forall p line number rest,
        cache_ok p ->
        cache_missing (self p) = false ->
        stdin p = line :: number :: rest ->
        strip line = $"3" ->
        fst (menu_iteration p) = Val Continue
        /\ stdin (snd (menu_iteration p)) = rest
        /\ cache_ok (snd (menu_iteration p))).
Proof.
  split; [|split; [|split]].
  - intros args p. exact I.
  - intros p Hok. eapply cache_ok_frame; [|exact Hok].
    pose proof (login_keeps_identity p). tauto.
  - intros p line rest Hok Hin.
    apply (menu_iteration_turn p Hok Hin).
  - intros p line number rest Hok Hmiss Hin Hchoice.
    rewrite (menu_iteration_read p Hin), Hchoice.
    replace (kind_of $"3") with SwitchSource by (vm_compute; reflexivity).
    assert (Hok0 : cache_ok (turn_start p))
      by (eapply cache_ok_frame; [|exact Hok]; reflexivity).
    assert (Hmiss0 : cache_missing (self (turn_start p)) = false)
      by exact Hmiss.
    assert (Hin0 : stdin (turn_start p) = number :: rest)
      by (unfold turn_start; simpl; rewrite Hin; reflexivity).
    rewrite (switch_option_cached _ Hmiss0).
    destruct (select_source_turn (turn_start p) Hok0 Hmiss0)
      as (Hc & _ & Hread).
    destruct (Hread _ _ Hin0) as [Hr Hi]. auto.
Qed.

(** X19. Under option 3 the outcome of a switch is printed inside the
    [try] block, and [UnicodeEncodeError] is a [ValueError].  So when
    [sys.stdout] cannot encode the name of the chosen source, the
    request goes out as for any other name, and what is printed,
    whether the switch succeeded or not, is "Please enter a valid
    number."; the turn ends normally. *)
Theorem unencodable_name_is_taken_for_a_bad_number
        (p : Proc) (line number : pystr) (rest : list pystr)
        (l : list pyval) (idx : Z) (items : list (pystr * pyval)) :
  stdin p = line :: number :: rest ->
  strip line = $"3" ->
  cached_sources (self p) = Some (PyList l) ->
  PyInt.parse number = Val idx ->
  (1 <= idx)%Z ->
  nth_error l (Z.to_nat (idx - 1)) = Some (PyDict items) ->
  let source_name := item "ndi-name" PyNone items in
  let q := with_input_read (with_output (turn_start p) [select_prompt]) 1 in
  can_print (py_str source_name) = false ->
  menu_iteration p
  = (Val Continue,
     with_output (snd (set_channel source_name q))
       [Print $"Please enter a valid number."])
  /\ (authenticated (self p) = true ->
      sent (snd (menu_iteration p))
      = sent p ++ [request (self p) (set_channel_params source_name)]).
Proof.
  intros Hin Hchoice Hcache Hparse Hidx Hnth source_name q Hname.
  assert (Hmiss : cache_missing (self (turn_start p)) = false).
  { unfold cache_missing. simpl. rewrite Hcache.
    destruct l; [destruct (Z.to_nat (idx - 1)); discriminate|reflexivity]. }
  assert (Hin' : stdin (turn_start p) = number :: rest)
    by (unfold turn_start; simpl; rewrite Hin; reflexivity).
  assert (Hturn : menu_iteration p
                  = (Val Continue,
                     with_output (snd (set_channel source_name q))
                       [Print $"Please enter a valid number."])).
  { rewrite (menu_iteration_read p Hin), Hchoice.
    replace (kind_of $"3") with SwitchSource by (vm_compute; reflexivity).
    rewrite (switch_option_cached _ Hmiss).
    rewrite (select_source_in_range (turn_start p) (items := items)
               Hin' Hparse Hcache Hidx Hnth).
    fold (item "ndi-name" PyNone items). fold source_name. fold q.
    unfold try_except, bind.
    destruct (set_channel_returns source_name q) as [ok Hret].
    destruct (set_channel source_name q) as [[ok'|e] q'];
      simpl in Hret; [|discriminate].
    destruct ok';
      rewrite print_refused by (rewrite can_print_app, Hname; reflexivity);
      cbn [is_ValueError]; rewrite print_output by fixed_text;
      reflexivity. }
  split; [exact Hturn|].
  intros Hauth. rewrite Hturn. cbn [snd sent with_output].
  assert (Hb : fst (_check_auth q) = Val true)
    by (rewrite check_auth_authenticated by exact Hauth; reflexivity).
  pose proof (set_channel_sends source_name q Hb) as (Hs & _).
  unfold after_auth in Hs. cbv zeta in Hs.
  rewrite check_auth_authenticated in Hs by exact Hauth. exact Hs.
Qed.

End Menu.

(* ================================================================== *)
(** ** What a whole run sends and prints *)
(* ================================================================== *)

Create HintDb sends.

Lemma sends_still {A} (allowed : pystr -> Request -> Prop) (m : M A) :
  (forall p,
      authenticated (self (snd (m p))) = authenticated (self p)
      /\ ip_address (self (snd (m p))) = ip_address (self p)
      /\ sent (snd (m p)) = sent p) ->
  sends_only allowed m.
Proof.
  intros Hm p Hauth. destruct (Hm p) as (Ha & Hip & Hs).
  split; [congruence|]. split; [assumption|].
  exists []. rewrite app_nil_r. auto.
Qed.

Lemma sends_ret {A} allowed (a : A) : sends_only allowed (ret a).
Proof. apply sends_still. intros p. simpl. auto. Qed.

Lemma sends_raise {A} allowed e : sends_only allowed (@raise A e).
Proof. apply sends_still. intros p. simpl. auto. Qed.

Lemma sends_lift {A} allowed (r : result A) : sends_only allowed (lift r).
Proof. apply sends_still. intros p. simpl. auto. Qed.

Lemma sends_emit allowed o : sends_only allowed (emit o).
Proof. apply sends_still. intros p. simpl. auto. Qed.

Lemma sends_print `{Runtime} allowed line : sends_only allowed (print line).
Proof.
  apply sends_still. intros p.
  destruct (print_cases line p) as [[_ ->]|[_ ->]]; simpl; auto.
Qed.

Lemma sends_input allowed text : sends_only allowed (input text).
Proof.
  apply sends_still. intros p. unfold input, bind, emit. simpl.
  destruct (stdin p); simpl; auto.
Qed.

Lemma sends_set_cached_sources allowed v :
  sends_only allowed (set_cached_sources v).
Proof. apply sends_still. intros p. simpl. auto. Qed.

Lemma sends_get_cached_sources allowed : sends_only allowed get_cached_sources.
Proof.
  apply sends_still. intros p. unfold get_cached_sources, bind, get_self.
  simpl. destruct (cached_sources (self p)); simpl; auto.
Qed.

Lemma sends_get_self allowed : sends_only allowed get_self.
Proof. apply sends_still. intros p. simpl. auto. Qed.

Lemma sends_bind {A B} allowed (m : M A) (k : A -> M B) :
  sends_only allowed m -> (forall a, sends_only allowed (k a)) ->
  sends_only allowed (bind m k).
Proof.
  intros Hm Hk p Hauth. unfold bind.
  destruct (Hm p Hauth) as (Ha & Hip & more & Hs & Hall).
  destruct (m p) as [[a|e] q]; simpl in *.
  - destruct (Hk a q Ha) as (Ha' & Hip' & more' & Hs' & Hall').
    split; [assumption|]. split; [congruence|].
    exists (more ++ more'). rewrite Hs', Hs, app_assoc. split; [reflexivity|].
    apply Forall_app. split; [assumption|]. rewrite <- Hip. assumption.
  - eauto.
Qed.

Lemma sends_try {A} allowed catches (body : M A) (handler : exn -> M A) :
  sends_only allowed body -> (forall e, sends_only allowed (handler e)) ->
  sends_only allowed (try_except catches body handler).
Proof.
  intros Hm Hk p Hauth. unfold try_except.
  destruct (Hm p Hauth) as (Ha & Hip & more & Hs & Hall).
  destruct (body p) as [[a|e] q]; simpl in *; [eauto|].
  destruct (catches e); simpl; [|eauto].
  destruct (Hk e q Ha) as (Ha' & Hip' & more' & Hs' & Hall').
  split; [assumption|]. split; [congruence|].
  exists (more ++ more'). rewrite Hs', Hs, app_assoc. split; [reflexivity|].
  apply Forall_app. split; [assumption|]. rewrite <- Hip. assumption.
Qed.

Lemma sends_if {A} allowed (b : bool) (m1 m2 : M A) :
  sends_only allowed m1 -> sends_only allowed m2 ->
  sends_only allowed (if b then m1 else m2).
Proof. destruct b; auto. Qed.

Lemma sends_weaken {A} (narrow wide : pystr -> Request -> Prop) (m : M A) :
  (forall ip r, narrow ip r -> wide ip r) ->
  sends_only narrow m -> sends_only wide m.
Proof.
  intros Hw Hm p Hauth. destruct (Hm p Hauth) as (Ha & Hip & more & Hs & Hall).
  split; [assumption|]. split; [assumption|]. exists more.
  split; [assumption|]. eapply Forall_impl; [|exact Hall]. apply Hw.
Qed.

Lemma switch_is_data ip r : switch_request ip r -> data_request ip r.
Proof.
  unfold switch_request, data_request, has_method. intros [Hu Hm].
  split; [assumption|]. rewrite Hm. intros H. vm_compute in H.
  discriminate.
Qed.

#[export] Hint Resolve sends_ret sends_raise sends_lift sends_emit
  sends_print sends_input sends_set_cached_sources sends_get_cached_sources
  sends_get_self sends_bind sends_try sends_if : sends.

Section Wire.
Context {rt : Runtime} {dev : Device}.

Lemma sends_one {A} allowed (m : M A) ps :
  (forall p,
      authenticated (self p) = true ->
      sent (snd (m p)) = sent p ++ [request (self p) ps]
      /\ self (snd (m p)) = self p) ->
  (forall sw, allowed (ip_address sw) (request sw ps)) ->
  sends_only allowed m.
Proof.
  intros Hm Hallowed p Hauth. destruct (Hm p Hauth) as [Hs Hself].
  rewrite Hself. split; [assumption|]. split; [reflexivity|].
  exists [request (self p) ps]. split; [assumption|]. auto.
Qed.

Lemma sends_set_channel source_name :
  sends_only switch_request (set_channel source_name).
Proof.
  apply sends_one with (ps := set_channel_params source_name).
  - intros p Hauth. destruct (authenticated_passes p Hauth) as [Hb Hq].
    pose proof (set_channel_sends source_name p Hb) as (Hs & Hself & _).
    cbv zeta in Hs, Hself. rewrite Hq in Hs, Hself. auto.
  - intros sw. split; reflexivity.
Qed.

Lemma sends_get_ndi_sources : sends_only data_request get_ndi_sources.
Proof.
  apply sends_one with (ps := get_ndi_sources_params).
  - intros p Hauth. destruct (authenticated_passes p Hauth) as [Hb Hq].
    pose proof (get_ndi_sources_sends p Hb) as (Hs & Hself & _).
    cbv zeta in Hs, Hself. rewrite Hq in Hs, Hself. auto.
  - intros sw. split; [reflexivity|].
    intros H. vm_compute in H. discriminate.
Qed.

Lemma sends_get_current_channel : sends_only data_request get_current_channel.
Proof.
  apply sends_one with (ps := get_channel_params).
  - intros p Hauth. destruct (authenticated_passes p Hauth) as [Hb Hq].
    pose proof (get_current_channel_sends p Hb) as (Hs & Hself & _).
    cbv zeta in Hs, Hself. rewrite Hq in Hs, Hself. auto.
  - intros sw. split; [reflexivity|].
    intros H. vm_compute in H. discriminate.
Qed.

Lemma sends_print_rows allowed sources :
  forall idx, sends_only allowed (print_rows idx sources).
Proof.
  induction sources as [|x sources IH]; intros idx; cbn [print_rows];
    auto 10 with sends.
Qed.

Lemma sends_display allowed sources :
  sends_only allowed (display_ndi_sources sources).
Proof.
  unfold display_ndi_sources. auto 20 using sends_print_rows with sends.
Qed.

Lemma sends_show_current_channel : sends_only data_request show_current_channel.
Proof.
  unfold show_current_channel.
  apply sends_bind; [apply sends_get_current_channel|].
  intros channel. auto 20 with sends.
Qed.

Lemma sends_list_option : sends_only data_request list_option.
Proof.
  unfold list_option.
  apply sends_bind; [apply sends_get_ndi_sources|].
  intros sources. auto 20 using sends_display with sends.
Qed.

Lemma sends_list_command : sends_only data_request list_command.
Proof.
  unfold list_command.
  apply sends_bind; [apply sends_get_ndi_sources|].
  intros sources. auto 20 using sends_display with sends.
Qed.

Lemma sends_set_command source : sends_only data_request (set_command source).
Proof.
  unfold set_command.
  apply sends_bind;
    [apply (@sends_weaken _ switch_request data_request _ switch_is_data),
       sends_set_channel|].
  intros ok. auto with sends.
Qed.

Lemma sends_select_source : sends_only switch_request select_source.
Proof.
  unfold select_source.
  apply sends_try; [|auto with sends].
  apply sends_bind; [auto with sends|]. intros line.
  apply sends_bind; [auto with sends|]. intros idx.
  apply sends_if; [auto with sends|].
  apply sends_bind; [auto 10 with sends|]. intros in_range.
  apply sends_if; [|auto with sends].
  apply sends_bind; [auto with sends|]. intros cached.
  apply sends_bind; [auto with sends|]. intros source.
  apply sends_bind; [auto with sends|]. intros source_name.
  apply sends_bind; [apply sends_set_channel|]. intros ok.
  auto 10 with sends.
Qed.

Lemma sends_switch_option : sends_only data_request switch_option.
Proof.
  unfold switch_option.
  apply sends_bind; [auto with sends|]. intros sw.
  apply sends_bind.
  - apply sends_if; [|auto with sends].
    apply sends_bind; [auto with sends|]. intros _.
    apply sends_bind; [apply sends_get_ndi_sources|]. intros sources.
    auto 20 using sends_display with sends.
  - intros ready. apply sends_if; [|auto with sends].
    apply (@sends_weaken _ switch_request data_request _ switch_is_data),
      sends_select_source.
Qed.

Lemma sends_menu_iteration : sends_only data_request menu_iteration.
Proof.
  unfold menu_iteration, print_menu.
  apply sends_bind; [auto 20 with sends|]. intros _.
  apply sends_bind; [auto with sends|]. intros line. cbv zeta.
  repeat apply sends_if;
    auto using sends_show_current_channel, sends_list_option,
      sends_switch_option with sends.
Qed.

Lemma sends_menu_loop fuel : forall p r q,
  authenticated (self p) = true ->
  menu_loop fuel p = Some (r, q) ->
  authenticated (self q) = true
  /\ ip_address (self q) = ip_address (self p)
  /\ exists more,
       sent q = sent p ++ more
       /\ Forall (data_request (ip_address (self p))) more.
Proof.
  induction fuel as [|fuel IH]; intros p r q Hauth; cbn [menu_loop];
    [discriminate|].
  destruct (sends_menu_iteration p Hauth) as (Ha & Hip & more & Hs & Hall).
  destruct (menu_iteration p) as [[[|]|e] q1]; simpl in Ha, Hip, Hs.
  - intros Hloop.
    destruct (IH _ _ _ Ha Hloop) as (Ha' & Hip' & more' & Hs' & Hall').
    split; [assumption|]. split; [congruence|].
    exists (more ++ more'). rewrite Hs', Hs, app_assoc. split; [reflexivity|].
    apply Forall_app. split; [assumption|]. rewrite <- Hip. assumption.
  - intros [= <- <-]. eauto.
  - intros [= <- <-]. eauto.
Qed.

Lemma sends_run_interactive_mode p r q :
  authenticated (self p) = true ->
  run_interactive_mode p = Some (r, q) ->
  exists more,
    sent q = sent p ++ more
    /\ Forall (data_request (ip_address (self p))) more.
Proof.
  intros Hauth. unfold run_interactive_mode, bind, get_self.
  rewrite print_output by fixed_text.
  match goal with
  | |- context [print ?text ?s] =>
      destruct (print_cases text s) as [[_ ->]|[_ ->]]
  end.
  - intros Hloop. apply sends_menu_loop in Hloop; [|exact Hauth].
    destruct Hloop as (_ & _ & more & Hs & Hall). eauto.
  - intros [= <- <-]. exists []. simpl. rewrite app_nil_r. auto.
Qed.

(** X16. A switch from the cache asks the device for nothing else.  On an
    authenticated session with a cache in place, a turn of option 3 sends
    only [set-channel] requests: the list of sources is not fetched again
    and there is no login. *)
Theorem switch_from_the_cache_sends_only_set_channel
        (p : Proc) (line : pystr) (rest : list pystr) :
  authenticated (self p) = true ->
  cache_missing (self p) = false ->
  stdin p = line :: rest ->
  strip line = $"3" ->
  exists more,
    sent (snd (menu_iteration p)) = sent p ++ more
    /\ Forall (switch_request (ip_address (self p))) more
    /\ Forall (fun r => ~ has_method "get-ndi-sources" r
                        /\ ~ has_method "login" r) more.
Proof.
  intros Hauth Hmiss Hin Hchoice.
  rewrite (menu_iteration_read p Hin), Hchoice.
  replace (kind_of $"3") with SwitchSource by (vm_compute; reflexivity).
  assert (Hmiss0 : cache_missing (self (turn_start p)) = false) by exact Hmiss.
  rewrite (switch_option_cached _ Hmiss0).
  destruct (sends_select_source (turn_start p) Hauth)
    as (_ & _ & more & Hs & Hall).
  exists more. split; [exact Hs|]. split; [exact Hall|].
  eapply Forall_impl; [|exact Hall].
  intros r [_ Hm]. unfold has_method in *. rewrite Hm.
  split; intros H; vm_compute in H; discriminate.
Qed.

(** X17. A run of [main] logs in once, and first.  When the password can
    be encoded, the first request of the run is the login request, to the
    address given on the command line; every request after it goes to the
    same address and none of them is a login, whatever the subcommand,
    the input and the replies are. *)
Theorem main_logs_in_once_and_first
        (args : Args.t) (p : Proc) (hash : pystr)
        (r : result unit) (q : Proc) :
  md5_of (Args.password args) = Some hash ->
  main args p = Some (r, q) ->
  let req := {| url := $"http://" ++ Args.ip args ++ $"/mwapi";
                params := [($"method", PyStr $"login");
                           ($"id", PyStr (Args.username args));
                           ($"pass", PyStr hash)] |} in
  exists more,
    sent q = sent p ++ req :: more
    /\ Forall (data_request (Args.ip args)) more
    /\ (fst (login (fresh args p)) = Val false -> more = []).
Proof.
  intros Hhash Hmain req. rewrite main_after_login in Hmain.
  pose proof (login_outcome (fresh args p)) as Hout.
  pose proof (login_keeps_identity (fresh args p)) as (Hip & _).
  assert (Hreq : login_request (self (fresh args p)) = Some req).
  { unfold login_request. cbn [fresh new_switcher snd self password
                                 MagewellSwitcher_init].
    rewrite Hhash. reflexivity. }
  rewrite Hreq in Hout. destruct Hout as [Hs Hout].
  assert (Hsent : sent (fresh args p) = sent p) by reflexivity.
  assert (Hipf : ip_address (self (fresh args p)) = Args.ip args)
    by reflexivity.
  rewrite Hsent in Hs, Hout.
  assert (Htrue : fst (login (fresh args p)) = Val true ->
                  authenticated (self (snd (login (fresh args p)))) = true).
  { intros Hv. destruct (respond (sent p ++ [req])) as [|[data|]];
      try (destruct (status_is_zero data)); destruct Hout; congruence. }
  destruct (login (fresh args p)) as [[[|]|e] q0]; simpl in Hs, Hip, Htrue.
  - specialize (Htrue eq_refl). clear Hipf.
    assert (Hdone : forall more,
               sent q = sent q0 ++ more ->
               Forall (data_request (ip_address (self q0))) more ->
               exists more0,
                 sent q = sent p ++ req :: more0
                 /\ Forall (data_request (Args.ip args)) more0
                 /\ (Val true = Val false -> more0 = [])).
    { intros more Hq Hall. exists more. rewrite Hq, Hs, <- app_assoc.
      split; [reflexivity|]. rewrite <- Hip. split; [assumption|].
      discriminate. }
    destruct (Args.command args) as [[| |source|]|].
    + injection Hmain as Hm.
      destruct (sends_show_current_channel q0 Htrue) as (_ & _ & more & Hq & Hall).
      rewrite Hm in Hq. simpl in Hq. eauto.
    + injection Hmain as Hm.
      destruct (sends_list_command q0 Htrue) as (_ & _ & more & Hq & Hall).
      rewrite Hm in Hq. simpl in Hq. eauto.
    + injection Hmain as Hm.
      destruct (sends_set_command source q0 Htrue) as (_ & _ & more & Hq & Hall).
      rewrite Hm in Hq. simpl in Hq. eauto.
    + destruct (sends_run_interactive_mode q0 Htrue Hmain) as (more & Hq & Hall).
      eauto.
    + injection Hmain as _ <-. apply (Hdone []); [|constructor].
      simpl. rewrite app_nil_r. reflexivity.
  - rewrite failed_login_exit in Hmain.
    destruct (can_print (Args.ip args)); injection Hmain as _ <-;
      exists []; simpl; rewrite Hs; auto.
  - injection Hmain as _ <-. exists []. rewrite Hs. auto.
Qed.

End Wire.

Create HintDb says.

Ltac differs :=
  unfold other_than, no_sources_text;
  let H := fresh in intros H; vm_compute in H; discriminate.

Lemma says_still {A} allowed (m : M A) :
  (forall p, stdout (snd (m p)) = stdout p) -> says_only allowed m.
Proof.
  intros Hm p. exists []. rewrite app_nil_r. auto.
Qed.

Lemma says_ret {A} allowed (a : A) : says_only allowed (ret a).
Proof. apply says_still. reflexivity. Qed.

Lemma says_raise {A} allowed e : says_only allowed (@raise A e).
Proof. apply says_still. reflexivity. Qed.

Lemma says_lift {A} allowed (r : result A) : says_only allowed (lift r).
Proof. apply says_still. reflexivity. Qed.

Lemma says_get_self allowed : says_only allowed get_self.
Proof. apply says_still. reflexivity. Qed.

Lemma says_set_cached_sources allowed v :
  says_only allowed (set_cached_sources v).
Proof. apply says_still. reflexivity. Qed.

Lemma says_get_cached_sources allowed : says_only allowed get_cached_sources.
Proof.
  apply says_still. intros p. unfold get_cached_sources, bind, get_self.
  simpl. destruct (cached_sources (self p)); reflexivity.
Qed.

Lemma says_emit (allowed : OutEvent -> Prop) o :
  allowed o -> says_only allowed (emit o).
Proof. intros Ho p. exists [o]. simpl. auto. Qed.

Lemma says_print `{Runtime} (allowed : OutEvent -> Prop) line :
  allowed (Print line) -> says_only allowed (print line).
Proof.
  intros Ho p.
  destruct (print_cases line p) as [[_ ->]|[_ ->]];
    [exists [Print line]|exists []]; simpl; rewrite ?app_nil_r; auto.
Qed.

Lemma says_input (allowed : OutEvent -> Prop) text :
  allowed (Prompt text) -> says_only allowed (input text).
Proof.
  intros Ho p. exists [Prompt text]. unfold input, bind, emit. simpl.
  destruct (stdin p); simpl; auto.
Qed.

Lemma says_bind {A B} allowed (m : M A) (k : A -> M B) :
  says_only allowed m -> (forall a, says_only allowed (k a)) ->
  says_only allowed (bind m k).
Proof.
  intros Hm Hk p. unfold bind. destruct (Hm p) as (out & Ho & Hall).
  destruct (m p) as [[a|e] q]; simpl in *; [|eauto].
  destruct (Hk a q) as (out' & Ho' & Hall').
  exists (out ++ out'). rewrite Ho', Ho, app_assoc. split; [reflexivity|].
  apply Forall_app. auto.
Qed.

Lemma says_try {A} allowed catches (body : M A) (handler : exn -> M A) :
  says_only allowed body -> (forall e, says_only allowed (handler e)) ->
  says_only allowed (try_except catches body handler).
Proof.
  intros Hm Hk p. unfold try_except. destruct (Hm p) as (out & Ho & Hall).
  destruct (body p) as [[a|e] q]; simpl in *; [eauto|].
  destruct (catches e); simpl; [|eauto].
  destruct (Hk e q) as (out' & Ho' & Hall').
  exists (out ++ out'). rewrite Ho', Ho, app_assoc. split; [reflexivity|].
  apply Forall_app. auto.
Qed.

Lemma says_if {A} allowed (b : bool) (m1 m2 : M A) :
  says_only allowed m1 -> says_only allowed m2 ->
  says_only allowed (if b then m1 else m2).
Proof. destruct b; auto. Qed.

#[export] Hint Resolve says_ret says_raise says_lift says_get_self
  says_set_cached_sources says_get_cached_sources says_emit says_print
  says_input says_bind says_try says_if : says.
#[export] Hint Extern 1 (other_than _ _) => differs : says.

Lemma format_left_wide `{Runtime} w v s :
  format_left w v = Val s -> w <= List.length s.
Proof.
  destruct v; simpl; try discriminate; intros [= <-];
    rewrite ljust_length; lia.
Qed.

Lemma row_text_wide `{Runtime} idx source line :
  row_text idx source = Val line -> 60 <= List.length line.
Proof.
  unfold row_text.
  destruct (Py.get source $"ndi-name" _) as [name|]; [|discriminate].
  destruct (Py.get source $"ip-addr" _) as [ip|]; [|discriminate].
  destruct (format_left 60 name) as [c1|] eqn:H1; [|discriminate].
  destruct (format_left 15 ip) as [c2|]; [|discriminate].
  intros [= <-]. apply format_left_wide in H1.
  rewrite length_app. cbn [List.length]. rewrite length_app. lia.
Qed.

Section Words.
Context {rt : Runtime} {dev : Device}.

Lemma says_login : says_only (other_than no_sources_text) login.
Proof.
  apply says_still. intros p. pose proof (login_keeps_identity p). tauto.
Qed.

Lemma says_get_current_channel : says_only (other_than no_sources_text) get_current_channel.
Proof.
  apply says_still. intros p. pose proof (get_current_channel_frame p). tauto.
Qed.

Lemma says_get_ndi_sources : says_only (other_than no_sources_text) get_ndi_sources.
Proof.
  apply says_still. intros p. pose proof (get_ndi_sources_frame p). tauto.
Qed.

Lemma says_set_channel source_name :
  says_only (other_than no_sources_text) (set_channel source_name).
Proof.
  apply says_still. intros p.
  pose proof (set_channel_frame source_name p). tauto.
Qed.

Lemma says_print_rows sources :
  forall idx, says_only (other_than no_sources_text) (print_rows idx sources).
Proof.
  induction sources as [|x sources IH]; intros idx; cbn [print_rows];
    [auto with says|].
  intros p. unfold bind at 1. unfold lift.
  destruct (row_text idx x) as [line|e] eqn:Hrow; [|exists []; simpl;
    rewrite app_nil_r; auto].
  apply (says_bind (m := print line)); [|intros _; apply IH].
  apply says_print. intros [= Hline].
  apply row_text_wide in Hrow. rewrite Hline in Hrow.
  vm_compute in Hrow. lia.
Qed.

(** The table of a true value. *)
Lemma says_display sources :
  Py.truthy sources = true ->
  says_only (other_than no_sources_text) (display_ndi_sources sources).
Proof.
  intros Ht. unfold display_ndi_sources. rewrite Ht. cbn [negb].
  auto 20 using says_print_rows with says.
Qed.

Lemma says_guarded_display {A} sources (k : unit -> M A) (otherwise : M A) :
  (forall u, says_only (other_than no_sources_text) (k u)) ->
  says_only (other_than no_sources_text) otherwise ->
  says_only (other_than no_sources_text)
    (if Py.truthy sources then bind (display_ndi_sources sources) k
     else otherwise).
Proof.
  intros Hk Ho. destruct (Py.truthy sources) eqn:Ht; [|assumption].
  apply says_bind; [apply says_display, Ht|assumption].
Qed.

Lemma says_show_current_channel : says_only (other_than no_sources_text) show_current_channel.
Proof.
  unfold show_current_channel.
  apply says_bind; [apply says_get_current_channel|].
  intros channel. apply says_if; [|auto with says].
  apply says_bind; [auto with says|]. intros _.
  apply says_bind; [auto with says|]. intros name.
  apply says_bind; [auto with says|]. intros _.
  apply says_bind; [auto with says|]. intros ndi.
  destruct (Py.truthy ndi); auto with says.
Qed.

Lemma says_list_command : says_only (other_than no_sources_text) list_command.
Proof.
  unfold list_command.
  apply says_bind; [apply says_get_ndi_sources|]. intros sources.
  destruct (Py.truthy sources) eqn:Ht;
    [apply says_display, Ht|auto with says].
Qed.

Lemma says_list_option : says_only (other_than no_sources_text) list_option.
Proof.
  unfold list_option.
  apply says_bind; [apply says_get_ndi_sources|]. intros sources.
  apply says_bind; [|auto with says].
  apply says_guarded_display; auto with says.
Qed.

Lemma says_set_command source : says_only (other_than no_sources_text) (set_command source).
Proof.
  unfold set_command.
  apply says_bind; [apply says_set_channel|].
  intros [|]; auto with says.
Qed.

Lemma says_select_source : says_only (other_than no_sources_text) select_source.
Proof.
  unfold select_source.
  apply says_try; [|auto with says].
  apply says_bind; [auto with says|]. intros line.
  apply says_bind; [auto with says|]. intros idx.
  apply says_if; [auto with says|].
  apply says_bind; [auto 10 with says|]. intros in_range.
  apply says_if; [|auto with says].
  apply says_bind; [auto with says|]. intros cached.
  apply says_bind; [auto with says|]. intros source.
  apply says_bind; [auto with says|]. intros source_name.
  apply says_bind; [apply says_set_channel|]. intros ok.
  apply says_bind; [|auto with says].
  destruct ok; auto with says.
Qed.

Lemma says_switch_option : says_only (other_than no_sources_text) switch_option.
Proof.
  unfold switch_option.
  apply says_bind; [auto with says|]. intros sw.
  apply says_bind.
  - apply says_if; [|auto with says].
    apply says_bind; [auto with says|]. intros _.
    apply says_bind; [apply says_get_ndi_sources|]. intros sources.
    apply says_guarded_display; auto with says.
  - intros ready. apply says_if; [apply says_select_source|auto with says].
Qed.

Lemma says_menu_iteration : says_only (other_than no_sources_text) menu_iteration.
Proof.
  unfold menu_iteration, print_menu.
  apply says_bind; [auto 20 with says|]. intros _.
  apply says_bind; [auto with says|]. intros line. cbv zeta.
  repeat apply says_if;
    auto using says_show_current_channel, says_list_option,
      says_switch_option with says.
Qed.

Lemma says_menu_loop fuel : forall p r q,
  menu_loop fuel p = Some (r, q) ->
  exists out, stdout q = stdout p ++ out /\ Forall (other_than no_sources_text) out.
Proof.
  induction fuel as [|fuel IH]; intros p r q; cbn [menu_loop];
    [discriminate|].
  destruct (says_menu_iteration p) as (out & Ho & Hall).
  destruct (menu_iteration p) as [[[|]|e] q1]; simpl in Ho.
  - intros Hloop. destruct (IH _ _ _ Hloop) as (out' & Ho' & Hall').
    exists (out ++ out'). rewrite Ho', Ho, app_assoc. split; [reflexivity|].
    apply Forall_app. auto.
  - intros [= <- <-]. eauto.
  - intros [= <- <-]. eauto.
Qed.

(** X18. No call of [print] in a run of [main] has the text "No NDI
    sources available." as its argument.  [display_ndi_sources] makes
    that call, and no other, for a value that is not true (an empty list,
    [None]); but [main] and the menu call it only with a true value and
    report an empty list as a failure, so that in a run of [main],
    whatever the subcommand, the device and the input, that branch is not
    reached, and every other call prints a text that differs from this
    one (a name that is printed inside such a text may still hold
    it). *)
Theorem no_print_call_says_no_sources :
  (forall sources p,
      Py.truthy sources = false ->
      display_ndi_sources sources p = (Val tt, with_output p [no_sources_text]))
  /\ (forall args p r q,
        main args p = Some (r, q) ->
        exists out,
          stdout q = stdout p ++ out /\ ~ In no_sources_text out).
Proof.
  split.
  - intros sources p Hf. unfold display_ndi_sources. rewrite Hf. reflexivity.
  - intros args p r q Hmain.
    cut (exists out, stdout q = stdout p ++ out /\ Forall (other_than no_sources_text) out).
    { intros (out & Ho & Hall). exists out. split; [assumption|].
      intros Hin. rewrite Forall_forall in Hall. apply (Hall _ Hin).
      reflexivity. }
    rewrite main_after_login in Hmain.
    destruct (says_login (fresh args p)) as (out0 & Ho0 & Hall0).
    change (stdout (fresh args p)) with (stdout p) in Ho0.
    assert (Hthen : forall m : M unit,
               says_only (other_than no_sources_text) m ->
               forall q0, stdout q0 = stdout p ++ out0 ->
               (r, q) = m q0 ->
               exists out, stdout q = stdout p ++ out /\ Forall (other_than no_sources_text) out).
    { intros m Hm q0 Hq0 Heq. destruct (Hm q0) as (out & Ho & Hall).
      rewrite <- Heq in Ho. simpl in Ho.
      exists (out0 ++ out). rewrite Ho, Hq0, app_assoc.
      split; [reflexivity|]. apply Forall_app. auto. }
    destruct (login (fresh args p)) as [[[|]|e] q0]; simpl in Ho0.
    + destruct (Args.command args) as [[| |source|]|].
      * apply (Hthen _ says_show_current_channel q0 Ho0). congruence.
      * apply (Hthen _ says_list_command q0 Ho0). congruence.
      * apply (Hthen _ (says_set_command source) q0 Ho0). congruence.
      * unfold run_interactive_mode, bind, get_self in Hmain.
        rewrite print_output in Hmain by fixed_text.
        match type of Hmain with
        | context [print ?text ?s] =>
            destruct (print_cases text s) as [[_ Hp]|[_ Hp]];
            rewrite Hp in Hmain
        end.
        -- apply says_menu_loop in Hmain. destruct Hmain as (out & Ho & Hall).
           cbn [stdout with_output] in Ho.
           eexists. rewrite Ho, Ho0, <- !app_assoc. split; [reflexivity|].
           repeat (apply Forall_app; split); try assumption;
             repeat constructor; differs.
        -- injection Hmain as _ <-. cbn [stdout with_output].
           eexists. rewrite Ho0, <- app_assoc. split; [reflexivity|].
           apply Forall_app. split; [assumption|]. repeat constructor.
           differs.
      * apply (Hthen (emit Help) ltac:(auto with says) q0 Ho0). congruence.
    + rewrite failed_login_exit in Hmain.
      destruct (can_print (Args.ip args)); injection Hmain as _ <-.
      * cbn [stdout with_output].
        eexists. rewrite Ho0, <- app_assoc. split; [reflexivity|].
        apply Forall_app. split; [assumption|]. repeat constructor. differs.
      * eauto.
    + injection Hmain as _ <-. eauto.
Qed.

End Words.

(* ================================================================== *)
(** ** Concrete runs of the further properties *)
(* ================================================================== *)

Lemma set_channel_true_iff_status_zero_witness :
  fst (@set_channel Sample.accepting (PyStr $"CAM-2") (Sample.proc true None []))
  = Val true.
Proof.
  destruct (@set_channel_true_iff_status_zero Sample.accepting
              (Sample.proc true None []) (PyStr $"CAM-2") eq_refl)
    as (_ & Hiff & _).
  apply Hiff. exists [($"status", PyInt 0)], (PyInt 0).
  split; [vm_compute; reflexivity|]. split; reflexivity.
Defined.

Lemma get_current_channel_returns_the_reply_witness :
  Py.truthy (PyDict [($"status", PyInt 0); ($"name", PyStr $"CAM-1");
                     ($"ndi-name", PyBool true)]) = true.
Proof.
  refine (proj2 (proj2 (@get_current_channel_returns_the_reply Sample.accepting
                          (Sample.proc true None []) _ _ _))).
  - vm_compute. reflexivity.
  - discriminate.
Defined.

Lemma first_operation_logs_in_on_the_way_witness :
  authenticated
    (self (snd (@get_ndi_sources Sample.accepting (Sample.proc false None []))))
  = true.
Proof.
  refine (proj1 (proj2 (@first_operation_logs_in_on_the_way Sample.accepting
                          (Sample.proc false None [])
                          (Scene.login_of (Sample.proc false None []))
                          PyNone eq_refl _ _))).
  - vm_compute. reflexivity.
  - eexists. split; vm_compute; reflexivity.
Defined.

Lemma failed_login_is_tried_again_witness :
  authenticated
    (self (snd (@get_ndi_sources Sample.unreachable
                  (Sample.proc false None []))))
  = false.
Proof.
  refine (proj1 (proj2 (proj2
           (@failed_login_is_tried_again Sample.unreachable
              (Sample.proc false None [])
              (Scene.login_of (Sample.proc false None [])) eq_refl _ _)))).
  - vm_compute. reflexivity.
  - vm_compute. apply transport_error.
Defined.

(** A first call that fails after its login has succeeded leaves two
    records. *)
Lemma every_failure_is_logged_once_witness :
  log (snd (@get_ndi_sources Scene.login_only (Sample.proc false None [])))
  = [(INFO, LoggedIn $"192.168.1.50");
     (ERROR, SourcesFailed (PyDict [($"status", PyInt 1)]))].
Proof.
  assert (Hlogin : fst (@login Scene.login_only (Sample.proc false None []))
                   = Val true) by (vm_compute; reflexivity).
  destruct (@every_failure_is_logged_once Scene.login_only
              (Sample.proc false None []) PyNone) as (_ & _ & H & _).
  destruct (H _ (or_intror (conj eq_refl (conj Hlogin eq_refl))))
    as (_ & Hlog & _).
  etransitivity; [exact Hlog|]. vm_compute. reflexivity.
Defined.

Lemma unencodable_password_fails_without_a_request_witness :
  exists q,
    @main Sample.rt Sample.accepting Scene.undecodable_password
      (Sample.proc false None [])
    = Some (Raise (SystemExit 1), q)
    /\ sent q = [].
Proof.
  destruct (@unencodable_password_fails_without_a_request Sample.accepting
              Sample.rt Scene.undecodable_password (Sample.proc false None []))
    as (r & q & Hmain & _ & Hsent & _ & Hprint & _).
  - vm_compute. reflexivity.
  - destruct (Hprint ltac:(vm_compute; reflexivity)) as [Hr _]. subst r.
    exists q. split; [exact Hmain|exact Hsent].
Defined.

Lemma password_hash_has_32_hex_characters_witness :
  List.length $"5f4dcc3b5aa765d61d8327deb882cf99" = 32
  /\ Forall is_lower_hex $"5f4dcc3b5aa765d61d8327deb882cf99".
Proof.
  destruct (@password_hash_has_32_hex_characters (Sample.proc false None [])
              $"5f4dcc3b5aa765d61d8327deb882cf99" (Sample.proc false None []))
    as (Hlen & Hhex & _).
  - vm_compute. reflexivity.
  - split; [exact Hlen|exact Hhex].
Defined.

Lemma display_stops_at_the_first_bad_source_witness :
  fst (@display_ndi_sources Sample.rt
         (PyList [Sample.cam1; PyInt 7; Sample.cam3]) (Sample.proc true None []))
  = Raise AttributeError
  /\ fst (@display_ndi_sources Sample.rt
            (PyList [Sample.cam1;
                     PyDict [($"ndi-name", PyStr Scene.odd_name)];
                     Sample.cam3])
            (Sample.proc true None []))
     = Raise UnicodeEncodeError.
Proof.
  split.
  - exact (f_equal fst
             (proj1 (@display_stops_at_the_first_bad_source Sample.rt)
                (Sample.proc true None []) [Sample.cam1] (PyInt 7) [Sample.cam3]
                _ AttributeError
                ltac:(vm_compute; reflexivity) ltac:(vm_compute; reflexivity)
                ltac:(vm_compute; reflexivity))).
  - exact (f_equal fst
             (proj1 (@display_stops_at_the_first_bad_source Sample.rt)
                (Sample.proc true None []) [Sample.cam1]
                (PyDict [($"ndi-name", PyStr Scene.odd_name)]) [Sample.cam3]
                _ UnicodeEncodeError
                ltac:(vm_compute; reflexivity) ltac:(vm_compute; reflexivity)
                ltac:(vm_compute; reflexivity))).
Defined.

Lemma rows_and_headings_share_their_columns_witness :
  exists a b c,
    @row_text Sample.rt 1 Scene.anonymous = Val (a ++ sep ++ b ++ sep ++ c)
    /\ List.length a = 3 /\ List.length b = 60 /\ List.length c = 15.
Proof.
  destruct (@rows_and_headings_share_their_columns Sample.rt 1
              [($"vendor", PyStr $"Magewell")] $"Unknown" $"Unknown"
              eq_refl eq_refl) as ((a & b & c & Hrow & _ & _ & _ & H) & _).
  - vm_compute. lia.
  - vm_compute. lia.
  - lia.
  - exists a, b, c. split; [exact Hrow|]. tauto.
Defined.

Lemma current_channel_report_witness :
  stdout (snd (@show_current_channel Sample.rt Sample.accepting
                 (Sample.proc true None [])))
  = [Print (NL ++ $"Current Channel:"); Print $"Name: CAM-1";
     Print $"NDI: Yes"]
  /\ fst (@show_current_channel Sample.rt Scene.oddly_named
            (Sample.proc true None []))
     = Raise UnicodeEncodeError
  /\ stdout (snd (@show_current_channel Sample.rt Scene.oddly_named
                    (Sample.proc true None [])))
     = [Print (NL ++ $"Current Channel:")].
Proof.
  split.
  - destruct (@current_channel_report Sample.rt Sample.accepting
                (Sample.proc true None []) eq_refl) as (H & _).
    destruct (H [($"status", PyInt 0); ($"name", PyStr $"CAM-1");
                 ($"ndi-name", PyBool true)]
                ltac:(vm_compute; reflexivity) eq_refl) as (Hshown & _).
    destruct (Hshown ltac:(vm_compute; reflexivity)) as [_ Hout].
    etransitivity; [exact Hout|]. vm_compute. reflexivity.
  - destruct (@current_channel_report Sample.rt Scene.oddly_named
                (Sample.proc true None []) eq_refl) as (H & _).
    destruct (H [($"status", PyInt 0); ($"name", PyStr Scene.odd_name)]
                ltac:(vm_compute; reflexivity) eq_refl) as (_ & Hodd).
    exact (Hodd ltac:(vm_compute; reflexivity)).
Defined.

Lemma set_command_report_witness :
  stdout (snd (@set_command Sample.rt Scene.login_only $"CAM-9"
                 (Sample.proc true None [])))
  = [Print $"Failed to switch to: CAM-9"].
Proof.
  destruct (@set_command_report Sample.rt Scene.login_only
              (Sample.proc true None []) $"CAM-9" eq_refl) as (_ & H & _).
  destruct (H ltac:(vm_compute; reflexivity)) as [_ Hout].
  etransitivity; [exact Hout|]. vm_compute. reflexivity.
Defined.

Lemma list_option_caches_what_it_displayed_witness :
  cached_sources
    (self (snd (@list_option Sample.rt Sample.accepting
                  (Sample.proc true None []))))
  = Some Scene.three_cameras
  /\ cached_sources
       (self (snd (@list_option Sample.rt Scene.broken_list
                     (Sample.proc true None []))))
     = None
  /\ fst (@list_option Sample.rt Scene.oddly_named (Sample.proc true None []))
     = Raise UnicodeEncodeError.
Proof.
  split.
  - destruct (@list_option_caches_what_it_displayed Sample.rt Sample.accepting
                (Sample.proc true None []) Sample.cam1
                [Sample.cam2; Sample.cam3]) as (H & _).
    + vm_compute. reflexivity.
    + destruct (H _ ltac:(vm_compute; reflexivity)) as [Hshown _].
      apply Hshown. vm_compute. reflexivity.
  - split.
    + destruct (@list_option_caches_what_it_displayed Sample.rt
                  Scene.broken_list (Sample.proc true None []) Sample.cam1
                  [PyInt 7; Sample.cam3]) as (_ & H);
        [vm_compute; reflexivity|].
      exact (proj2 (H AttributeError ltac:(vm_compute; reflexivity))).
    + destruct (@list_option_caches_what_it_displayed Sample.rt
                  Scene.oddly_named (Sample.proc true None [])
                  (PyDict [($"ndi-name", PyStr Scene.odd_name);
                           ($"ip-addr", PyStr $"10.0.0.8")]) [])
        as (H & _); [vm_compute; reflexivity|].
      destruct (H _ ltac:(vm_compute; reflexivity)) as [_ Hodd].
      exact (proj1 (Hodd ltac:(vm_compute; reflexivity))).
Defined.

Lemma switch_without_sources_asks_for_no_number_witness :
  stdin (snd (@menu_iteration Sample.rt Sample.empty_handed
                (Sample.proc true None [$"3"; $"4"])))
  = [$"4"].
Proof.
  destruct (@switch_without_sources_asks_for_no_number Sample.rt
              Sample.empty_handed (Sample.proc true None [$"3"; $"4"])
              $"3" [$"4"] (PyList [])) as (_ & H & _).
  - reflexivity.
  - vm_compute. reflexivity.
  - reflexivity.
  - vm_compute. reflexivity.
  - reflexivity.
  - exact H.
Defined.

Lemma menu_choice_ignores_blanks_around_it_witness :
  @menu_iteration Sample.rt Sample.accepting (Sample.proc true None [$"  4 "])
  = @menu_iteration Sample.rt Sample.accepting
      (with_first_line (Sample.proc true None [$"  4 "]) $"4").
Proof.
  destruct (@menu_choice_ignores_blanks_around_it Sample.rt Sample.accepting
              (Sample.proc true None [$"  4 "]) $"  " $" " []) as (H & _).
  - repeat constructor.
  - repeat constructor.
  - apply (H 52%N); reflexivity.
Defined.

Lemma cached_sources_are_always_selectable_witness :
  fst (@menu_iteration Sample.rt Sample.accepting
         (Sample.proc true (Some Scene.three_cameras) [$"3"; $"x"]))
  = Val Continue.
Proof.
  destruct (@cached_sources_are_always_selectable Sample.rt Sample.accepting)
    as (_ & _ & _ & H).
  refine (proj1 (H (Sample.proc true (Some Scene.three_cameras) [$"3"; $"x"])
                   $"3" $"x" [] _ eq_refl eq_refl _)).
  - simpl. repeat constructor.
  - vm_compute. reflexivity.
Defined.

Lemma switch_from_the_cache_sends_only_set_channel_witness :
  exists more,
    sent (snd (@menu_iteration Sample.rt Sample.accepting
                 (Sample.proc true (Some Scene.three_cameras) [$"3"; $"2"])))
    = [] ++ more
    /\ Forall (switch_request $"192.168.1.50") more.
Proof.
  destruct (@switch_from_the_cache_sends_only_set_channel Sample.rt
              Sample.accepting
              (Sample.proc true (Some Scene.three_cameras) [$"3"; $"2"])
              $"3" [$"2"] eq_refl eq_refl eq_refl)
    as (more & Hs & Hall & _).
  - vm_compute. reflexivity.
  - exists more. split; [exact Hs|exact Hall].
Defined.

Lemma main_logs_in_once_and_first_witness :
  exists q more,
    @main Sample.rt Sample.accepting (Sample.args (Some Args.list))
      (Sample.proc false None [])
    = Some (Val tt, q)
    /\ sent q
       = [] ++ Scene.login_of (fresh (Sample.args (Some Args.list))
                                 (Sample.proc false None [])) :: more
    /\ Forall (data_request $"192.168.1.50") more.
Proof.
  assert (Hmain : exists q,
             @main Sample.rt Sample.accepting (Sample.args (Some Args.list))
               (Sample.proc false None [])
             = Some (Val tt, q)) by (eexists; vm_compute; reflexivity).
  destruct Hmain as [q Hmain].
  destruct (@main_logs_in_once_and_first Sample.rt Sample.accepting
              (Sample.args (Some Args.list)) (Sample.proc false None [])
              $"5f4dcc3b5aa765d61d8327deb882cf99" (Val tt) q
              ltac:(vm_compute; reflexivity) Hmain)
    as (more & Hs & Hall & _).
  exists q, more. split; [exact Hmain|]. split; [exact Hs|exact Hall].
Defined.

Lemma no_print_call_says_no_sources_witness :
  exists q out,
    @main Sample.rt Sample.empty_handed (Sample.args (Some Args.list))
      (Sample.proc false None [])
    = Some (Val tt, q)
    /\ stdout q = [] ++ out
    /\ ~ In no_sources_text out.
Proof.
  assert (Hmain : exists q,
             @main Sample.rt Sample.empty_handed (Sample.args (Some Args.list))
               (Sample.proc false None [])
             = Some (Val tt, q)) by (eexists; vm_compute; reflexivity).
  destruct Hmain as [q Hmain].
  destruct (proj2 (@no_print_call_says_no_sources Sample.rt
                     Sample.empty_handed) _ _ _ _ Hmain)
    as (out & Ho & Hnot).
  exists q, out. split; [exact Hmain|]. split; [exact Ho|exact Hnot].
Defined.

(** The switch to a source whose name holds a lone surrogate succeeds,
    and the turn complains about the number. *)
Lemma unencodable_name_is_taken_for_a_bad_number_witness :
  @menu_iteration Sample.rt Sample.accepting
    (Sample.proc true
       (Some (PyList [PyDict [($"ndi-name", PyStr Scene.odd_name)]]))
       [$"3"; $"1"])
  = (Val Continue,
     {| self := Sample.switcher true
                  (Some (PyList [PyDict [($"ndi-name", PyStr Scene.odd_name)]]));
        sent := [request (Sample.switcher true None)
                   (set_channel_params (PyStr Scene.odd_name))];
        stdin := [];
        stdout := menu_text
                    ++ [select_prompt; Print $"Please enter a valid number."];
        log := [(INFO, Switched (PyStr Scene.odd_name))] |}).
Proof.
  etransitivity.
  - apply (@unencodable_name_is_taken_for_a_bad_number Sample.rt
             Sample.accepting
             (Sample.proc true
                (Some (PyList [PyDict [($"ndi-name", PyStr Scene.odd_name)]]))
                [$"3"; $"1"])
             $"3" $"1" []
             [PyDict [($"ndi-name", PyStr Scene.odd_name)]] 1
             [($"ndi-name", PyStr Scene.odd_name)]);
      try reflexivity; try (vm_compute; reflexivity).
  - vm_compute. reflexivity.
Defined.
